(** * ImageFX client: credential resolution, token exchange, request
      construction, response decoding and the batch run

    A shallow embedding of the Python sources
      - cookie_parser.py       (module [cookie_parser])
      - imagefx.py             (module [imagefx], the library client)
      - imagefx_cli.py         (module [imagefx_cli], the command-line loop)
      - imagefx_streamlit.py   (module [imagefx_streamlit], the web client
                                and its batch run)
    The methods that are the same in both clients up to what they print
    ([__init__], [_load_cookies_from_file], [_make_request],
    [get_auth_token]) are embedded once, in module [ImageFX].

    Conventions.
      - A Python [str] is a [string] (its characters are the codes below
        256); [len] is [String.length] and [startswith] is
        [String.prefix].
      - Values whose type is decided at run time (what [json.loads]
        returns, and the fields filled from it) are of type [value].
      - A method that mutates [self.credentials] or its [prompt] argument
        returns the new object next to its result.
      - A call that may raise returns an [outcome]; the [{"Ok": ..}] /
        [{"Err": ..}] dictionaries are the type [result].
      - Every HTTP request a method issues is appended to a log. *)

From Stdlib Require Import String Ascii ZArith List Bool Lia Permutation DecimalString.
From stdpp Require Import gmap strings.
Import ListNotations.

Set Warnings "-register-all".
Local Open Scope list_scope.
Local Open Scope string_scope.

(* ===================================================================== *)
(** ** Python values, truthiness, exceptions and results                  *)
(* ===================================================================== *)

(** What [json.loads] can return ([VNone] is [None]/[null]; JSON numbers
    are kept to the integers). *)
Inductive value : Type :=
| VNone
| VBool (b : bool)
| VInt (z : Z)
| VStr (s : string)
| VList (l : list value)
| VDict (d : list (string * value)).

(** [bool(v)]: what [if v] and [not v] test. *)
Definition truthy (v : value) : bool :=
  match v with
  | VNone => false
  | VBool b => b
  | VInt z => negb (z =? 0)%Z
  | VStr s => negb (s =? EmptyString)
  | VList l => match l with [] => false | _ => true end
  | VDict d => match d with [] => false | _ => true end
  end.

(** An [Optional[str]] field. *)
Definition of_optional (o : option string) : value :=
  match o with
  | Some s => VStr s
  | None => VNone
  end.

Definition truthy_str (o : option string) : bool := truthy (of_optional o).

(** [d[key]] and [key in d] on the items of a dictionary. *)
Fixpoint dict_get (key : string) (d : list (string * value)) : option value :=
  match d with
  | [] => None
  | (k, v) :: rest => if k =? key then Some v else dict_get key rest
  end.

Inductive exn : Type :=
| ValueError (msg : string)
| KeyError (key : value)
| IndexError
| TypeError
| AttributeError.

Inductive outcome (A : Type) : Type :=
| Return (a : A)
| Raise (e : exn).
Arguments Return {A} a.
Arguments Raise {A} e.

Definition bind {A B : Type} (m : outcome A) (k : A -> outcome B) : outcome B :=
  match m with
  | Return a => k a
  | Raise e => Raise e
  end.

Notation "'let*' x ':=' m 'in' k" := (bind m (fun x => k))
  (at level 10, x name, m at level 100, k at level 200).

(** [key in v] for a string [key]: a key of a dictionary, an element of a
    list, a substring of a string; other values are not iterable. *)
Fixpoint is_substring (key s : string) : bool :=
  String.prefix key s
  || match s with
     | EmptyString => false
     | String _ s' => is_substring key s'
     end.

Definition is_str (key : string) (v : value) : bool :=
  match v with
  | VStr s => s =? key
  | _ => false
  end.

Definition contains (key : string) (v : value) : outcome bool :=
  match v with
  | VDict d => Return (match dict_get key d with Some _ => true | None => false end)
  | VList l => Return (existsb (is_str key) l)
  | VStr s => Return (is_substring key s)
  | _ => Raise TypeError
  end.

(** [v[key]] for a string [key]. *)
Definition getitem (v : value) (key : string) : outcome value :=
  match v with
  | VDict d =>
      match dict_get key d with
      | Some x => Return x
      | None => Raise (KeyError (VStr key))
      end
  | _ => Raise TypeError
  end.

(** [v[0]]: the keys of a decoded JSON object are strings, so [0] is
    never among them. *)
Definition getitem_0 (v : value) : outcome value :=
  match v with
  | VList (x :: _) => Return x
  | VList [] => Raise IndexError
  | VStr (String ch _) => Return (VStr (String ch EmptyString))
  | VStr EmptyString => Raise IndexError
  | VDict _ => Raise (KeyError (VInt 0))
  | _ => Raise TypeError
  end.

(** [v.get(key, default)]: only a dictionary has the method. *)
Definition get (v : value) (key : string) (default : value) : outcome value :=
  match v with
  | VDict d =>
      match dict_get key d with
      | Some x => Return x
      | None => Return default
      end
  | _ => Raise AttributeError
  end.

(** The text of an error: either a message the program spells out, or one
    that embeds [str(e)] of an exception raised by the interpreter
    itself, whose wording is the interpreter's. *)
Inductive message : Type :=
| Text (s : string)
| StrOf (e : exn)                (* str(e) *)
| UnexpectedError (e : exn).     (* f"Unexpected error: {str(e)}" *)

(** [str(e)]: a [ValueError] carries the text it was raised with. *)
Definition str_exn (e : exn) : message :=
  match e with
  | ValueError msg => Text msg
  | _ => StrOf e
  end.

(** [bool(msg)]: only a spelled-out empty text is falsy (the
    interpreter's own texts and the ["Unexpected error: "] prefix are not
    empty). *)
Definition truthy_message (m : message) : bool :=
  match m with
  | Text s => negb (s =? EmptyString)
  | StrOf _ => true
  | UnexpectedError _ => true
  end.

Inductive result (A : Type) : Type :=
| Ok (a : A)
| Err (m : message).
Arguments Ok {A} a.
Arguments Err {A} m.

(* ===================================================================== *)
(** ** Data classes                                                       *)
(* ===================================================================== *)

Record Credentials : Type := mkCredentials {
  cookie : option string;
  authorization_key : value;
  cookie_file : option string
}.

Definition set_cookie (c : Credentials) (v : option string) : Credentials :=
  {| cookie := v;
     authorization_key := authorization_key c;
     cookie_file := cookie_file c |}.

Definition set_authorization_key (c : Credentials) (v : value) : Credentials :=
  {| cookie := cookie c;
     authorization_key := v;
     cookie_file := cookie_file c |}.

Module Prompt.

(** [count] and [seed] are [None] when the caller leaves them
    unspecified. *)
Record t : Type := mk {
  prompt : string;
  count : option Z;
  seed : option Z;
  model : string;
  aspect_ratio : string
}.

Definition set_model (p : t) (m : string) : t :=
  {| prompt := prompt p;
     count := count p;
     seed := seed p;
     model := m;
     aspect_ratio := aspect_ratio p |}.

End Prompt.

Module GeneratedImage.

(** The fields hold whatever the response carried. [project_title] is
    the attribute the batch run adds to an image; [None] until then. *)
Record t : Type := mk {
  encoded_image : value;
  seed : value;
  media_generation_id : value;
  is_mask_edited_image : value;
  prompt : value;
  model_name_type : value;
  workflow_id : value;
  fingerprint_log_record_id : value;
  project_title : option string
}.

Definition set_prompt (g : t) (p : value) : t :=
  {| encoded_image := encoded_image g;
     seed := seed g;
     media_generation_id := media_generation_id g;
     is_mask_edited_image := is_mask_edited_image g;
     prompt := p;
     model_name_type := model_name_type g;
     workflow_id := workflow_id g;
     fingerprint_log_record_id := fingerprint_log_record_id g;
     project_title := project_title g |}.

Definition set_project_title (g : t) (title : string) : t :=
  {| encoded_image := encoded_image g;
     seed := seed g;
     media_generation_id := media_generation_id g;
     is_mask_edited_image := is_mask_edited_image g;
     prompt := prompt g;
     model_name_type := model_name_type g;
     workflow_id := workflow_id g;
     fingerprint_log_record_id := fingerprint_log_record_id g;
     project_title := Some title |}.

End GeneratedImage.

(** The dictionary [request_body] of [generate_image], flattened. *)
Module request_body.

Record t : Type := mk {
  candidatesCount : Z;
  prompts : list string;
  seed : Z;
  aspectRatio : string;
  modelNameType : string;
  sessionId : string;
  tool : string
}.

End request_body.

(** [x or d] on an optional integer and on a string. *)
Definition or_int (x : option Z) (d : Z) : Z :=
  match x with
  | Some z => if (z =? 0)%Z then d else z
  | None => d
  end.

Definition or_str (x d : string) : string :=
  if x =? EmptyString then d else x.

(** [s.strip()]: the characters [str.isspace] accepts, below 256. *)
Definition is_space (ch : ascii) : bool :=
  let n := nat_of_ascii ch in
  ((9 <=? n) && (n <=? 13) || (28 <=? n) && (n <=? 32)
   || (n =? 133) || (n =? 160))%nat.

Fixpoint lstrip (s : string) : string :=
  match s with
  | EmptyString => EmptyString
  | String ch s' => if is_space ch then lstrip s' else s
  end.

Fixpoint rstrip (s : string) : string :=
  match s with
  | EmptyString => EmptyString
  | String ch s' =>
      match rstrip s' with
      | EmptyString => if is_space ch then EmptyString else String ch EmptyString
      | t => String ch t
      end
  end.

Definition strip (s : string) : string := rstrip (lstrip s).

(* ===================================================================== *)
(** ** The network and the state of a method call                         *)
(* ===================================================================== *)

Inductive http_method : Type := GET | POST.

(** [Authorization bearer] is the header [f"Bearer {bearer}"]. *)
Inductive header : Type :=
| Origin (v : string)
| Referer (v : string)
| Cookie (v : string)
| Authorization (bearer : value).

Record request : Type := mkRequest {
  url : string;
  method : http_method;
  headers : list header;
  body : option request_body.t
}.

(** The text of a 2xx response, with what [json.loads] makes of it
    ([None] when it raises [JSONDecodeError]). *)
Record response_text : Type := mkText {
  text : string;
  loads : option value
}.

(** What [requests] does with a request: it raises a
    [RequestException] ([raise_for_status] does so for a status that is
    not 2xx), whose [str] is [msg], or it hands back the response. *)
Inductive response : Type :=
| RequestException (msg : string)
| Response (r : response_text).

Definition network : Type := request -> response.

(** A method call on state [S]: its result or the exception it raises,
    the state it leaves, and the requests it sent, in order. *)
Definition M (S A : Type) : Type := S -> outcome A * S * list request.

Definition ret {S A : Type} (a : A) : M S A := fun s => (Return a, s, []).

Definition lift {S A : Type} (o : outcome A) : M S A := fun s => (o, s, []).

Definition and_then {S A B : Type} (m : M S A) (k : A -> M S B) : M S B :=
  fun s =>
    match m s with
    | (Return a, s1, l1) =>
        match k a s1 with
        | (r, s2, l2) => (r, s2, (l1 ++ l2)%list)
        end
    | (Raise e, s1, l1) => (Raise e, s1, l1)
    end.

Notation "'let!' x ':=' m 'in' k" := (and_then m (fun x => k))
  (at level 10, x name, m at level 100, k at level 200).

Definition get_state {S : Type} : M S S := fun s => (Return s, s, []).

Definition put_state {S : Type} (s' : S) : M S unit := fun _ => (Return tt, s', []).

(** Run a method of [self] where the state also holds the caller's
    [Prompt] object. *)
Definition on_self {P A : Type} (m : M Credentials A) : M (Credentials * P) A :=
  fun s =>
    match m (fst s) with
    | (r, c, l) => (r, (c, snd s), l)
    end.

(* ===================================================================== *)
(** ** cookie_parser.py                                                   *)
(* ===================================================================== *)

Module cookie_parser.

(** The file system as the client sees it: [Path(p).exists()] and the
    dictionary [CookieParser.parse_cookie_file(p)] returns (the cookies
    of domain labs.google; empty when the file cannot be read). *)
Record filesystem : Type := {
  path_exists : string -> bool;
  parse_cookie_file : string -> gmap string string
}.

Definition session_keys : list string :=
  [ "__Secure-next-auth.session-token"; "session-token"; "auth-token" ].

Definition csrf_keys : list string :=
  [ "__Host-next-auth.csrf-token"; "csrf-token" ].

(** [for key in keys: if key in cookies: return cookies[key]]; [None]
    after the loop. *)
Fixpoint first_key (keys : list string) (cookies : gmap string string)
  : option string :=
  match keys with
  | [] => None
  | key :: rest =>
      match cookies !! key with
      | Some v => Some v
      | None => first_key rest cookies
      end
  end.

Definition extract_session_token (cookies : gmap string string) : option string :=
  first_key session_keys cookies.

Definition extract_csrf_token (cookies : gmap string string) : option string :=
  first_key csrf_keys cookies.

Record auth_data : Type := {
  session_token : option string;
  csrf_token : option string;
  all_cookies : gmap string string
}.

Definition get_auth_credentials (fs : filesystem) (cookie_file_path : string)
  : auth_data :=
  let cookies := parse_cookie_file fs cookie_file_path in
  {| session_token := extract_session_token cookies;
     csrf_token := extract_csrf_token cookies;
     all_cookies := cookies |}.

End cookie_parser.

(* ===================================================================== *)
(** ** class ImageFX: the methods both clients share                      *)
(* ===================================================================== *)

Module ImageFX.
Import cookie_parser.

Definition session_prefix : string := "__Secure-next-auth.session-token=".

Definition path_of (c : Credentials) : string :=
  match cookie_file c with
  | Some p => p
  | None => EmptyString
  end.

(** [_load_cookies_from_file]: every exception of the body is re-raised
    as [ValueError(f"Failed to load cookies from file: {e}")]. *)
Definition _load_cookies_from_file (fs : filesystem) (c : Credentials)
  : outcome Credentials :=
  if negb (path_exists fs (path_of c)) then
    Raise (ValueError ("Failed to load cookies from file: "
                         ++ "Cookie file not found: " ++ path_of c))
  else
    let auth := get_auth_credentials fs (path_of c) in
    if truthy_str (session_token auth) then
      Return (set_cookie c (session_token auth))
    else
      Raise (ValueError ("Failed to load cookies from file: "
                           ++ "No session token found in cookie file")).

Definition cookie_text (c : Credentials) : string :=
  match cookie c with
  | Some s => s
  | None => EmptyString
  end.

(** The last step of [__init__] ("Add the missing header"). *)
Definition add_missing_header (c : Credentials) : Credentials :=
  if truthy_str (cookie c) && negb (String.prefix session_prefix (cookie_text c))
  then set_cookie c (Some (session_prefix ++ cookie_text c))
  else c.

(** [ImageFX.__init__]: returns the credentials object as the
    constructor leaves it, or the [ValueError] it raises. *)
Definition __init__ (fs : filesystem) (credentials : Credentials)
  : outcome Credentials :=
  if negb (truthy (authorization_key credentials))
     && negb (truthy_str (cookie credentials))
     && negb (truthy_str (cookie_file credentials))
  then Raise (ValueError "Authorization token, Cookie, or Cookie file must be provided.")
  else
    let* c := (if truthy_str (cookie_file credentials)
               then _load_cookies_from_file fs credentials
               else Return credentials) in
    if negb (truthy (authorization_key c)) && negb (truthy_str (cookie c))
    then Raise (ValueError "No valid authentication credentials found.")
    else if truthy_str (cookie c) && (String.length (cookie_text c) <? 70)%nat
    then Raise (ValueError "Invalid cookie was provided.")
    else Return (add_missing_header c).

(** The cookie value that reaches the length check: the session token
    of the cookie file when a cookie file is named, the cookie given
    otherwise. *)
Definition accepted_cookie (fs : filesystem) (c : Credentials) : option string :=
  if truthy_str (cookie_file c)
  then session_token (get_auth_credentials fs (path_of c))
  else cookie c.

Definition default_headers : list header :=
  [ Origin "https://labs.google"; Referer "https://labs.google" ].

(** [_make_request]: one request, sent with the two fixed headers and
    the given ones; a [RequestException] becomes [{"Err": str(e)}]. *)
Definition _make_request {S : Type} (net : network) (url : string)
    (method : http_method) (headers : list header)
    (body : option request_body.t) : M S (result response_text) :=
  fun s =>
    let req := {| url := url; method := method;
                  headers := (default_headers ++ headers)%list;
                  body := body |} in
    (Return (match net req with
             | RequestException msg => Err (Text msg)
             | Response r => Ok r
             end), s, [req]).

Definition session_url : string := "https://labs.google/fx/api/auth/session".

Definition generate_url : string := "https://aisandbox-pa.googleapis.com/v1:runImageFx".

(** [get_auth_token]: only [JSONDecodeError] is caught, so what
    [in] and the subscript raise on a decoded value that is not a
    dictionary escapes. *)
Definition get_auth_token (net : network) (mutate : bool)
  : M Credentials (result value) :=
  let! c := get_state in
  if negb (truthy_str (cookie c)) then
    ret (Err (Text "Cookie is required for generating auth token."))
  else
    let! result := _make_request net session_url GET [Cookie (cookie_text c)] None in
    match result with
    | Err m => ret (Err m)
    | Ok r =>
        match loads r with
        | None => ret (Err (Text ("Failed to parse response: " ++ text r)))
        | Some parsed_resp =>
            let! present := lift (contains "access_token" parsed_resp) in
            if negb present then
              ret (Err (Text ("Access token is missing from response: " ++ text r)))
            else
              let! _ := (if mutate then
                           let! token := lift (getitem parsed_resp "access_token") in
                           put_state (set_authorization_key c token)
                         else ret tt) in
              let! token := lift (getitem parsed_resp "access_token") in
              ret (Ok token)
        end
    end.

End ImageFX.

(** [try: m except KeyError: return h]. *)
Definition except_KeyError {A : Type} (m : outcome A) (h : A) : outcome A :=
  match m with
  | Raise (KeyError _) => Return h
  | other => other
  end.

Definition client_sessionId : string := ";1740658431200".

Definition client_tool : string := "IMAGE_FX".

(* ===================================================================== *)
(** ** imagefx.py: the library client                                     *)
(* ===================================================================== *)

Module imagefx.
Import ImageFX.

Definition check_token (net : network) : M Credentials (result bool) :=
  let! c := get_state in
  if negb (truthy (authorization_key c)) && negb (truthy_str (cookie c)) then
    ret (Err (Text "Authorization token and Cookie both are missing."))
  else if truthy_str (cookie c) && negb (truthy (authorization_key c)) then
    let! result := get_auth_token net true in
    match result with
    | Err m => ret (Err m)
    | Ok _ => ret (Ok true)
    end
  else ret (Ok true).

(** [if prompt.model == "IMAGEN_4": prompt.model = "IMAGEN_3_5"]:
    the assignment is to the caller's object. *)
Definition alias_model (prompt : Prompt.t) : Prompt.t :=
  if Prompt.model prompt =? "IMAGEN_4"
  then Prompt.set_model prompt "IMAGEN_3_5"
  else prompt.

Definition build_request_body (prompt : Prompt.t) : request_body.t :=
  {| request_body.candidatesCount := or_int (Prompt.count prompt) 4;
     request_body.prompts := [Prompt.prompt prompt];
     request_body.seed := or_int (Prompt.seed prompt) 0;
     request_body.aspectRatio :=
       or_str (Prompt.aspect_ratio prompt) "IMAGE_ASPECT_RATIO_LANDSCAPE";
     request_body.modelNameType := or_str (Prompt.model prompt) "IMAGEN_3_5";
     request_body.sessionId := client_sessionId;
     request_body.tool := client_tool |}.

(** [GeneratedImage(encoded_image=img["encodedImage"], ...)]: every
    field is a subscript. *)
Definition to_image (img : value) : outcome GeneratedImage.t :=
  let* encoded_image := getitem img "encodedImage" in
  let* seed := getitem img "seed" in
  let* media_generation_id := getitem img "mediaGenerationId" in
  let* is_mask_edited_image := getitem img "isMaskEditedImage" in
  let* prompt := getitem img "prompt" in
  let* model_name_type := getitem img "modelNameType" in
  let* workflow_id := getitem img "workflowId" in
  let* fingerprint_log_record_id := getitem img "fingerprintLogRecordId" in
  Return {| GeneratedImage.encoded_image := encoded_image;
            GeneratedImage.seed := seed;
            GeneratedImage.media_generation_id := media_generation_id;
            GeneratedImage.is_mask_edited_image := is_mask_edited_image;
            GeneratedImage.prompt := prompt;
            GeneratedImage.model_name_type := model_name_type;
            GeneratedImage.workflow_id := workflow_id;
            GeneratedImage.fingerprint_log_record_id := fingerprint_log_record_id;
            GeneratedImage.project_title := None |}.

(** The loop [for img in images: generated_images.append(...)]. *)
Fixpoint convert (images : list value) (generated_images : list GeneratedImage.t)
  : outcome (list GeneratedImage.t) :=
  match images with
  | [] => Return generated_images
  | img :: rest =>
      let* g := to_image img in
      convert rest (generated_images ++ [g])%list
  end.

(** The [try] block that follows the request: [JSONDecodeError] and
    [KeyError] become an [Err]; any other exception escapes. *)
Definition decode (r : response_text) : outcome (result (list GeneratedImage.t)) :=
  match loads r with
  | None => Return (Err (Text ("Failed to parse JSON: " ++ text r)))
  | Some parsed_res =>
      except_KeyError
        (let* panels := getitem parsed_res "imagePanels" in
         let* panel := getitem_0 panels in
         let* images := getitem panel "generatedImages" in
         match images with
         | VList imgs =>
             let* generated_images := convert imgs [] in
             Return (Ok generated_images)
         | _ => Return (Err (Text ("Invalid response received: " ++ text r)))
         end)
        (Err (Text ("Failed to parse JSON: " ++ text r)))
  end.

(** [generate_image]: the state is [self.credentials] and the [prompt]
    object the caller passed. *)
Definition generate_image (net : network)
  : M (Credentials * Prompt.t) (result (list GeneratedImage.t)) :=
  let! token_res := on_self (check_token net) in
  match token_res with
  | Err m => ret (Err m)
  | Ok _ =>
      let! s := get_state in
      let! _ := put_state (fst s, alias_model (snd s)) in
      let! s := get_state in
      let request_body := build_request_body (snd s) in
      let! result := _make_request net generate_url POST
                       [Authorization (authorization_key (fst s))]
                       (Some request_body) in
      match result with
      | Err m => ret (Err m)
      | Ok r => lift (decode r)
      end
  end.

End imagefx.

(* ===================================================================== *)
(** ** imagefx_cli.py: the loop over the prompts                          *)
(* ===================================================================== *)

Module imagefx_cli.

Record args : Type := {
  arg_count : option Z;
  arg_seed : option Z;
  arg_model : string;
  arg_ratio : string
}.

(** [img.prompt = prompt_text] for every image of a result. *)
Definition stamp_prompt (prompt_text : string) (imgs : list GeneratedImage.t)
  : list GeneratedImage.t :=
  map (fun img => GeneratedImage.set_prompt img (VStr prompt_text)) imgs.

(** The body of [for prompt_index, prompt_text in enumerate(prompts)]
    in [main], on the one [imagefx] object of the run: a fresh [Prompt],
    one [generate_image]; an [Err] is printed and the loop continues.
    [nets i] is what the network answers during the call for prompt [i]. *)
Fixpoint process_prompts (nets : nat -> network) (a : args) (prompt_index : nat)
    (prompts : list string) (all_generated_images : list GeneratedImage.t)
  : M Credentials (list GeneratedImage.t) :=
  match prompts with
  | [] => ret all_generated_images
  | prompt_text :: rest =>
      fun c =>
        let prompt := {| Prompt.prompt := strip prompt_text;
                         Prompt.count := arg_count a;
                         Prompt.seed := arg_seed a;
                         Prompt.model := arg_model a;
                         Prompt.aspect_ratio := arg_ratio a |} in
        match imagefx.generate_image (nets prompt_index) (c, prompt) with
        | (Raise e, s, l) => (Raise e, fst s, l)
        | (Return result, s, l) =>
            let all' := match result with
                        | Err _ => all_generated_images
                        | Ok imgs => (all_generated_images ++ stamp_prompt prompt_text imgs)%list
                        end in
            match process_prompts nets a (S prompt_index) rest all' (fst s) with
            | (r, c', l') => (r, c', (l ++ l')%list)
            end
        end
  end.

End imagefx_cli.

(* ===================================================================== *)
(** ** imagefx_streamlit.py: the web client                               *)
(* ===================================================================== *)

Module imagefx_streamlit.
Import ImageFX.

Definition check_token (net : network) : M Credentials (result bool) :=
  let! c := get_state in
  if negb (truthy (authorization_key c)) && negb (truthy_str (cookie c)) then
    ret (Err (Text "Authorization token and Cookie both are missing."))
  else if truthy_str (cookie c) && negb (truthy (authorization_key c)) then
    let! result := get_auth_token net true in
    match result with
    | Err m => ret (Err m)
    | Ok _ =>
        let! c' := get_state in
        if negb (truthy (authorization_key c')) then
          ret (Err (Text "Failed to obtain authorization token from cookie"))
        else ret (Ok true)
    end
  else ret (Ok true).

(** The model and the aspect ratio that go on the wire. *)
Definition actual_model (prompt : Prompt.t) : string :=
  if Prompt.model prompt =? "IMAGEN_3" then Prompt.aspect_ratio prompt
  else if Prompt.model prompt =? "IMAGEN_4" then "IMAGEN_3_5"
  else Prompt.model prompt.

Definition wire_aspect_ratio (prompt : Prompt.t) : string :=
  if Prompt.model prompt =? "IMAGEN_3" then "IMAGE_ASPECT_RATIO_UNSPECIFIED"
  else Prompt.aspect_ratio prompt.

Definition build_request_body (prompt : Prompt.t) : request_body.t :=
  {| request_body.candidatesCount := or_int (Prompt.count prompt) 4;
     request_body.prompts := [Prompt.prompt prompt];
     request_body.seed := or_int (Prompt.seed prompt) 0;
     request_body.aspectRatio := wire_aspect_ratio prompt;
     request_body.modelNameType := actual_model prompt;
     request_body.sessionId := client_sessionId;
     request_body.tool := client_tool |}.

(** [GeneratedImage(encoded_image=img["encodedImage"],
    seed=img.get("seed", 0), ...)]. *)
Definition to_image (prompt : Prompt.t) (img : value) : outcome GeneratedImage.t :=
  let* encoded_image := getitem img "encodedImage" in
  let* seed := get img "seed" (VInt 0) in
  let* media_generation_id := get img "mediaGenerationId" (VStr EmptyString) in
  let* is_mask_edited_image := get img "isMaskEditedImage" (VBool false) in
  let* prompt_echo := get img "prompt" (VStr (Prompt.prompt prompt)) in
  let* model_name_type := get img "modelNameType" (VStr (actual_model prompt)) in
  let* workflow_id := get img "workflowId" (VStr EmptyString) in
  let* fingerprint_log_record_id := get img "fingerprintLogRecordId" (VStr EmptyString) in
  Return {| GeneratedImage.encoded_image := encoded_image;
            GeneratedImage.seed := seed;
            GeneratedImage.media_generation_id := media_generation_id;
            GeneratedImage.is_mask_edited_image := is_mask_edited_image;
            GeneratedImage.prompt := prompt_echo;
            GeneratedImage.model_name_type := model_name_type;
            GeneratedImage.workflow_id := workflow_id;
            GeneratedImage.fingerprint_log_record_id := fingerprint_log_record_id;
            GeneratedImage.project_title := None |}.

(** The loop over [images]: an entry that raises [KeyError] is skipped
    ([continue]); another exception leaves the loop. *)
Fixpoint convert (prompt : Prompt.t) (images : list value)
    (generated_images : list GeneratedImage.t) : outcome (list GeneratedImage.t) :=
  match images with
  | [] => Return generated_images
  | img :: rest =>
      match to_image prompt img with
      | Return g => convert prompt rest (generated_images ++ [g])%list
      | Raise (KeyError _) => convert prompt rest generated_images
      | Raise e => Raise e
      end
  end.

(** [response_text[:200]]. *)
Definition first_200 (s : string) : string := String.substring 0 200 s.

(** [except Exception as e: return {"Err": f"Unexpected error: {str(e)}"}]. *)
Definition except_Exception {A : Type} (m : outcome (result A)) : result A :=
  match m with
  | Return r => r
  | Raise e => Err (UnexpectedError e)
  end.

(** The [try] block that follows the request. *)
Definition decode (prompt : Prompt.t) (r : response_text)
  : result (list GeneratedImage.t) :=
  match loads r with
  | None => Err (Text ("Failed to parse JSON: " ++ first_200 (text r) ++ "..."))
  | Some parsed_res =>
      except_Exception
        (let* present := contains "imagePanels" parsed_res in
         if negb present then
           Return (Err (Text ("Unexpected response structure: "
                                ++ first_200 (text r) ++ "...")))
         else
           let* panels := getitem parsed_res "imagePanels" in
           if negb (truthy panels) then
             Return (Err (Text "No image panels in response"))
           else
             let* panels := getitem parsed_res "imagePanels" in
             let* panel := getitem_0 panels in
             let* images := get panel "generatedImages" (VList []) in
             match images with
             | VList imgs =>
                 if negb (truthy images) then
                   Return (Err (Text "No images generated"))
                 else
                   let* generated_images := convert prompt imgs [] in
                   match generated_images with
                   | [] => Return (Err (Text "Failed to parse any images from response"))
                   | _ => Return (Ok generated_images)
                   end
             | _ => Return (Err (Text ("Invalid response received: "
                                         ++ first_200 (text r) ++ "...")))
             end)
  end.

(** [generate_image]: the state is [self.credentials] and the [prompt]
    object the caller passed, which is only read. *)
Definition generate_image (net : network)
  : M (Credentials * Prompt.t) (result (list GeneratedImage.t)) :=
  let! token_res := on_self (check_token net) in
  match token_res with
  | Err m => ret (Err m)
  | Ok _ =>
      let! s := get_state in
      let request_body := build_request_body (snd s) in
      let! result := _make_request net generate_url POST
                       [Authorization (authorization_key (fst s))]
                       (Some request_body) in
      match result with
      | Err m => ret (Err m)
      | Ok r => ret (decode (snd s) r)
      end
  end.

(** *** The batch run of [main] *)

(** What the sidebar hands to the run. *)
Record sidebar : Type := {
  sb_cookie : option string;
  sb_auth_token : option string;
  sb_cookie_file : option string;
  sb_count : option Z;
  sb_seed : option Z;
  sb_model : string;
  sb_aspect_ratio : string
}.

(** An entry of [valid_projects]. *)
Record project : Type := {
  title : string;
  prompts : list string;
  project_index : nat
}.

(** The dictionary [error_data]; the key [project_title] is added when
    the entry is put on [failed_prompts]. *)
Record error_data : Type := {
  ed_prompt : string;
  ed_error : message;
  ed_index : nat;
  ed_project_title : option string
}.

Definition set_ed_project_title (e : error_data) (t : string) : error_data :=
  {| ed_prompt := ed_prompt e;
     ed_error := ed_error e;
     ed_index := ed_index e;
     ed_project_title := Some t |}.

(** The part of [st.session_state] the run writes. *)
Record session_state : Type := {
  all_generated_images : list GeneratedImage.t;
  failed_prompts : list error_data;
  generation_complete : bool;
  generating : bool;
  show_download_button : bool;
  current_title : string
}.

(** The 4-tuple [process_single_prompt] returns. *)
Record worker_result : Type := {
  wr_images : option (list GeneratedImage.t);
  wr_prompt_text : string;
  wr_error : option message;
  wr_error_data : option error_data
}.

Definition failed (prompt_index : nat) (prompt_text : string) (m : message)
  : worker_result :=
  {| wr_images := None;
     wr_prompt_text := prompt_text;
     wr_error := Some m;
     wr_error_data := Some {| ed_prompt := prompt_text;
                              ed_error := m;
                              ed_index := prompt_index + 1;
                              ed_project_title := None |} |}.

(** The [Prompt] object a worker builds from the sidebar settings. *)
Definition prompt_obj (ui : sidebar) (prompt_text : string) : Prompt.t :=
  {| Prompt.prompt := strip prompt_text;
     Prompt.count := sb_count ui;
     Prompt.seed := sb_seed ui;
     Prompt.model := sb_model ui;
     Prompt.aspect_ratio := sb_aspect_ratio ui |}.

(** [process_single_prompt]: a fresh [Credentials] and a fresh [ImageFX]
    for each prompt; every exception ends in the [except Exception]
    branch. [net] is what the network answers to this worker. *)
Definition process_single_prompt (fs : cookie_parser.filesystem) (net : network)
    (ui : sidebar) (prompt_data : nat * string) : worker_result * list request :=
  let prompt_index := fst prompt_data in
  let prompt_text := snd prompt_data in
  let credentials := {| cookie := sb_cookie ui;
                        authorization_key := of_optional (sb_auth_token ui);
                        cookie_file := sb_cookie_file ui |} in
  match __init__ fs credentials with
  | Raise e => (failed prompt_index prompt_text (str_exn e), [])
  | Return self =>
      match generate_image net (self, prompt_obj ui prompt_text) with
      | (Raise e, _, l) => (failed prompt_index prompt_text (str_exn e), l)
      | (Return (Err m), _, l) => (failed prompt_index prompt_text m, l)
      | (Return (Ok imgs), _, l) =>
          ({| wr_images := Some (imagefx_cli.stamp_prompt prompt_text imgs);
              wr_prompt_text := prompt_text;
              wr_error := None;
              wr_error_data := None |}, l)
      end
  end.

(** An entry of [batch_results]. *)
Record batch_result : Type := {
  br_prompt_index : nat;
  br_result : worker_result;
  br_project_title : string
}.

(** [enumerate(l, start)]. *)
Definition enumerate {A : Type} (l : list A) (start : nat) : list (nat * A) :=
  combine (seq start (List.length l)) l.

(** [range(0, n, batch_size)]. *)
Definition batch_size : nat := 3.

Definition batch_starts (n : nat) : list nat :=
  map (fun k => k * batch_size) (seq 0 ((n + batch_size - 1) / batch_size)).

Definition batch_prompts (project_prompts : list string) (batch_start : nat)
  : list (nat * string) :=
  let batch_end := Nat.min (batch_start + batch_size) (List.length project_prompts) in
  enumerate (firstn (batch_end - batch_start) (skipn batch_start project_prompts))
            (batch_start + 1).

(** [concurrent.futures.as_completed]: the futures come in the order in
    which they finish. [choices] says which of the pending futures
    finishes next (a number is taken modulo how many are pending, a
    missing one is 0), so every order of completion is some [choices]. *)
Fixpoint as_completed_aux {A : Type} (fuel : nat) (choices : list nat)
    (pending : list A) : list A :=
  match fuel with
  | O => []
  | S fuel' =>
      let i := hd 0 choices mod List.length pending in
      match nth_error pending i with
      | Some x =>
          x :: as_completed_aux fuel' (tl choices)
                 (firstn i pending ++ skipn (S i) pending)%list
      | None => []
      end
  end.

Definition as_completed {A : Type} (choices : list nat) (pending : list A) : list A :=
  as_completed_aux (List.length pending) choices pending.

Definition truthy_error (e : option message) : bool :=
  match e with
  | Some m => truthy_message m
  | None => false
  end.

(** One turn of [for result in batch_results]: the writes to
    [st.session_state]. *)
Definition record_result (st : session_state) (r : batch_result) : session_state :=
  if truthy_error (wr_error (br_result r)) then
    match wr_error_data (br_result r) with
    | Some ed =>
        {| all_generated_images := all_generated_images st;
           failed_prompts :=
             (failed_prompts st ++ [set_ed_project_title ed (br_project_title r)])%list;
           generation_complete := generation_complete st;
           generating := generating st;
           show_download_button := show_download_button st;
           current_title := current_title st |}
    | None => st
    end
  else
    match wr_images (br_result r) with
    | Some (img :: imgs) =>
        {| all_generated_images :=
             (all_generated_images st
                ++ map (fun g => GeneratedImage.set_project_title g (br_project_title r))
                       (img :: imgs))%list;
           failed_prompts := failed_prompts st;
           generation_complete := generation_complete st;
           generating := generating st;
           show_download_button := show_download_button st;
           current_title := current_title st |}
    | _ => st
    end.

(** One batch: the workers run (their requests are logged worker by
    worker, in the order of submission), the results are collected in the
    order of completion, then recorded. [nets i] is the network as the
    worker of prompt [i] sees it. *)
Definition run_batch (fs : cookie_parser.filesystem) (nets : nat -> network)
    (choices : list nat) (ui : sidebar) (project_title : string)
    (batch : list (nat * string)) (st : session_state)
  : session_state * list request :=
  let futures :=
    map (fun prompt_data =>
           (prompt_data, process_single_prompt fs (nets (fst prompt_data)) ui prompt_data))
        batch in
  let batch_results :=
    map (fun f => {| br_prompt_index := fst (fst f);
                     br_result := fst (snd f);
                     br_project_title := project_title |})
        (as_completed choices futures) in
  (fold_left record_result batch_results st,
   concat (map (fun f => snd (snd f)) futures)).

(** [for batch_start in range(0, len(project_prompts), batch_size)].
    [order b] gives the order of completion in the batch that starts
    at [b]. *)
Fixpoint run_batches (fs : cookie_parser.filesystem) (nets : nat -> network)
    (order : nat -> list nat) (ui : sidebar) (p : project)
    (starts : list nat) (st : session_state) : session_state * list request :=
  match starts with
  | [] => (st, [])
  | batch_start :: rest =>
      match run_batch fs nets (order batch_start) ui (title p)
                      (batch_prompts (prompts p) batch_start) st with
      | (st1, l1) =>
          match run_batches fs nets order ui p rest st1 with
          | (st2, l2) => (st2, (l1 ++ l2)%list)
          end
      end
  end.

(** [for project_idx, project in enumerate(valid_projects)]. *)
Fixpoint run_projects (fs : cookie_parser.filesystem)
    (nets : nat -> nat -> network) (order : nat -> nat -> list nat)
    (ui : sidebar) (project_idx : nat) (projects : list project)
    (st : session_state) : session_state * list request :=
  match projects with
  | [] => (st, [])
  | p :: rest =>
      match run_batches fs (nets project_idx) (order project_idx) ui p
                        (batch_starts (List.length (prompts p))) st with
      | (st1, l1) =>
          match run_projects fs nets order ui (S project_idx) rest st1 with
          | (st2, l2) => (st2, (l1 ++ l2)%list)
          end
      end
  end.

(** The [st.error(..); return] exits of the run. *)
Inductive rejection : Type :=
| NoCredentials
| CookieFileNotFound
| TooManyPrompts (project_number : nat) (project_title : string) (count : nat).

(** The loop that validates the prompt count of each project. *)
Fixpoint validate (i : nat) (projects : list project) : option rejection :=
  match projects with
  | [] => None
  | p :: rest =>
      if (50 <? List.length (prompts p))%nat
      then Some (TooManyPrompts (i + 1) (title p) (List.length (prompts p)))
      else validate (S i) rest
  end.

Definition first_title (projects : list project) : string :=
  match projects with
  | p :: _ => title p
  | [] => EmptyString
  end.

(** The handler of the Generate button, from the check of the
    credentials on: [None] when the run went through, the rejection
    otherwise; the session state it leaves; the requests sent. *)
Definition run (fs : cookie_parser.filesystem) (nets : nat -> nat -> network)
    (order : nat -> nat -> list nat) (ui : sidebar)
    (valid_projects : list project) (st : session_state)
  : option rejection * session_state * list request :=
  if negb (truthy_str (sb_cookie ui)) && negb (truthy_str (sb_auth_token ui))
     && negb (truthy_str (sb_cookie_file ui))
  then (Some NoCredentials, st, [])
  else if truthy_str (sb_cookie_file ui)
          && negb (cookie_parser.path_exists fs (default EmptyString (sb_cookie_file ui)))
  then (Some CookieFileNotFound, st, [])
  else
    let st0 := {| all_generated_images := [];
                  failed_prompts := [];
                  generation_complete := false;
                  generating := true;
                  show_download_button := show_download_button st;
                  current_title := first_title valid_projects |} in
    match validate 0 valid_projects with
    | Some r =>
        (Some r,
         {| all_generated_images := all_generated_images st0;
            failed_prompts := failed_prompts st0;
            generation_complete := generation_complete st0;
            generating := false;
            show_download_button := show_download_button st0;
            current_title := current_title st0 |},
         [])
    | None =>
        match run_projects fs nets order ui 0 valid_projects st0 with
        | (st1, l) =>
            (None,
             {| all_generated_images := all_generated_images st1;
                failed_prompts := failed_prompts st1;
                generation_complete := true;
                generating := false;
                show_download_button := true;
                current_title := current_title st1 |},
             l)
        end
    end.

End imagefx_streamlit.

(* ===================================================================== *)
(** ** Vocabulary of the statements                                       *)
(* ===================================================================== *)

(** The request [get_auth_token] sends, and the one [generate_image]
    sends with bearer [key] and body [b]. *)
Definition session_request (c : Credentials) : request :=
  {| url := ImageFX.session_url; method := GET;
     headers := (ImageFX.default_headers ++ [Cookie (ImageFX.cookie_text c)])%list;
     body := None |}.

Definition generate_request (key : value) (b : request_body.t) : request :=
  {| url := ImageFX.generate_url; method := POST;
     headers := (ImageFX.default_headers ++ [Authorization key])%list;
     body := Some b |}.

(** The token exchanges of a log. *)
Definition session_requests (l : list request) : list request :=
  filter (fun req => url req =? ImageFX.session_url) l.

(** The fields [imagefx.to_image] subscripts. *)
Definition image_fields : list string :=
  [ "encodedImage"; "seed"; "mediaGenerationId"; "isMaskEditedImage"; "prompt";
    "modelNameType"; "workflowId"; "fingerprintLogRecordId" ].

(** The image the web client makes of an entry [d] that has
    [encodedImage]: each other field is the entry's, or its default. *)
Definition filled (prompt : Prompt.t) (d : list (string * value)) (enc : value)
  : GeneratedImage.t :=
  {| GeneratedImage.encoded_image := enc;
     GeneratedImage.seed := default (VInt 0) (dict_get "seed" d);
     GeneratedImage.media_generation_id :=
       default (VStr EmptyString) (dict_get "mediaGenerationId" d);
     GeneratedImage.is_mask_edited_image :=
       default (VBool false) (dict_get "isMaskEditedImage" d);
     GeneratedImage.prompt := default (VStr (Prompt.prompt prompt)) (dict_get "prompt" d);
     GeneratedImage.model_name_type :=
       default (VStr (imagefx_streamlit.actual_model prompt)) (dict_get "modelNameType" d);
     GeneratedImage.workflow_id := default (VStr EmptyString) (dict_get "workflowId" d);
     GeneratedImage.fingerprint_log_record_id :=
       default (VStr EmptyString) (dict_get "fingerprintLogRecordId" d);
     GeneratedImage.project_title := None |}.

(** The entries the web client keeps, in order. *)
Fixpoint usable (prompt : Prompt.t) (ds : list (list (string * value)))
  : list GeneratedImage.t :=
  match ds with
  | [] => []
  | d :: rest =>
      match dict_get "encodedImage" d with
      | Some enc => filled prompt d enc :: usable prompt rest
      | None => usable prompt rest
      end
  end.

(** The two guards on the credentials that [run] passes before it looks
    at the projects. *)
Definition credentials_given (fs : cookie_parser.filesystem)
    (ui : imagefx_streamlit.sidebar) : bool :=
  negb (negb (truthy_str (imagefx_streamlit.sb_cookie ui))
        && negb (truthy_str (imagefx_streamlit.sb_auth_token ui))
        && negb (truthy_str (imagefx_streamlit.sb_cookie_file ui)))
  && negb (truthy_str (imagefx_streamlit.sb_cookie_file ui)
           && negb (cookie_parser.path_exists fs
                      (default EmptyString (imagefx_streamlit.sb_cookie_file ui)))).

(** What one entry of [batch_results] adds to the two lists. *)
Definition recorded_images (r : imagefx_streamlit.batch_result) : list GeneratedImage.t :=
  if imagefx_streamlit.truthy_error
       (imagefx_streamlit.wr_error (imagefx_streamlit.br_result r))
  then []
  else match imagefx_streamlit.wr_images (imagefx_streamlit.br_result r) with
       | Some imgs =>
           map (fun g => GeneratedImage.set_project_title g
                           (imagefx_streamlit.br_project_title r)) imgs
       | None => []
       end.

Definition recorded_failures (r : imagefx_streamlit.batch_result)
  : list imagefx_streamlit.error_data :=
  if imagefx_streamlit.truthy_error
       (imagefx_streamlit.wr_error (imagefx_streamlit.br_result r))
  then match imagefx_streamlit.wr_error_data (imagefx_streamlit.br_result r) with
       | Some ed =>
           [imagefx_streamlit.set_ed_project_title ed
              (imagefx_streamlit.br_project_title r)]
       | None => []
       end
  else [].

(** The worker of a prompt, the entry of [batch_results] it ends in, and
    the images of the prompt as they enter [all_generated_images]. *)
Definition worker (fs : cookie_parser.filesystem) (nets : nat -> network)
    (ui : imagefx_streamlit.sidebar) (pd : nat * string)
  : imagefx_streamlit.worker_result :=
  fst (imagefx_streamlit.process_single_prompt fs (nets (fst pd)) ui pd).

Definition entry_of (fs : cookie_parser.filesystem) (nets : nat -> network)
    (ui : imagefx_streamlit.sidebar) (project_title : string) (pd : nat * string)
  : imagefx_streamlit.batch_result :=
  {| imagefx_streamlit.br_prompt_index := fst pd;
     imagefx_streamlit.br_result := worker fs nets ui pd;
     imagefx_streamlit.br_project_title := project_title |}.

Definition succeeded (fs : cookie_parser.filesystem) (nets : nat -> network)
    (ui : imagefx_streamlit.sidebar) (pd : nat * string) : Prop :=
  exists imgs,
    worker fs nets ui pd
    = {| imagefx_streamlit.wr_images := Some imgs;
         imagefx_streamlit.wr_prompt_text := snd pd;
         imagefx_streamlit.wr_error := None;
         imagefx_streamlit.wr_error_data := None |}.

Definition titled_images (fs : cookie_parser.filesystem) (nets : nat -> network)
    (ui : imagefx_streamlit.sidebar) (project_title : string) (pd : nat * string)
  : list GeneratedImage.t :=
  map (fun g => GeneratedImage.set_project_title g project_title)
      (default [] (imagefx_streamlit.wr_images (worker fs nets ui pd))).

(* ===================================================================== *)
(** ** Sample inputs                                                      *)
(* ===================================================================== *)

Definition dq : string := String (ascii_of_nat 34) EmptyString.

(** A response text for a decoded value, laid out as [json.dumps] does
    (no escapes; the samples need none). *)
Fixpoint dumps (v : value) : string :=
  match v with
  | VNone => "null"
  | VBool true => "true"
  | VBool false => "false"
  | VInt z => NilZero.string_of_int (Z.to_int z)
  | VStr s => dq ++ s ++ dq
  | VList l => "[" ++ String.concat ", " (map dumps l) ++ "]"
  | VDict d =>
      "{" ++ String.concat ", "
               (map (fun kv => match kv with
                               | (k, x) => dq ++ k ++ dq ++ ": " ++ dumps x
                               end) d) ++ "}"
  end.

Definition response_of (v : value) : response_text :=
  {| text := dumps v; loads := Some v |}.

Definition sample_token : string :=
  "eyJhbGciOiJkaXIiLCJlbmMiOiJBMjU2R0NNIn0..abcdefghijklmnopqrstuvwxyz0123456789ABCDEFGHIJ".

Definition no_files : cookie_parser.filesystem :=
  {| cookie_parser.path_exists := fun _ => false;
     cookie_parser.parse_cookie_file := fun _ => ∅ |}.

Definition one_cookie_file : cookie_parser.filesystem :=
  {| cookie_parser.path_exists := fun p => p =? "cookies.txt";
     cookie_parser.parse_cookie_file := fun p =>
       if p =? "cookies.txt" then {[ "session-token" := sample_token ]} else ∅ |}.

Definition token_credentials : Credentials :=
  {| cookie := None; authorization_key := VStr "ya29.token"; cookie_file := None |}.

Definition cookie_credentials : Credentials :=
  {| cookie := Some (ImageFX.session_prefix ++ sample_token);
     authorization_key := VNone; cookie_file := None |}.

Definition imagen3_portrait : Prompt.t :=
  {| Prompt.prompt := "purple cat"; Prompt.count := Some 4%Z; Prompt.seed := None;
     Prompt.model := "IMAGEN_3"; Prompt.aspect_ratio := "IMAGEN_3_PORTRAIT" |}.

Definition imagen4_prompt : Prompt.t :=
  {| Prompt.prompt := "purple cat"; Prompt.count := Some 4%Z; Prompt.seed := None;
     Prompt.model := "IMAGEN_4"; Prompt.aspect_ratio := "IMAGE_ASPECT_RATIO_LANDSCAPE" |}.

Definition negative_count : Prompt.t :=
  {| Prompt.prompt := "purple cat"; Prompt.count := Some (-1)%Z; Prompt.seed := None;
     Prompt.model := "IMAGEN_4"; Prompt.aspect_ratio := "IMAGE_ASPECT_RATIO_LANDSCAPE" |}.

Definition complete_entry : list (string * value) :=
  [ ("encodedImage", VStr "iVBORw0KGgo="); ("seed", VInt 7);
    ("mediaGenerationId", VStr "m-1"); ("isMaskEditedImage", VBool false);
    ("prompt", VStr "purple cat"); ("modelNameType", VStr "IMAGEN_3_5");
    ("workflowId", VStr "w-1"); ("fingerprintLogRecordId", VStr "f-1") ].

(** An entry that lacks only its seed. *)
Definition entry_without_seed : list (string * value) :=
  [ ("encodedImage", VStr "R0lGODlhAQABAAAAACw=");
    ("mediaGenerationId", VStr "m-2"); ("isMaskEditedImage", VBool false);
    ("prompt", VStr "purple cat"); ("modelNameType", VStr "IMAGEN_3_5");
    ("workflowId", VStr "w-2"); ("fingerprintLogRecordId", VStr "f-2") ].

Definition panel_of (ds : list (list (string * value))) : list (string * value) :=
  [ ("generatedImages", VList (map VDict ds)) ].

Definition body_of (ds : list (list (string * value))) : list (string * value) :=
  [ ("imagePanels", VList [VDict (panel_of ds)]) ].

Definition seedless_response : response_text :=
  response_of (VDict (body_of [complete_entry; entry_without_seed])).

Definition one_image : response_text :=
  response_of (VDict (body_of [[("encodedImage", VStr "iVBORw0KGgo=")]])).

Definition empty_panels : response_text :=
  response_of (VDict [("imagePanels", VList [])]).

(** Networks: one that answers every request with a 503, and one where
    the session endpoint hands out a token and the generation endpoint
    one image. *)
Definition net_down : network := fun _ => RequestException "503 Server Error".

Definition net_up : network :=
  fun req =>
    if url req =? ImageFX.session_url
    then Response (response_of (VDict [("access_token", VStr "ya29.token")]))
    else Response one_image.

(** The session endpoint is down during the first call only. *)
Definition down_then_up (i : nat) : network :=
  match i with
  | O => net_down
  | S _ => net_up
  end.

Definition cli_args : imagefx_cli.args :=
  {| imagefx_cli.arg_count := Some 1%Z; imagefx_cli.arg_seed := None;
     imagefx_cli.arg_model := "IMAGEN_4";
     imagefx_cli.arg_ratio := "IMAGE_ASPECT_RATIO_LANDSCAPE" |}.

(** The sidebar with an authentication token, and a project of three
    prompts for which the generation endpoint fails on the second. *)
Definition token_sidebar : imagefx_streamlit.sidebar :=
  {| imagefx_streamlit.sb_cookie := None;
     imagefx_streamlit.sb_auth_token := Some "ya29.token";
     imagefx_streamlit.sb_cookie_file := None;
     imagefx_streamlit.sb_count := Some 1%Z;
     imagefx_streamlit.sb_seed := None;
     imagefx_streamlit.sb_model := "IMAGEN_4";
     imagefx_streamlit.sb_aspect_ratio := "IMAGE_ASPECT_RATIO_LANDSCAPE" |}.

Definition three_prompts : imagefx_streamlit.project :=
  {| imagefx_streamlit.title := "A";
     imagefx_streamlit.prompts := ["cat"; "dog"; "bird"];
     imagefx_streamlit.project_index := 1 |}.

Definition second_fails (project_idx prompt_index : nat) : network :=
  if (prompt_index =? 2)%nat
  then fun _ => RequestException "500 Server Error"
  else net_up.

Definition in_order (project_idx batch_start : nat) : list nat := [].

(** The same run, except that the failure of the second call has an
    empty text. *)
Definition second_fails_silently (project_idx prompt_index : nat) : network :=
  if (prompt_index =? 2)%nat
  then fun _ => RequestException EmptyString
  else net_up.

Definition fresh_session : imagefx_streamlit.session_state :=
  {| imagefx_streamlit.all_generated_images := [];
     imagefx_streamlit.failed_prompts := [];
     imagefx_streamlit.generation_complete := false;
     imagefx_streamlit.generating := false;
     imagefx_streamlit.show_download_button := false;
     imagefx_streamlit.current_title := EmptyString |}.

Definition fifty_one_prompts : imagefx_streamlit.project :=
  {| imagefx_streamlit.title := "B";
     imagefx_streamlit.prompts := repeat "cat" 51;
     imagefx_streamlit.project_index := 1 |}.

(* ===================================================================== *)
(** ** Text input: lines, fields and prompts                              *)
(* ===================================================================== *)

(** [s.split(sep)] for a separator of one character. *)
Fixpoint split (sep : ascii) (s : string) : list string :=
  match s with
  | EmptyString => [EmptyString]
  | String ch s' =>
      if Ascii.eqb ch sep then EmptyString :: split sep s'
      else match split sep s' with
           | [] => [String ch EmptyString]
           | piece :: pieces => String ch piece :: pieces
           end
  end.

Definition tab : ascii := ascii_of_nat 9.

Definition newline : ascii := ascii_of_nat 10.

(** [bool(s)] for a string. *)
Definition nonempty (s : string) : bool := negb (s =? EmptyString).

(** Whether [ch] occurs in [s], and whether some character of [s] is not
    white space. *)
Fixpoint occurs (ch : ascii) (s : string) : bool :=
  match s with
  | EmptyString => false
  | String c s' => Ascii.eqb c ch || occurs ch s'
  end.

Fixpoint has_ink (s : string) : bool :=
  match s with
  | EmptyString => false
  | String c s' => negb (is_space c) || has_ink s'
  end.

(** The first and the last character of a string. *)
Definition first_char (s : string) : option ascii :=
  match s with
  | EmptyString => None
  | String c _ => Some c
  end.

Fixpoint last_char (s : string) : option ascii :=
  match s with
  | EmptyString => None
  | String c s' =>
      match last_char s' with
      | Some c' => Some c'
      | None => Some c
      end
  end.

(** A string that [strip] leaves alone and that is not empty: it begins
    and ends with a character that is not white space. *)
Definition trimmed (s : string) : bool :=
  match first_char s, last_char s with
  | Some a, Some b => negb (is_space a) && negb (is_space b)
  | _, _ => false
  end.

(** An entry of [generatedImages] that has every field of an image. *)
Definition has_all_fields (d : list (string * value)) : bool :=
  forallb (fun key => match dict_get key d with Some _ => true | None => false end)
          image_fields.

(** *** What a whole run records

    The images, the failures and the requests of a project, prompt by
    prompt in the order of the text area, and those of a list of
    projects. [nets] is the network as the workers of the project see
    it. *)
Definition project_images (fs : cookie_parser.filesystem) (nets : nat -> network)
    (ui : imagefx_streamlit.sidebar) (p : imagefx_streamlit.project)
  : list GeneratedImage.t :=
  flat_map (fun pd => recorded_images (entry_of fs nets ui (imagefx_streamlit.title p) pd))
           (imagefx_streamlit.enumerate (imagefx_streamlit.prompts p) 1).

Definition project_failures (fs : cookie_parser.filesystem) (nets : nat -> network)
    (ui : imagefx_streamlit.sidebar) (p : imagefx_streamlit.project)
  : list imagefx_streamlit.error_data :=
  flat_map (fun pd => recorded_failures (entry_of fs nets ui (imagefx_streamlit.title p) pd))
           (imagefx_streamlit.enumerate (imagefx_streamlit.prompts p) 1).

Definition project_requests (fs : cookie_parser.filesystem) (nets : nat -> network)
    (ui : imagefx_streamlit.sidebar) (p : imagefx_streamlit.project)
  : list request :=
  flat_map (fun pd => snd (imagefx_streamlit.process_single_prompt fs (nets (fst pd)) ui pd))
           (imagefx_streamlit.enumerate (imagefx_streamlit.prompts p) 1).

Definition run_images (fs : cookie_parser.filesystem) (nets : nat -> nat -> network)
    (ui : imagefx_streamlit.sidebar) (projects : list imagefx_streamlit.project)
  : list GeneratedImage.t :=
  flat_map (fun ip => project_images fs (nets (fst ip)) ui (snd ip))
           (imagefx_streamlit.enumerate projects 0).

Definition run_failures (fs : cookie_parser.filesystem) (nets : nat -> nat -> network)
    (ui : imagefx_streamlit.sidebar) (projects : list imagefx_streamlit.project)
  : list imagefx_streamlit.error_data :=
  flat_map (fun ip => project_failures fs (nets (fst ip)) ui (snd ip))
           (imagefx_streamlit.enumerate projects 0).

Definition run_requests (fs : cookie_parser.filesystem) (nets : nat -> nat -> network)
    (ui : imagefx_streamlit.sidebar) (projects : list imagefx_streamlit.project)
  : list request :=
  flat_map (fun ip => project_requests fs (nets (fst ip)) ui (snd ip))
           (imagefx_streamlit.enumerate projects 0).

(** [sum(len(project['prompts']) for project in valid_projects)]. *)
Definition total_prompts (projects : list imagefx_streamlit.project) : nat :=
  list_sum (map (fun p => List.length (imagefx_streamlit.prompts p)) projects).

(** An image, and a failure, that belongs to a prompt of one of the
    projects. *)
Definition image_of (projects : list imagefx_streamlit.project)
    (g : GeneratedImage.t) : Prop :=
  exists p t,
    In p projects /\ In t (imagefx_streamlit.prompts p)
    /\ GeneratedImage.project_title g = Some (imagefx_streamlit.title p)
    /\ GeneratedImage.prompt g = VStr t.

Definition failure_of (projects : list imagefx_streamlit.project)
    (e : imagefx_streamlit.error_data) : Prop :=
  exists p k,
    In p projects
    /\ nth_error (imagefx_streamlit.prompts p) k = Some (imagefx_streamlit.ed_prompt e)
    /\ imagefx_streamlit.ed_index e = k + 2
    /\ imagefx_streamlit.ed_project_title e = Some (imagefx_streamlit.title p)
    /\ truthy_message (imagefx_streamlit.ed_error e) = true.

(** ** cookie_parser.py: the text of a cookie file *)

Module cookie_file.

(** One turn of the loop [for line in f] of [parse_cookie_file]. *)
Definition parse_line (cookies : gmap string string) (line : string)
  : gmap string string :=
  let line := strip line in
  if String.prefix "#" line || negb (nonempty line) then cookies
  else
    let parts := split tab line in
    if (7 <=? List.length parts)%nat then
      let domain := nth 0 parts EmptyString in
      let name := nth 5 parts EmptyString in
      let value := nth 6 parts EmptyString in
      if domain =? "labs.google" then <[name := value]> cookies else cookies
    else cookies.

(** [parse_cookie_file] on the lines of a file that can be read. *)
Definition parse_lines (lines : list string) : gmap string string :=
  fold_left parse_line lines ∅.

(** The file system made of the given text files: a path that is not
    among them does not exist, and [parse_cookie_file] returns the empty
    dictionary for it (the exception of [open] is caught). *)
Definition filesystem_of (files : gmap string (list string))
  : cookie_parser.filesystem :=
  {| cookie_parser.path_exists := fun p =>
       match files !! p with Some _ => true | None => false end;
     cookie_parser.parse_cookie_file := fun p =>
       match files !! p with
       | Some lines => parse_lines lines
       | None => ∅
       end |}.

(** What a line adds to the dictionary: the name and the value of its
    cookie, if it is a line of domain labs.google. *)
Definition line_cookie (line : string) : option (string * string) :=
  let line := strip line in
  if String.prefix "#" line || negb (nonempty line) then None
  else
    let parts := split tab line in
    if (7 <=? List.length parts)%nat then
      if nth 0 parts EmptyString =? "labs.google"
      then Some (nth 5 parts EmptyString, nth 6 parts EmptyString)
      else None
    else None.

(** Whether a line defines the cookie [name], and the lines none of
    which defines it. *)
Definition defines (name : string) (line : string) : bool :=
  match line_cookie line with
  | Some (n, _) => n =? name
  | None => false
  end.

Definition not_redefined (name : string) (lines : list string) : bool :=
  forallb (fun line => negb (defines name line)) lines.

(** Fields that can be written on a line and read back: none holds a
    tab, the first begins with a character that is neither white space
    nor [#]. *)
Definition no_tabs (fields : list string) : bool :=
  forallb (fun f => negb (occurs tab f)) fields.

Definition begins_plainly (s : string) : bool :=
  match first_char s with
  | Some c => negb (is_space c) && negb (Ascii.eqb c "#"%char)
  | None => false
  end.

Definition ends_in_ink (s : string) : bool :=
  match last_char s with
  | Some c => negb (is_space c)
  | None => false
  end.

(** The line of a cookie file for seven fields. *)
Definition cookie_line (domain flag path secure expiration name value : string)
  : string :=
  String.concat (String tab EmptyString)
    [domain; flag; path; secure; expiration; name; value].

End cookie_file.

(** ** The prompts of a text area or of a prompts file *)

Module prompt_input.

(** [[p.strip() for p in raw_prompts if p.strip()]]. *)
Definition clean_lines (raw_prompts : list string) : list string :=
  map strip (List.filter (fun p => nonempty (strip p)) raw_prompts).

(** [imagefx_streamlit.py], batch mode: the prompts of a text area. *)
Definition parse_prompts (prompts_text : string) : list string :=
  clean_lines (split newline prompts_text).

(** [imagefx_streamlit.py], single mode: the loop
    [for i, raw_prompt in enumerate(raw_prompts)]. *)
Fixpoint collect_prompts (raw_prompts : list string) (prompts : list string)
  : list string :=
  match raw_prompts with
  | [] => prompts
  | raw_prompt :: rest =>
      let cleaned_prompt := strip raw_prompt in
      if nonempty cleaned_prompt
      then collect_prompts rest (prompts ++ [cleaned_prompt])%list
      else collect_prompts rest prompts
  end.

(** [imagefx_cli.py], [read_prompts_from_file]: the lines of the file,
    or no prompt at all when the file cannot be read. *)
Definition read_prompts_from_file (file : option (list string)) : list string :=
  match file with
  | Some lines => clean_lines lines
  | None => []
  end.

(** The [st.error(..); return] exits of the Generate button that come
    before the credentials are looked at. *)
Inductive input_rejection : Type :=
| NoBatchProject
| MissingTitleOrPrompts (project_number : nat)
| NoValidPrompts (project_number : nat)
| NoPrompt
| NoTitle
| NoValidPromptsFound.

Inductive checked (A : Type) : Type :=
| Accepted (a : A)
| Refused (r : input_rejection).
Arguments Accepted {A} a.
Arguments Refused {A} r.

(** Batch mode: the loop over [zip(project_titles, project_prompts)]
    that fills [valid_projects]. *)
Fixpoint validate_projects (i : nat) (pairs : list (string * string))
    (valid_projects : list imagefx_streamlit.project)
  : checked (list imagefx_streamlit.project) :=
  match pairs with
  | [] => Accepted valid_projects
  | (project_title, project_prompts_text) :: rest =>
      if negb (nonempty (strip project_title))
         || negb (nonempty (strip project_prompts_text))
      then Refused (MissingTitleOrPrompts (i + 1))
      else
        let prompts := parse_prompts project_prompts_text in
        match prompts with
        | [] => Refused (NoValidPrompts (i + 1))
        | _ =>
            validate_projects (S i) rest
              (valid_projects
                 ++ [ {| imagefx_streamlit.title := project_title;
                         imagefx_streamlit.prompts := prompts;
                         imagefx_streamlit.project_index := i + 1 |} ])%list
        end
  end.

Definition batch_projects (project_titles project_prompts : list string)
  : checked (list imagefx_streamlit.project) :=
  match project_titles, project_prompts with
  | [], _ => Refused NoBatchProject
  | _, [] => Refused NoBatchProject
  | _, _ => validate_projects 0 (combine project_titles project_prompts) []
  end.

(** Batch mode, the form: the loop [for i in range(num_projects)] keeps
    the inputs that have both a title and prompts. *)
Definition complete_input (input : string * string) : bool :=
  nonempty (strip (fst input)) && nonempty (strip (snd input)).

Fixpoint collect_batch_inputs (inputs : list (string * string))
    (project_titles project_prompts : list string) : list string * list string :=
  match inputs with
  | [] => (project_titles, project_prompts)
  | (project_title, project_prompt) :: rest =>
      if nonempty (strip project_title) && nonempty (strip project_prompt)
      then collect_batch_inputs rest (project_titles ++ [project_title])%list
                                (project_prompts ++ [project_prompt])%list
      else collect_batch_inputs rest project_titles project_prompts
  end.

(** Single mode. *)
Definition single_project (title prompts_text : string)
  : checked (list imagefx_streamlit.project) :=
  if negb (nonempty (strip prompts_text)) then Refused NoPrompt
  else if negb (nonempty (strip title)) then Refused NoTitle
  else
    match collect_prompts (split newline prompts_text) [] with
    | [] => Refused NoValidPromptsFound
    | prompts =>
        Accepted [ {| imagefx_streamlit.title := title;
                      imagefx_streamlit.prompts := prompts;
                      imagefx_streamlit.project_index := 1 |} ]
    end.

(** A project as the Generate button accepts it. *)
Definition well_formed_project (p : imagefx_streamlit.project) : Prop :=
  nonempty (strip (imagefx_streamlit.title p)) = true
  /\ imagefx_streamlit.prompts p <> []
  /\ Forall (fun t => trimmed t = true) (imagefx_streamlit.prompts p).

End prompt_input.

(* ===================================================================== *)
(** ** File names                                                         *)
(* ===================================================================== *)

(** [str(n)] for a number that is not negative. *)
Definition str_nat (n : nat) : string := NilEmpty.string_of_uint (Nat.to_uint n).

(** [c.isalnum()], below 256. *)
Definition is_alnum (c : ascii) : bool :=
  let n := nat_of_ascii c in
  ((48 <=? n) && (n <=? 57) || (65 <=? n) && (n <=? 90) || (97 <=? n) && (n <=? 122)
   || (n =? 170) || (178 <=? n) && (n <=? 179) || (n =? 181)
   || (185 <=? n) && (n <=? 186) || (188 <=? n) && (n <=? 190)
   || (192 <=? n) && (n <=? 214) || (216 <=? n) && (n <=? 246)
   || (248 <=? n) && (n <=? 255))%nat.

(** [c.isalnum() or c in (' ', '-', '_')]. *)
Definition kept (c : ascii) : bool :=
  is_alnum c || Ascii.eqb c " " || Ascii.eqb c "-" || Ascii.eqb c "_".

(** ["".join(c for c in title if ...)]. *)
Fixpoint keep_chars (title : string) : string :=
  match title with
  | EmptyString => EmptyString
  | String c rest => if kept c then String c (keep_chars rest) else keep_chars rest
  end.

(** [s.replace(' ', '_')]. *)
Fixpoint replace_spaces (s : string) : string :=
  match s with
  | EmptyString => EmptyString
  | String c rest =>
      String (if Ascii.eqb c " " then "_"%char else c) (replace_spaces rest)
  end.

(** The [safe_title] of [imagefx_cli.main], and the one of
    [create_zip_file], [create_batch_zip_file] and [display_image],
    which is cut at 50 characters. *)
Definition cli_safe_title (title : string) : string :=
  replace_spaces (rstrip (keep_chars title)).

Definition safe_title (title : string) : string :=
  let safe_title := cli_safe_title title in
  if (50 <? String.length safe_title)%nat then String.substring 0 50 safe_title
  else safe_title.

(** A character a file name made here can hold. *)
Definition name_char (c : ascii) : bool :=
  is_alnum c || Ascii.eqb c "-" || Ascii.eqb c "_".

Fixpoint all_chars (p : ascii -> bool) (s : string) : bool :=
  match s with
  | EmptyString => true
  | String c rest => p c && all_chars p rest
  end.

(** [base64.b64decode] on the value an image holds: [b64decode] is the
    function on strings ([None] where it raises); any other value raises
    [TypeError]. *)
Definition decode_image (b64decode : string -> option string) (image_data : value)
  : option string :=
  match image_data with
  | VStr s => b64decode s
  | _ => None
  end.

(** *** imagefx.py: [save_image] and [save_images] *)

Module imagefx_files.

(** [save_image]: [True] when the [try] block goes through.
    [writable directory filename] says whether the directory can be made
    and the file written. *)
Definition save_image (b64decode : string -> option string)
    (writable : string -> string -> bool)
    (image_data : value) (filename directory : string) : bool :=
  match decode_image b64decode image_data with
  | Some _ => writable directory filename
  | None => false
  end.

Definition image_filename (prefix : string) (i : nat) : string :=
  prefix ++ "-" ++ str_nat (i + 1) ++ ".png".

(** The loop of [save_images]. *)
Fixpoint save_from (b64decode : string -> option string)
    (writable : string -> string -> bool) (directory prefix : string)
    (numbered : list (nat * GeneratedImage.t)) (saved_files : list string)
  : list string :=
  match numbered with
  | [] => saved_files
  | (i, image) :: rest =>
      let filename := image_filename prefix i in
      if save_image b64decode writable (GeneratedImage.encoded_image image)
                    filename directory
      then save_from b64decode writable directory prefix rest
                     (saved_files ++ [filename])%list
      else save_from b64decode writable directory prefix rest saved_files
  end.

Definition save_images (b64decode : string -> option string)
    (writable : string -> string -> bool)
    (images : list GeneratedImage.t) (directory prefix : string) : list string :=
  save_from b64decode writable directory prefix
            (imagefx_streamlit.enumerate images 0) [].

End imagefx_files.

(** *** imagefx_streamlit.py: the archives *)

Module archives.

Definition entry_name (title : string) (i : nat) : string :=
  safe_title title ++ "_" ++ str_nat (i + 1) ++ ".png".

(** An image that has data, and whose data can be decoded. *)
Definition can_be_added (b64decode : string -> option string)
    (image : GeneratedImage.t) : bool :=
  truthy (GeneratedImage.encoded_image image)
  && match decode_image b64decode (GeneratedImage.encoded_image image) with
     | Some _ => true
     | None => false
     end.

(** The entry of image [i], filed under [title_of i image], if it can be
    added. *)
Definition entry_for (b64decode : string -> option string)
    (title_of : nat -> GeneratedImage.t -> string)
    (numbered_image : nat * GeneratedImage.t) : list (string * string) :=
  let i := fst numbered_image in
  let image := snd numbered_image in
  if truthy (GeneratedImage.encoded_image image)
  then match decode_image b64decode (GeneratedImage.encoded_image image) with
       | Some image_bytes => [(entry_name (title_of i image) i, image_bytes)]
       | None => []
       end
  else [].

(** The file an image is saved to by [save_images], if it is. *)
Definition saved_as (b64decode : string -> option string)
    (writable : string -> string -> bool) (directory prefix : string)
    (numbered_image : nat * GeneratedImage.t) : list string :=
  if imagefx_files.save_image b64decode writable
       (GeneratedImage.encoded_image (snd numbered_image))
       (imagefx_files.image_filename prefix (fst numbered_image)) directory
  then [imagefx_files.image_filename prefix (fst numbered_image)]
  else [].

(** The loop of [create_zip_file]: an image without data is skipped, and
    so is one whose data cannot be decoded (the exception is caught). *)
Fixpoint add_images (b64decode : string -> option string) (title : string)
    (numbered : list (nat * GeneratedImage.t)) (zip_file : list (string * string))
  : list (string * string) :=
  match numbered with
  | [] => zip_file
  | (i, image) :: rest =>
      if negb (truthy (GeneratedImage.encoded_image image))
      then add_images b64decode title rest zip_file
      else
        match decode_image b64decode (GeneratedImage.encoded_image image) with
        | Some image_bytes =>
            add_images b64decode title rest
                       (zip_file ++ [(entry_name title i, image_bytes)])%list
        | None => add_images b64decode title rest zip_file
        end
  end.

(** [create_zip_file]: the entries of the archive (name and bytes), or
    [None]. [successful_images == 0] is the archive being empty. *)
Definition create_zip_file (b64decode : string -> option string)
    (images : list GeneratedImage.t) (title : string)
  : option (list (string * string)) :=
  match images with
  | [] => None
  | _ =>
      if negb (nonempty title) || negb (nonempty (strip title)) then None
      else
        match add_images b64decode title (imagefx_streamlit.enumerate images 0) [] with
        | [] => None
        | zip_file => Some zip_file
        end
  end.

(** The title a batch archive files an image under. *)
Definition batch_title (project_titles : list string) (i : nat)
    (image : GeneratedImage.t) : string :=
  let project_title :=
    match GeneratedImage.project_title image with
    | Some t => t
    | None => hd "unknown" project_titles
    end in
  if negb (nonempty project_title) || negb (nonempty (strip project_title))
  then "project_" ++ str_nat (i + 1)
  else project_title.

Fixpoint add_batch_images (b64decode : string -> option string)
    (project_titles : list string)
    (numbered : list (nat * GeneratedImage.t)) (zip_file : list (string * string))
  : list (string * string) :=
  match numbered with
  | [] => zip_file
  | (i, image) :: rest =>
      if negb (truthy (GeneratedImage.encoded_image image))
      then add_batch_images b64decode project_titles rest zip_file
      else
        match decode_image b64decode (GeneratedImage.encoded_image image) with
        | Some image_bytes =>
            add_batch_images b64decode project_titles rest
              (zip_file ++ [(entry_name (batch_title project_titles i image) i,
                             image_bytes)])%list
        | None => add_batch_images b64decode project_titles rest zip_file
        end
  end.

Definition create_batch_zip_file (b64decode : string -> option string)
    (images : list GeneratedImage.t) (project_titles : list string)
  : option (list (string * string)) :=
  match images, project_titles with
  | [], _ => None
  | _, [] => None
  | _, _ =>
      match add_batch_images b64decode project_titles
                             (imagefx_streamlit.enumerate images 0) [] with
      | [] => None
      | zip_file => Some zip_file
      end
  end.

End archives.

(* ===================================================================== *)
(** ** The model and aspect ratio tables                                  *)
(* ===================================================================== *)

(** The triple [get_model_aspect_ratios] returns. *)
Record model_settings : Type := {
  aspect_ratios : list (string * string);
  actual_model : string;
  default_aspect : string
}.

(** [dict(zip(keys, values))]: a key that comes twice keeps its last
    value. *)
Definition dict_zip (keys values : list string) : gmap string string :=
  fold_left (fun d kv => <[fst kv := snd kv]> d) (combine keys values) ∅.

Module sidebar_settings.

(** The options of the select box "Model". *)
Definition models : list string :=
  [ "IMAGEN_4"; "IMAGEN_3"; "IMAGEN_2"; "IMAGEN_3_1"; "IMAGEN_3_5" ].

(** [imagefx_streamlit.get_model_aspect_ratios]. *)
Definition get_model_aspect_ratios (model : string) : model_settings :=
  if model =? "IMAGEN_3" then
    {| aspect_ratios :=
         [ ("IMAGEN_3_LANDSCAPE", "Landscape (16:9) - IMAGEN_3_LANDSCAPE");
           ("IMAGEN_3_PORTRAIT", "Portrait (9:16) - IMAGEN_3_PORTRAIT");
           ("IMAGEN_3_PORTRAIT_THREE_FOUR",
            "Portrait (3:4) - IMAGEN_3_PORTRAIT_THREE_FOUR");
           ("IMAGEN_3_LANDSCAPE_FOUR_THREE",
            "Landscape (4:3) - IMAGEN_3_LANDSCAPE_FOUR_THREE") ];
       actual_model := "IMAGEN_3";
       default_aspect := "IMAGE_ASPECT_RATIO_UNSPECIFIED" |}
  else if model =? "IMAGEN_2" then
    {| aspect_ratios :=
         [ ("IMAGE_ASPECT_RATIO_LANDSCAPE", "Landscape (16:9)");
           ("IMAGE_ASPECT_RATIO_SQUARE", "Square (1:1)");
           ("IMAGE_ASPECT_RATIO_PORTRAIT", "Portrait (9:16)");
           ("IMAGE_ASPECT_RATIO_UNSPECIFIED", "Unspecified (Let model decide)") ];
       actual_model := "IMAGEN_2";
       default_aspect := "IMAGE_ASPECT_RATIO_LANDSCAPE" |}
  else
    {| aspect_ratios :=
         [ ("IMAGE_ASPECT_RATIO_LANDSCAPE", "Landscape (16:9)");
           ("IMAGE_ASPECT_RATIO_SQUARE", "Square (1:1)");
           ("IMAGE_ASPECT_RATIO_PORTRAIT", "Portrait (9:16)");
           ("IMAGE_ASPECT_RATIO_LANDSCAPE_FOUR_THREE", "Landscape (4:3) - Explicit");
           ("IMAGE_ASPECT_RATIO_PORTRAIT_THREE_FOUR", "Portrait (3:4) - Explicit");
           ("IMAGE_ASPECT_RATIO_UNSPECIFIED", "Unspecified (Let model decide)") ];
       actual_model := model;
       default_aspect := "IMAGE_ASPECT_RATIO_LANDSCAPE" |}.

Definition aspect_ratio_options (model : string) : list string :=
  map fst (aspect_ratios (get_model_aspect_ratios model)).

Definition aspect_ratio_labels (model : string) : list string :=
  map snd (aspect_ratios (get_model_aspect_ratios model)).

Definition aspect_ratio_mapping (model : string) : gmap string string :=
  dict_zip (aspect_ratio_labels model) (aspect_ratio_options model).

(** [aspect_ratio = aspect_ratio_mapping[aspect_ratio_label]]. *)
Definition aspect_ratio (model aspect_ratio_label : string) : outcome string :=
  match aspect_ratio_mapping model !! aspect_ratio_label with
  | Some option => Return option
  | None => Raise (KeyError (VStr aspect_ratio_label))
  end.

(** The names the generation endpoint is sent for the models of the
    select box. *)
Definition wire_models : list string :=
  [ "IMAGEN_3_LANDSCAPE"; "IMAGEN_3_PORTRAIT"; "IMAGEN_3_PORTRAIT_THREE_FOUR";
    "IMAGEN_3_LANDSCAPE_FOUR_THREE"; "IMAGEN_2"; "IMAGEN_3_1"; "IMAGEN_3_5" ].

End sidebar_settings.

(* ===================================================================== *)
(** ** imagefx_cli.py: the checks of [main]                               *)
(* ===================================================================== *)

Module cli_main.

(** The arguments as [argparse] hands them over. *)
Record command_line : Type := {
  args_title : option string;
  args_prompt : option string;
  args_prompts_file : option string;
  args_auth : option string;
  args_cookie : option string;
  args_cookie_file : option string;
  args_seed : option Z;
  args_count : Z;
  args_model : string;
  args_ratio : string
}.

(** The [sys.exit(1)] exits that come before the client is made. *)
Inductive cli_exit : Type :=
| NoCredentials
| NoPrompt
| CookieTooShort
| CookieFileNotFound
| PromptsFileNotFound
| NoValidPrompts
| WrongImagen3Ratio.

Definition valid_imagen3_ratios : list string :=
  [ "IMAGEN_3_LANDSCAPE"; "IMAGEN_3_PORTRAIT";
    "IMAGEN_3_PORTRAIT_THREE_FOUR"; "IMAGEN_3_LANDSCAPE_FOUR_THREE" ].

Definition text_of (o : option string) : string := default EmptyString o.

(** [main] from "Validate arguments" to "Create credentials": the
    prompts of the run, or the exit taken. [exists_] is
    [Path(p).exists()], [read] gives the lines of a file that can be
    read. *)
Definition checks (exists_ : string -> bool) (read : string -> option (list string))
    (args : command_line) : cli_exit + list string :=
  if negb (truthy_str (args_auth args)) && negb (truthy_str (args_cookie args))
     && negb (truthy_str (args_cookie_file args))
  then inl NoCredentials
  else if negb (truthy_str (args_prompt args)) && negb (truthy_str (args_prompts_file args))
  then inl NoPrompt
  else if truthy_str (args_cookie args) && (String.length (text_of (args_cookie args)) <? 70)%nat
  then inl CookieTooShort
  else if truthy_str (args_cookie_file args) && negb (exists_ (text_of (args_cookie_file args)))
  then inl CookieFileNotFound
  else if truthy_str (args_prompts_file args) && negb (exists_ (text_of (args_prompts_file args)))
  then inl PromptsFileNotFound
  else
    let prompts :=
      if truthy_str (args_prompt args) then [text_of (args_prompt args)]
      else if truthy_str (args_prompts_file args)
      then prompt_input.read_prompts_from_file (read (text_of (args_prompts_file args)))
      else [] in
    match prompts with
    | [] => inl NoValidPrompts
    | _ =>
        if (args_model args =? "IMAGEN_3")
           && negb (existsb (String.eqb (args_ratio args)) valid_imagen3_ratios)
        then inl WrongImagen3Ratio
        else inr prompts
    end.

(** [Credentials(cookie=args.cookie, authorization_key=args.auth,
    cookie_file=args.cookie_file)]. *)
Definition credentials (args : command_line) : Credentials :=
  {| cookie := args_cookie args;
     authorization_key := of_optional (args_auth args);
     cookie_file := args_cookie_file args |}.

End cli_main.

(* ===================================================================== *)
(** ** imagefx_streamlit.py: [st.session_state] at the start of a run     *)
(* ===================================================================== *)

Module page_state.

(** What a key of [st.session_state] holds. *)
Inductive stored : Type :=
| Flag (b : bool)
| Words (s : string)
| Images (l : list GeneratedImage.t)
| Failures (l : list imagefx_streamlit.error_data)
| Strings (l : list string)
| Opaque.

(** [bool(v)]; a time or a dictionary of settings counts as true. *)
Definition truthy_stored (v : stored) : bool :=
  match v with
  | Flag b => b
  | Words s => nonempty s
  | Images l => match l with [] => false | _ => true end
  | Failures l => match l with [] => false | _ => true end
  | Strings l => match l with [] => false | _ => true end
  | Opaque => true
  end.

(** [isinstance(v, list)], and [len(v)] of a list. *)
Definition is_list (v : stored) : bool :=
  match v with
  | Images _ | Failures _ | Strings _ => true
  | _ => false
  end.

Definition len (v : stored) : outcome nat :=
  match v with
  | Images l => Return (List.length l)
  | Failures l => Return (List.length l)
  | Strings l => Return (List.length l)
  | Words s => Return (String.length s)
  | _ => Raise TypeError
  end.

(** [reset_all_session_state]. *)
Definition reset_all_session_state (ss : gmap string stored)
  : gmap string stored :=
  let ss := <["failed_prompts" := Failures []]> ss in
  let ss := <["generation_complete" := Flag false]> ss in
  let ss := <["all_generated_images" := Images []]> ss in
  let ss := <["current_title" := Words EmptyString]> ss in
  let ss := <["show_download_button" := Flag false]> ss in
  let ss := <["generating" := Flag false]> ss in
  let ss := delete "generation_start_time" ss in
  let ss := delete "generation_end_time" ss in
  let ss := delete "generation_start_datetime" ss in
  let ss := delete "generation_end_datetime" ss in
  let ss := delete "total_generation_time" ss in
  let ss := delete "project_titles" ss in
  let ss := delete "project_prompts" ss in
  delete "page_refresh" ss.

(** [st.session_state.setdefault(key, value)]. *)
Definition setdefault (key : string) (value : stored) (ss : gmap string stored)
  : gmap string stored :=
  match ss !! key with
  | Some _ => ss
  | None => <[key := value]> ss
  end.

(** [if not isinstance(st.session_state.get(key), list): ... = []]. *)
Definition ensure_list (key : string) (empty : stored) (ss : gmap string stored)
  : gmap string stored :=
  match ss !! key with
  | Some v => if is_list v then ss else <[key := empty]> ss
  | None => <[key := empty]> ss
  end.

(** [main] from the check for a fresh page load to the side bar. *)
Definition begin_run (ss : gmap string stored)
  : gmap string stored :=
  let ss :=
    match ss !! "page_refresh" with
    | None => reset_all_session_state (<["page_refresh" := Flag true]> ss)
    | Some _ => ss
    end in
  let ss := setdefault "failed_prompts" (Failures []) ss in
  let ss := setdefault "generation_complete" (Flag false) ss in
  let ss := setdefault "all_generated_images" (Images []) ss in
  let ss := setdefault "current_title" (Words EmptyString) ss in
  let ss := setdefault "generating" (Flag false) ss in
  let ss := setdefault "show_download_button" (Flag false) ss in
  let ss := ensure_list "all_generated_images" (Images []) ss in
  ensure_list "failed_prompts" (Failures []) ss.

(** [st.session_state.key]: a key that is not there raises
    [AttributeError]. *)
Definition attribute (key : string) (ss : gmap string stored) : outcome stored :=
  match ss !! key with
  | Some v => Return v
  | None => Raise AttributeError
  end.

(** The condition of the blocks "Download All Generated Images" and
    "Generated Images" at the top of the page; [and] stops at the first
    operand that is false. *)
Definition shows_results (ss : gmap string stored) : outcome bool :=
  let* generation_complete := attribute "generation_complete" ss in
  if negb (truthy_stored generation_complete) then Return false else
  let* show_download_button := attribute "show_download_button" ss in
  if negb (truthy_stored show_download_button) then Return false else
  let* all_generated_images := attribute "all_generated_images" ss in
  if negb (truthy_stored all_generated_images) then Return false else
  let* n := len all_generated_images in
  if negb (0 <? n)%nat then Return false else
  let* generating := attribute "generating" ss in
  if truthy_stored generating then Return false else
  match ss !! "current_title" with
  | None => Return false
  | Some current_title =>
      if negb (truthy_stored current_title) then Return false else
      Return (negb (match ss !! "clearing_state" with
                    | Some v => truthy_stored v
                    | None => false
                    end))
  end.

End page_state.

(* ===================================================================== *)
(** ** More sample inputs                                                 *)
(* ===================================================================== *)

(** A text area with a prompt between blanks, an empty line and a second
    prompt. *)
Definition two_prompts_text : string :=
  "  purple cat  " ++ String newline (String newline " dog").

(** A cookie file: a comment, the session cookie of labs.google and a
    cookie of another domain. *)
Definition session_cookie_line : string :=
  cookie_file.cookie_line "labs.google" "FALSE" "/" "TRUE" "1790000000"
    "__Secure-next-auth.session-token" sample_token.

Definition netscape_lines : list string :=
  [ "# Netscape HTTP Cookie File";
    session_cookie_line;
    cookie_file.cookie_line ".google.com" "TRUE" "/" "TRUE" "1790000000" "NID" "511=abc" ].

Definition text_files : gmap string (list string) :=
  {[ "cookies.txt" := netscape_lines ]}.

Definition file_credentials : Credentials :=
  {| cookie := None; authorization_key := VNone; cookie_file := Some "cookies.txt" |}.

(** Credentials with a token and the name of a file that is not there. *)
Definition token_and_missing_file : Credentials :=
  {| cookie := None; authorization_key := VStr "ya29.token";
     cookie_file := Some "missing.txt" |}.

(** The session endpoint answers with a token that is [null]. *)
Definition null_token_response : response_text :=
  response_of (VDict [("access_token", VNone)]).

Definition null_token_net : network :=
  fun req =>
    if url req =? ImageFX.session_url then Response null_token_response
    else Response one_image.

Definition complete_response : response_text :=
  response_of (VDict (body_of [complete_entry])).

(** The session state a finished generation leaves behind. *)
Definition finished_session : gmap string page_state.stored :=
  {[ "generation_complete" := page_state.Flag true;
     "show_download_button" := page_state.Flag true;
     "all_generated_images" :=
       page_state.Images [filled imagen4_prompt complete_entry (VStr "iVBORw0KGgo=")];
     "current_title" := page_state.Words "A";
     "generating" := page_state.Flag false ]}.

Definition token_command_line : cli_main.command_line :=
  {| cli_main.args_title := None;
     cli_main.args_prompt := Some "purple cat";
     cli_main.args_prompts_file := None;
     cli_main.args_auth := Some "ya29.token";
     cli_main.args_cookie := None;
     cli_main.args_cookie_file := None;
     cli_main.args_seed := None;
     cli_main.args_count := 4%Z;
     cli_main.args_model := "IMAGEN_4";
     cli_main.args_ratio := "IMAGE_ASPECT_RATIO_LANDSCAPE" |}.

(* ===================================================================== *)
(** * Properties                                                          *)
(* ===================================================================== *)

Ltac unfold_monad :=
  unfold and_then, ret, lift, get_state, put_state, on_self, ImageFX._make_request in *.

(** Case analysis along the outcomes of [get_auth_token_eq]. *)
Ltac by_cases :=
  repeat match goal with
         | |- context [if negb (truthy_str ?x) then _ else _] =>
             destruct (negb (truthy_str x))
         | |- context [match ?n (session_request ?c) with _ => _ end] =>
             destruct (n (session_request c))
         | |- context [match loads ?r with _ => _ end] => destruct (loads r)
         | |- context [match contains ?k ?v with _ => _ end] =>
             destruct (contains k v) as [[|]|]
         | |- context [match getitem ?v ?k with _ => _ end] => destruct (getitem v k)
         | |- context [if ?m then set_authorization_key _ _ else _] => destruct m
         end; cbn; auto.

(** ** Credential resolution *)

Section Resolution.
Import cookie_parser ImageFX.

Section Strings.

Lemma prefix_append (p s : string) : String.prefix p (p ++ s) = true.
Proof.
  induction p as [|a p IH]; simpl.
  - destruct s; reflexivity.
  - destruct (ascii_dec a a) as [_|n]; [exact IH | contradiction].
Qed.

Lemma length_append (p s : string) :
  String.length (p ++ s) = String.length p + String.length s.
Proof. induction p as [|a p IH]; simpl; [reflexivity | now rewrite IH]. Qed.

End Strings.

Arguments session_prefix : simpl never.

Lemma truthy_str_cons (a : ascii) (s : string) : truthy_str (Some (String a s)) = true.
Proof. reflexivity. Qed.

Lemma add_missing_header_cookie (c : Credentials) (v : string) :
  cookie c = Some v -> v <> EmptyString ->
  cookie (add_missing_header c)
  = Some (if String.prefix session_prefix v then v else session_prefix ++ v).
Proof.
  intros Hc Hv. unfold add_missing_header, cookie_text. rewrite Hc.
  destruct v as [|a v]; [contradiction|]. rewrite truthy_str_cons.
  destruct (String.prefix session_prefix (String a v)); simpl; [exact Hc | reflexivity].
Qed.

Lemma add_missing_header_idem (c : Credentials) :
  add_missing_header (add_missing_header c) = add_missing_header c.
Proof.
  destruct (truthy_str (cookie c) && negb (String.prefix session_prefix (cookie_text c))) eqn:E.
  - assert (H : add_missing_header c
                = set_cookie c (Some (session_prefix ++ cookie_text c)))
      by (unfold add_missing_header; rewrite E; reflexivity).
    rewrite H. unfold add_missing_header, cookie_text. cbn [cookie set_cookie].
    rewrite prefix_append, andb_false_r. reflexivity.
  - assert (H : add_missing_header c = c)
      by (unfold add_missing_header; rewrite E; reflexivity).
    rewrite !H. reflexivity.
Qed.

Lemma add_missing_header_other (c : Credentials) :
  authorization_key (add_missing_header c) = authorization_key c
  /\ cookie_file (add_missing_header c) = cookie_file c.
Proof. unfold add_missing_header. destruct (_ && _); split; reflexivity. Qed.

Lemma init_load (fs : filesystem) (c : Credentials) :
  __init__ fs c =
  if negb (truthy (authorization_key c)) && negb (truthy_str (cookie c))
     && negb (truthy_str (cookie_file c))
  then Raise (ValueError "Authorization token, Cookie, or Cookie file must be provided.")
  else if truthy_str (cookie_file c) && negb (path_exists fs (path_of c))
  then Raise (ValueError ("Failed to load cookies from file: "
                           ++ "Cookie file not found: " ++ path_of c))
  else if truthy_str (cookie_file c) && negb (truthy_str (accepted_cookie fs c))
  then Raise (ValueError ("Failed to load cookies from file: "
                           ++ "No session token found in cookie file"))
  else
    let c1 := set_cookie c (accepted_cookie fs c) in
    if negb (truthy (authorization_key c)) && negb (truthy_str (accepted_cookie fs c))
    then Raise (ValueError "No valid authentication credentials found.")
    else if truthy_str (accepted_cookie fs c)
            && (String.length (cookie_text c1) <? 70)%nat
    then Raise (ValueError "Invalid cookie was provided.")
    else Return (add_missing_header c1).
Proof.
  unfold __init__, _load_cookies_from_file, accepted_cookie.
  destruct c as [ck key f]; cbn [cookie authorization_key cookie_file].
  destruct (negb (truthy key) && negb (truthy_str ck) && negb (truthy_str f)); [reflexivity|].
  destruct (truthy_str f) eqn:Ef; cbn [andb negb].
  - destruct (path_exists fs _); cbn [negb]; [|reflexivity].
    destruct (truthy_str (session_token _)) eqn:Et;
      cbn [negb bind set_cookie cookie authorization_key cookie_file];
      rewrite ?Et; reflexivity.
  - cbn [bind set_cookie cookie authorization_key cookie_file]. reflexivity.
Qed.

Lemma set_cookie_add_missing_header (c : Credentials) (x : option string) :
  set_cookie (add_missing_header c) x = set_cookie c x.
Proof. unfold add_missing_header. destruct (_ && _); reflexivity. Qed.

Lemma set_cookie_same (c : Credentials) (x : option string) :
  cookie c = x -> set_cookie c x = c.
Proof. intros <-. destruct c; reflexivity. Qed.

(** Claim C9. Whenever the constructor accepts credentials and leaves
    them with a cookie, that cookie [v'] starts with the prefix
    ["__Secure-next-auth.session-token="]; a value [v] that did not start
    with it got the prefix once ([v' = prefix ++ v]), a value that
    already started with it is kept as it is; the prefix step changes
    nothing on the result, and constructing a client from the resolved
    credentials again returns them unchanged. *)
Theorem resolved_cookie_prefixed_once (fs : filesystem) (c c' : Credentials) :
  __init__ fs c = Return c' ->
  truthy_str (cookie c') = true ->
  exists v v' : string,
    accepted_cookie fs c = Some v /\ cookie c' = Some v'
    /\ String.prefix session_prefix v' = true
    /\ (String.prefix session_prefix v = false -> v' = session_prefix ++ v)
    /\ (String.prefix session_prefix v = true -> v' = v)
    /\ add_missing_header c' = c'
    /\ __init__ fs c' = Return c'.
Proof.
  intros Hinit Hc'. rewrite init_load in Hinit.
  destruct (negb (truthy (authorization_key c)) && negb (truthy_str (cookie c))
            && negb (truthy_str (cookie_file c))) eqn:E0; [discriminate|].
  destruct (truthy_str (cookie_file c) && negb (path_exists fs (path_of c))) eqn:E1;
    [discriminate|].
  destruct (truthy_str (cookie_file c) && negb (truthy_str (accepted_cookie fs c))) eqn:E2;
    [discriminate|].
  cbn zeta in Hinit.
  destruct (negb (truthy (authorization_key c)) && negb (truthy_str (accepted_cookie fs c)))
    eqn:E3; [discriminate|].
  destruct (truthy_str (accepted_cookie fs c)
            && (String.length (cookie_text (set_cookie c (accepted_cookie fs c))) <? 70)%nat)
    eqn:E4; [discriminate|].
  injection Hinit as <-.
  set (c1 := set_cookie c (accepted_cookie fs c)) in *.
  destruct (accepted_cookie fs c) as [v|] eqn:Ev.
  2:{ exfalso. unfold add_missing_header, c1 in Hc'. cbn in Hc'. discriminate. }
  destruct (String.eqb_spec v EmptyString) as [->|Hv].
  { exfalso. unfold add_missing_header, c1 in Hc'. cbn in Hc'. discriminate. }
  assert (Hck : cookie c1 = Some v) by reflexivity.
  pose proof (add_missing_header_cookie c1 v Hck Hv) as Hcookie.
  destruct (add_missing_header_other c1) as [Hkey Hfile].
  exists v, (if String.prefix session_prefix v then v else session_prefix ++ v).
  split; [reflexivity|]. split; [exact Hcookie|].
  split. { destruct (String.prefix session_prefix v) eqn:Ep; [exact Ep | apply prefix_append]. }
  split. { intros ->. reflexivity. }
  split. { intros ->. reflexivity. }
  split. { apply add_missing_header_idem. }
  (* resolving the result again *)
  set (c2 := add_missing_header c1) in *.
  assert (Hacc : accepted_cookie fs c2
                 = if truthy_str (cookie_file c) then Some v else cookie c2).
  { unfold accepted_cookie. rewrite Hfile. unfold c1 at 1. cbn [cookie_file set_cookie].
    destruct (truthy_str (cookie_file c)) eqn:Ef; [|reflexivity].
    unfold path_of. rewrite Hfile. unfold c1. cbn [cookie_file set_cookie].
    unfold accepted_cookie in Ev. rewrite Ef in Ev. exact Ev. }
  assert (Htv : truthy_str (Some v) = true).
  { unfold truthy_str. cbn. destruct (String.eqb_spec v EmptyString); [contradiction|reflexivity]. }
  assert (Hlen : (String.length v <? 70)%nat = false).
  { rewrite Htv in E4. exact E4. }
  assert (Hkey' : authorization_key c2 = authorization_key c) by (rewrite Hkey; reflexivity).
  assert (Hfile' : cookie_file c2 = cookie_file c) by (rewrite Hfile; reflexivity).
  assert (Hpath : path_of c2 = path_of c) by (unfold path_of; rewrite Hfile'; reflexivity).
  rewrite init_load, Hkey', Hfile', Hpath, Hacc, Hc', E1.
  cbn [negb andb]. rewrite andb_false_r. cbn [andb].
  destruct (truthy_str (cookie_file c)) eqn:Ef.
  - rewrite Htv. cbn [negb andb]. rewrite andb_false_r.
    cbn zeta. unfold c2. rewrite set_cookie_add_missing_header.
    rewrite (set_cookie_same c1 (Some v) Hck).
    unfold cookie_text. rewrite Hck, Hlen. reflexivity.
  - rewrite Hc'. cbn [negb andb]. rewrite andb_false_r.
    cbn zeta. rewrite (set_cookie_same c2 (cookie c2) eq_refl).
    unfold cookie_text. rewrite Hcookie.
    assert (Hlen' : (String.length (if String.prefix session_prefix v then v
                                    else session_prefix ++ v) <? 70)%nat = false).
    { destruct (String.prefix session_prefix v); [exact Hlen|].
      apply Nat.ltb_ge. apply Nat.ltb_ge in Hlen. rewrite length_append. lia. }
    rewrite Hlen'. unfold c2. rewrite add_missing_header_idem. reflexivity.
Qed.

(** Claim C10. With a non-empty cookie and a cookie file that exists and
    yields a non-empty session token, the constructor's result is
    computed from the file's token alone: the token is what the
    length-70 check and the prefix step see, and the cookie that was
    given does not occur in the result. *)
Theorem cookie_file_replaces_cookie (fs : filesystem) (c : Credentials) (token : string) :
  truthy_str (cookie c) = true ->
  truthy_str (cookie_file c) = true ->
  path_exists fs (path_of c) = true ->
  extract_session_token (parse_cookie_file fs (path_of c)) = Some token ->
  truthy_str (Some token) = true ->
  __init__ fs c
  = if (String.length token <? 70)%nat
    then Raise (ValueError "Invalid cookie was provided.")
    else Return {| cookie := Some (if String.prefix session_prefix token
                                   then token else session_prefix ++ token);
                   authorization_key := authorization_key c;
                   cookie_file := cookie_file c |}.
Proof.
  intros Hck Hf Hex Htok Ht.
  assert (Hacc : accepted_cookie fs c = Some token).
  { unfold accepted_cookie. rewrite Hf. exact Htok. }
  rewrite init_load, Hacc, Hf, Hex, Ht. cbn [negb andb].
  rewrite !andb_false_r. cbn [andb]. cbn zeta.
  unfold cookie_text at 1. cbn [cookie set_cookie].
  destruct (String.length token <? 70)%nat; [reflexivity|].
  f_equal. unfold add_missing_header, cookie_text. cbn [cookie set_cookie].
  rewrite Ht. cbn [andb].
  destruct (String.prefix session_prefix token); reflexivity.
Qed.

Lemma resolved_cookie_prefixed_once_witness :
  exists v v' : string,
    accepted_cookie no_files (mkCredentials (Some sample_token) VNone None) = Some v
    /\ cookie (mkCredentials (Some (session_prefix ++ sample_token)) VNone None) = Some v'
    /\ String.prefix session_prefix v' = true
    /\ (String.prefix session_prefix v = false -> v' = session_prefix ++ v)
    /\ (String.prefix session_prefix v = true -> v' = v)
    /\ add_missing_header (mkCredentials (Some (session_prefix ++ sample_token)) VNone None)
       = mkCredentials (Some (session_prefix ++ sample_token)) VNone None
    /\ __init__ no_files (mkCredentials (Some (session_prefix ++ sample_token)) VNone None)
       = Return (mkCredentials (Some (session_prefix ++ sample_token)) VNone None).
Proof.
  apply (resolved_cookie_prefixed_once no_files
           (mkCredentials (Some sample_token) VNone None)
           (mkCredentials (Some (session_prefix ++ sample_token)) VNone None));
    vm_compute; reflexivity.
Defined.

Lemma cookie_file_replaces_cookie_witness :
  __init__ one_cookie_file
    (mkCredentials (Some (session_prefix ++ "typed-by-hand")) VNone (Some "cookies.txt"))
  = Return (mkCredentials (Some (session_prefix ++ sample_token)) VNone (Some "cookies.txt")).
Proof.
  apply (cookie_file_replaces_cookie one_cookie_file
           (mkCredentials (Some (session_prefix ++ "typed-by-hand")) VNone (Some "cookies.txt"))
           sample_token); vm_compute; reflexivity.
Defined.

End Resolution.

(** ** Token exchange and request construction *)

Section Requests.
Import ImageFX.

Lemma get_auth_token_eq (net : network) (mutate : bool) (c : Credentials) :
  get_auth_token net mutate c
  = if negb (truthy_str (cookie c)) then
      (Return (Err (Text "Cookie is required for generating auth token.")), c, [])
    else
      match net (session_request c) with
      | RequestException msg => (Return (Err (Text msg)), c, [session_request c])
      | Response r =>
          match loads r with
          | None => (Return (Err (Text ("Failed to parse response: " ++ text r))),
                     c, [session_request c])
          | Some parsed_resp =>
              match contains "access_token" parsed_resp with
              | Raise e => (Raise e, c, [session_request c])
              | Return false =>
                  (Return (Err (Text ("Access token is missing from response: "
                                        ++ text r))), c, [session_request c])
              | Return true =>
                  match getitem parsed_resp "access_token" with
                  | Raise e => (Raise e, c, [session_request c])
                  | Return token =>
                      (Return (Ok token),
                       if mutate then set_authorization_key c token else c,
                       [session_request c])
                  end
              end
          end
      end.
Proof.
  unfold get_auth_token, session_request. unfold_monad.
  destruct (negb (truthy_str (cookie c))); [reflexivity|].
  cbn -[contains getitem].
  destruct (net _) as [msg|r]; [reflexivity|].
  destruct (loads r) as [parsed_resp|]; [|reflexivity].
  destruct (contains "access_token" parsed_resp) as [[|]|e]; cbn -[getitem]; try reflexivity.
  destruct mutate; cbn -[getitem];
    destruct (getitem parsed_resp "access_token") as [token|e]; reflexivity.
Qed.

Lemma lib_check_token_eq (net : network) (c : Credentials) :
  imagefx.check_token net c
  = if negb (truthy (authorization_key c)) && negb (truthy_str (cookie c)) then
      (Return (Err (Text "Authorization token and Cookie both are missing.")), c, [])
    else if truthy_str (cookie c) && negb (truthy (authorization_key c)) then
      match get_auth_token net true c with
      | (Return (Ok _), c', l) => (Return (Ok true), c', l)
      | (Return (Err m), c', l) => (Return (Err m), c', l)
      | (Raise e, c', l) => (Raise e, c', l)
      end
    else (Return (Ok true), c, []).
Proof.
  unfold imagefx.check_token. unfold_monad. cbn -[get_auth_token].
  destruct (negb (truthy (authorization_key c)) && negb (truthy_str (cookie c)));
    [reflexivity|].
  destruct (truthy_str (cookie c) && negb (truthy (authorization_key c)));
    [|reflexivity].
  destruct (get_auth_token net true c) as [[[[tok|m]|e] c'] l]; cbn;
    rewrite ?app_nil_r; reflexivity.
Qed.

Lemma lib_generate_image_eq (net : network) (s : Credentials * Prompt.t) :
  imagefx.generate_image net s
  = match imagefx.check_token net (fst s) with
    | (Raise e, c', l) => (Raise e, (c', snd s), l)
    | (Return (Err m), c', l) => (Return (Err m), (c', snd s), l)
    | (Return (Ok _), c', l) =>
        let prompt := imagefx.alias_model (snd s) in
        let req := generate_request (authorization_key c')
                     (imagefx.build_request_body prompt) in
        (match net req with
         | RequestException msg => Return (Err (Text msg))
         | Response r => imagefx.decode r
         end, (c', prompt), (l ++ [req])%list)
    end.
Proof.
  unfold imagefx.generate_image, generate_request. unfold_monad.
  destruct (imagefx.check_token net (fst s)) as [[[[b|m]|e] c'] l];
    cbn -[imagefx.decode imagefx.build_request_body imagefx.alias_model];
    rewrite ?app_nil_r; try reflexivity.
  destruct (net _) as [msg|r];
    cbn -[imagefx.decode imagefx.build_request_body imagefx.alias_model];
    rewrite ?app_nil_r; reflexivity.
Qed.

Lemma app_check_token_eq (net : network) (c : Credentials) :
  imagefx_streamlit.check_token net c
  = if negb (truthy (authorization_key c)) && negb (truthy_str (cookie c)) then
      (Return (Err (Text "Authorization token and Cookie both are missing.")), c, [])
    else if truthy_str (cookie c) && negb (truthy (authorization_key c)) then
      match get_auth_token net true c with
      | (Return (Ok _), c', l) =>
          (Return (if negb (truthy (authorization_key c'))
                   then Err (Text "Failed to obtain authorization token from cookie")
                   else Ok true), c', l)
      | (Return (Err m), c', l) => (Return (Err m), c', l)
      | (Raise e, c', l) => (Raise e, c', l)
      end
    else (Return (Ok true), c, []).
Proof.
  unfold imagefx_streamlit.check_token. unfold_monad. cbn -[get_auth_token].
  destruct (negb (truthy (authorization_key c)) && negb (truthy_str (cookie c)));
    [reflexivity|].
  destruct (truthy_str (cookie c) && negb (truthy (authorization_key c)));
    [|reflexivity].
  destruct (get_auth_token net true c) as [[[[tok|m]|e] c'] l]; cbn;
    rewrite ?app_nil_r; try reflexivity.
  destruct (negb (truthy (authorization_key c'))); cbn; rewrite ?app_nil_r; reflexivity.
Qed.

Lemma app_generate_image_eq (net : network) (s : Credentials * Prompt.t) :
  imagefx_streamlit.generate_image net s
  = match imagefx_streamlit.check_token net (fst s) with
    | (Raise e, c', l) => (Raise e, (c', snd s), l)
    | (Return (Err m), c', l) => (Return (Err m), (c', snd s), l)
    | (Return (Ok _), c', l) =>
        let req := generate_request (authorization_key c')
                     (imagefx_streamlit.build_request_body (snd s)) in
        (Return (match net req with
                 | RequestException msg => Err (Text msg)
                 | Response r => imagefx_streamlit.decode (snd s) r
                 end), (c', snd s), (l ++ [req])%list)
    end.
Proof.
  unfold imagefx_streamlit.generate_image, generate_request. unfold_monad.
  destruct (imagefx_streamlit.check_token net (fst s)) as [[[[b|m]|e] c'] l];
    cbn -[imagefx_streamlit.decode imagefx_streamlit.build_request_body];
    rewrite ?app_nil_r; try reflexivity.
  destruct (net _) as [msg|r];
    cbn -[imagefx_streamlit.decode imagefx_streamlit.build_request_body];
    rewrite ?app_nil_r; reflexivity.
Qed.

Lemma get_auth_token_log (net : network) (mutate : bool) (c : Credentials) :
  snd (get_auth_token net mutate c) = []
  \/ snd (get_auth_token net mutate c) = [session_request c].
Proof.
  rewrite get_auth_token_eq. by_cases.
Qed.

Lemma lib_check_token_log (net : network) (c : Credentials) :
  snd (imagefx.check_token net c) = []
  \/ snd (imagefx.check_token net c) = [session_request c].
Proof.
  rewrite lib_check_token_eq.
  destruct (_ && _); [cbn; auto|]. destruct (_ && _); [|cbn; auto].
  pose proof (get_auth_token_log net true c) as H.
  destruct (get_auth_token net true c) as [[[[tok|m]|e] c'] l]; exact H.
Qed.

Lemma app_check_token_log (net : network) (c : Credentials) :
  snd (imagefx_streamlit.check_token net c) = []
  \/ snd (imagefx_streamlit.check_token net c) = [session_request c].
Proof.
  rewrite app_check_token_eq.
  destruct (_ && _); [cbn; auto|]. destruct (_ && _); [|cbn; auto].
  pose proof (get_auth_token_log net true c) as H.
  destruct (get_auth_token net true c) as [[[[tok|m]|e] c'] l]; exact H.
Qed.

(** The requests of a [generate_image] call of the web client that carry
    a body carry the body built from the prompt. *)
Lemma app_generate_image_bodies (net : network) (s : Credentials * Prompt.t)
    (req : request) (b : request_body.t) :
  In req (snd (imagefx_streamlit.generate_image net s)) ->
  body req = Some b ->
  url req = generate_url /\ b = imagefx_streamlit.build_request_body (snd s).
Proof.
  rewrite app_generate_image_eq.
  pose proof (app_check_token_log net (fst s)) as Hlog.
  destruct (imagefx_streamlit.check_token net (fst s)) as [[[[ok|m]|e] c'] l];
    cbn [snd] in *; intros Hin Hb.
  - apply in_app_or in Hin. destruct Hin as [Hin|[<-|[]]].
    + destruct Hlog as [->| ->]; [destruct Hin|].
      destruct Hin as [<-|[]]. discriminate.
    + cbn in Hb. injection Hb as <-. split; reflexivity.
  - destruct Hlog as [->| ->]; [destruct Hin|]. destruct Hin as [<-|[]]. discriminate.
  - destruct Hlog as [->| ->]; [destruct Hin|]. destruct Hin as [<-|[]]. discriminate.
Qed.

(** On the web client the body sent for a prompt with model
    ["IMAGEN_3"] has the variant as its model and the aspect ratio
    unspecified. *)
Lemma app_imagen3_payload (net : network) (s : Credentials * Prompt.t)
    (req : request) (b : request_body.t) :
  Prompt.model (snd s) = "IMAGEN_3" ->
  In req (snd (imagefx_streamlit.generate_image net s)) ->
  body req = Some b ->
  request_body.modelNameType b = Prompt.aspect_ratio (snd s)
  /\ request_body.aspectRatio b = "IMAGE_ASPECT_RATIO_UNSPECIFIED".
Proof.
  intros Hm Hin Hb.
  destruct (app_generate_image_bodies net s req b Hin Hb) as [_ ->].
  unfold imagefx_streamlit.build_request_body, imagefx_streamlit.actual_model,
    imagefx_streamlit.wire_aspect_ratio. cbn. rewrite Hm. split; reflexivity.
Qed.

(** Claim C2, on the library client. For the request with model
    ["IMAGEN_3"] and variant ["IMAGEN_3_PORTRAIT"] the one request
    [imagefx.generate_image] sends carries [modelNameType = "IMAGEN_3"]
    and [aspectRatio = "IMAGEN_3_PORTRAIT"]: the variant is not moved
    into the model field, and the aspect ratio is not set to
    ["IMAGE_ASPECT_RATIO_UNSPECIFIED"]. *)
Theorem lib_imagen3_payload_not_rewritten (net : network) :
  snd (imagefx.generate_image net (token_credentials, imagen3_portrait))
  = [ generate_request (VStr "ya29.token")
        {| request_body.candidatesCount := 4;
           request_body.prompts := ["purple cat"];
           request_body.seed := 0;
           request_body.aspectRatio := "IMAGEN_3_PORTRAIT";
           request_body.modelNameType := "IMAGEN_3";
           request_body.sessionId := ";1740658431200";
           request_body.tool := "IMAGE_FX" |} ].
Proof. rewrite lib_generate_image_eq. reflexivity. Qed.

(** Claim C7 fails for a negative count: with [count = -1] both clients
    put [candidatesCount = -1] in the body, not 4. *)
Lemma negative_count_is_sent :
  Prompt.count negative_count = Some (-1)%Z
  /\ (-1 <= 0)%Z
  /\ request_body.candidatesCount (imagefx.build_request_body negative_count) = (-1)%Z
  /\ request_body.candidatesCount (imagefx_streamlit.build_request_body negative_count)
     = (-1)%Z
  /\ (-1)%Z <> 4%Z.
Proof. repeat split; try reflexivity; lia. Qed.

(** Claim C7, amended. Both clients set [candidatesCount] to 4 when the
    count is unspecified or zero and to the given count otherwise (a
    negative count included), and [seed] to 0 when the seed is unset and
    to the given seed otherwise. *)
Theorem candidates_count_and_seed_defaults (prompt : Prompt.t) :
  let lib := imagefx.build_request_body prompt in
  let app := imagefx_streamlit.build_request_body prompt in
  (Prompt.count prompt = None \/ Prompt.count prompt = Some 0%Z ->
   request_body.candidatesCount lib = 4%Z /\ request_body.candidatesCount app = 4%Z)
  /\ (forall n : Z, Prompt.count prompt = Some n -> n <> 0%Z ->
      request_body.candidatesCount lib = n /\ request_body.candidatesCount app = n)
  /\ (Prompt.seed prompt = None ->
      request_body.seed lib = 0%Z /\ request_body.seed app = 0%Z)
  /\ (forall n : Z, Prompt.seed prompt = Some n ->
      request_body.seed lib = n /\ request_body.seed app = n).
Proof.
  cbn. unfold or_int. repeat split.
  1,2: destruct H as [-> | ->]; reflexivity.
  1,2: rewrite H; destruct (Z.eqb_spec n 0); [contradiction | reflexivity].
  1,2: rewrite H; reflexivity.
  1,2: rewrite H; destruct (Z.eqb_spec n 0); [congruence | reflexivity].
Qed.

(** Claim C8, on the library client. After [imagefx.generate_image] on
    a prompt with model ["IMAGEN_4"] the caller's prompt object has
    model ["IMAGEN_3_5"]: building the payload has changed the
    request. *)
Lemma lib_generate_image_rewrites_model :
  Prompt.model imagen4_prompt = "IMAGEN_4"
  /\ Prompt.model
       (snd (snd (fst (imagefx.generate_image net_down (token_credentials, imagen4_prompt)))))
     = "IMAGEN_3_5"
  /\ snd (snd (fst (imagefx.generate_image net_down (token_credentials, imagen4_prompt))))
     <> imagen4_prompt.
Proof. repeat split; try reflexivity. vm_compute. discriminate. Qed.

(** What a generation call does to the prompt object. The web client
    leaves it as it was. The library client leaves it as it was, or,
    when its model is ["IMAGEN_4"], with the model replaced by
    ["IMAGEN_3_5"] and every other field as it was. *)
Lemma prompt_after_generate_image (net : network) (s : Credentials * Prompt.t) :
  snd (snd (fst (imagefx_streamlit.generate_image net s))) = snd s
  /\ (snd (snd (fst (imagefx.generate_image net s))) = snd s
      \/ (Prompt.model (snd s) = "IMAGEN_4"
          /\ snd (snd (fst (imagefx.generate_image net s)))
             = Prompt.set_model (snd s) "IMAGEN_3_5")).
Proof.
  split.
  - rewrite app_generate_image_eq.
    destruct (imagefx_streamlit.check_token net (fst s)) as [[[[ok|m]|e] c'] l]; reflexivity.
  - rewrite lib_generate_image_eq.
    destruct (imagefx.check_token net (fst s)) as [[[[ok|m]|e] c'] l]; cbn; auto.
    unfold imagefx.alias_model.
    destruct (String.eqb_spec (Prompt.model (snd s)) "IMAGEN_4"); auto.
Qed.

Lemma get_auth_token_frame (net : network) (mutate : bool) (c : Credentials) :
  match get_auth_token net mutate c with
  | (r, c', l) =>
      cookie c' = cookie c /\ cookie_file c' = cookie_file c
      /\ match r with
         | Return (Ok token) =>
             authorization_key c' = if mutate then token else authorization_key c
         | _ => c' = c
         end
  end.
Proof.
  rewrite get_auth_token_eq. by_cases.
Qed.

Lemma get_auth_token_sends (net : network) (mutate : bool) (c : Credentials) :
  truthy_str (cookie c) = true ->
  snd (get_auth_token net mutate c) = [session_request c].
Proof.
  intros H. rewrite get_auth_token_eq, H. cbn [negb]. by_cases.
Qed.

Lemma lib_exchange_when_needed (net : network) (s : Credentials * Prompt.t) :
  session_requests (snd (imagefx.generate_image net s))
  = if truthy_str (cookie (fst s)) && negb (truthy (authorization_key (fst s)))
    then [session_request (fst s)] else [].
Proof.
  rewrite lib_generate_image_eq, lib_check_token_eq.
  destruct (truthy (authorization_key (fst s))) eqn:Ek;
    destruct (truthy_str (cookie (fst s))) eqn:Ec; cbn [negb andb]; try reflexivity.
  pose proof (get_auth_token_sends net true (fst s) Ec) as Hl.
  destruct (get_auth_token net true (fst s)) as [[[[tok|m]|e] c'] l];
    cbn [snd] in *; subst l; reflexivity.
Qed.

Lemma app_exchange_when_needed (net : network) (s : Credentials * Prompt.t) :
  session_requests (snd (imagefx_streamlit.generate_image net s))
  = if truthy_str (cookie (fst s)) && negb (truthy (authorization_key (fst s)))
    then [session_request (fst s)] else [].
Proof.
  rewrite app_generate_image_eq, app_check_token_eq.
  destruct (truthy (authorization_key (fst s))) eqn:Ek;
    destruct (truthy_str (cookie (fst s))) eqn:Ec; cbn [negb andb]; try reflexivity.
  pose proof (get_auth_token_sends net true (fst s) Ec) as Hl.
  destruct (get_auth_token net true (fst s)) as [[[[tok|m]|e] c'] l];
    cbn [snd] in *; subst l; try reflexivity.
  destruct (negb (truthy (authorization_key c'))); reflexivity.
Qed.

(** In the batch run of the web client every worker starts from fresh
    credentials: given a cookie and no token, each one makes the
    exchange itself. *)
Lemma worker_makes_its_own_exchange (fs : cookie_parser.filesystem) (net : network)
    (ui : imagefx_streamlit.sidebar) (pd : nat * string) (c : Credentials) :
  __init__ fs {| cookie := imagefx_streamlit.sb_cookie ui;
                 authorization_key := of_optional (imagefx_streamlit.sb_auth_token ui);
                 cookie_file := imagefx_streamlit.sb_cookie_file ui |} = Return c ->
  truthy_str (cookie c) = true ->
  truthy (authorization_key c) = false ->
  session_requests (snd (imagefx_streamlit.process_single_prompt fs net ui pd))
  = [session_request c].
Proof.
  intros Hinit Hc Hk. unfold imagefx_streamlit.process_single_prompt. rewrite Hinit.
  pose proof (app_exchange_when_needed net (c, imagefx_streamlit.prompt_obj ui (snd pd)))
    as H.
  cbn [fst] in H. rewrite Hc, Hk in H. cbn [negb andb] in H.
  destruct (imagefx_streamlit.generate_image net _) as [[[[imgs|m]|e] s'] l];
    exact H.
Qed.

Lemma lib_token_kept (net : network) (s : Credentials * Prompt.t) :
  truthy (authorization_key (fst s)) = true ->
  fst (snd (fst (imagefx.generate_image net s))) = fst s
  /\ exists b, snd (imagefx.generate_image net s)
               = [generate_request (authorization_key (fst s)) b].
Proof.
  intros Hk. rewrite lib_generate_image_eq, lib_check_token_eq, Hk.
  cbn [negb andb]. rewrite andb_false_r. cbn. eauto.
Qed.

Lemma cli_token_reused (nets : nat -> network) (a : imagefx_cli.args)
    (prompts : list string) :
  forall (prompt_index : nat) (acc : list GeneratedImage.t) (c : Credentials),
    truthy (authorization_key c) = true ->
    snd (fst (imagefx_cli.process_prompts nets a prompt_index prompts acc c)) = c
    /\ Forall (fun req => exists b, req = generate_request (authorization_key c) b)
              (snd (imagefx_cli.process_prompts nets a prompt_index prompts acc c)).
Proof.
  induction prompts as [|prompt_text rest IH]; intros prompt_index acc c Hk.
  - cbn. split; [reflexivity | constructor].
  - cbn [imagefx_cli.process_prompts].
    match goal with
    | |- context [imagefx.generate_image ?n ?st] =>
        destruct (lib_token_kept n st Hk) as [Hc [b Hl]];
        destruct (imagefx.generate_image n st) as [[[res|e] s'] l]
    end; cbn [fst snd] in *; subst l.
    + rewrite Hc.
      match goal with
      | |- context [imagefx_cli.process_prompts ?n ?x ?i ?r ?ac c] =>
          destruct (IH i ac c Hk) as [IHc IHl];
          destruct (imagefx_cli.process_prompts n x i r ac c) as [[r' c''] l']
      end; cbn [fst snd] in *.
      split; [exact IHc|]. constructor; [eauto | exact IHl].
    + split; [exact Hc|]. constructor; [eauto | constructor].
Qed.

Lemma lib_credentials_after (net : network) (s : Credentials * Prompt.t) :
  fst (snd (fst (imagefx.generate_image net s))) = fst s
  \/ fst (snd (fst (imagefx.generate_image net s)))
     = snd (fst (get_auth_token net true (fst s))).
Proof.
  rewrite lib_generate_image_eq, lib_check_token_eq.
  destruct (_ && _); [cbn; auto|]. destruct (_ && _); [|cbn; auto].
  destruct (get_auth_token net true (fst s)) as [[[[tok|m]|e] c'] l]; cbn; auto.
Qed.

(** Claim C3, amended.
    (1) The token exchange never touches the cookie or the cookie file;
        when it succeeds it leaves [authorization_key] equal to the
        returned token if [mutate] is set, and unchanged if it is not;
        when it does not succeed it leaves the credentials unchanged.
    (2) After a generation call of the library client the credentials
        are those it started with or those the exchange with [mutate]
        set has left: nothing else writes them.
    (3) The presence of a token is tested at every generation call: the
        call sends one exchange request when it starts with a cookie
        and without a token, and none otherwise.
    (4) In the loop of the command-line client, once the credentials
        hold a token (given, or stored by an earlier exchange), every
        later call leaves the credentials unchanged and sends only the
        generation request, with that token. *)
Theorem token_exchange_and_reuse :
  (forall (net : network) (mutate : bool) (c : Credentials),
      match get_auth_token net mutate c with
      | (r, c', l) =>
          cookie c' = cookie c /\ cookie_file c' = cookie_file c
          /\ match r with
             | Return (Ok token) =>
                 authorization_key c' = if mutate then token else authorization_key c
             | _ => c' = c
             end
      end)
  /\ (forall (net : network) (s : Credentials * Prompt.t),
         fst (snd (fst (imagefx.generate_image net s))) = fst s
         \/ fst (snd (fst (imagefx.generate_image net s)))
            = snd (fst (get_auth_token net true (fst s))))
  /\ (forall (net : network) (s : Credentials * Prompt.t),
         session_requests (snd (imagefx.generate_image net s))
         = if truthy_str (cookie (fst s)) && negb (truthy (authorization_key (fst s)))
           then [session_request (fst s)] else [])
  /\ (forall (nets : nat -> network) (a : imagefx_cli.args) (prompts : list string)
             (prompt_index : nat) (acc : list GeneratedImage.t) (c : Credentials),
         truthy (authorization_key c) = true ->
         snd (fst (imagefx_cli.process_prompts nets a prompt_index prompts acc c)) = c
         /\ Forall (fun req => exists b, req = generate_request (authorization_key c) b)
                   (snd (imagefx_cli.process_prompts nets a prompt_index prompts acc c))).
Proof.
  split; [exact get_auth_token_frame|].
  split; [exact lib_credentials_after|].
  split; [exact lib_exchange_when_needed|].
  intros nets a prompts. exact (cli_token_reused nets a prompts).
Qed.

(** Claim C3 fails on "checked once before the first generation call":
    with a cookie and a session endpoint that is down during the call
    for the first prompt, the loop of the command-line client goes on,
    and the call for the second prompt makes the exchange again. *)
Lemma exchange_repeated_at_second_call :
  snd (imagefx_cli.process_prompts down_then_up cli_args 0 ["cat"; "dog"] [] cookie_credentials)
  = [ session_request cookie_credentials;
      session_request cookie_credentials;
      generate_request (VStr "ya29.token")
        {| request_body.candidatesCount := 1;
           request_body.prompts := ["dog"];
           request_body.seed := 0;
           request_body.aspectRatio := "IMAGE_ASPECT_RATIO_LANDSCAPE";
           request_body.modelNameType := "IMAGEN_3_5";
           request_body.sessionId := ";1740658431200";
           request_body.tool := "IMAGE_FX" |} ].
Proof. vm_compute. reflexivity. Qed.

End Requests.

(** ** Decoding of the generation response *)

Section Decoding.
Import ImageFX.


Lemma get_dict (d : list (string * value)) (key : string) (dflt : value) :
  get (VDict d) key dflt = Return (default dflt (dict_get key d)).
Proof. unfold get. destruct (dict_get key d); reflexivity. Qed.

Lemma app_to_image_dict (prompt : Prompt.t) (d : list (string * value)) :
  imagefx_streamlit.to_image prompt (VDict d)
  = match dict_get "encodedImage" d with
    | Some enc => Return (filled prompt d enc)
    | None => Raise (KeyError (VStr "encodedImage"))
    end.
Proof.
  unfold imagefx_streamlit.to_image, filled. rewrite !get_dict.
  unfold getitem. destruct (dict_get "encodedImage" d); reflexivity.
Qed.

Lemma app_convert_dicts (prompt : Prompt.t) (ds : list (list (string * value))) :
  forall acc : list GeneratedImage.t,
    imagefx_streamlit.convert prompt (map VDict ds) acc
    = Return (acc ++ usable prompt ds)%list.
Proof.
  induction ds as [|d ds IH]; intros acc.
  - cbn. rewrite app_nil_r. reflexivity.
  - cbn [map imagefx_streamlit.convert]. rewrite app_to_image_dict.
    cbn [usable].
    destruct (dict_get "encodedImage" d) as [enc|].
    + rewrite IH, <- app_assoc. reflexivity.
    + rewrite IH. reflexivity.
Qed.

Lemma app_convert_nonempty (prompt : Prompt.t) (imgs : list value) :
  forall acc out : list GeneratedImage.t,
    imagefx_streamlit.convert prompt imgs acc = Return out ->
    acc <> [] -> out <> [].
Proof.
  induction imgs as [|img imgs IH]; intros acc out H Hacc.
  - cbn in H. injection H as <-. exact Hacc.
  - cbn [imagefx_streamlit.convert] in H.
    destruct (imagefx_streamlit.to_image prompt img) as [g|[]]; try discriminate.
    + apply (IH _ _ H). destruct acc; discriminate.
    + apply (IH _ _ H Hacc).
Qed.

(** The web client never answers [Ok] with an empty list. *)
Lemma app_decode_ok_nonempty (prompt : Prompt.t) (r : response_text)
    (imgs : list GeneratedImage.t) :
  imagefx_streamlit.decode prompt r = Ok imgs -> imgs <> [].
Proof.
  unfold imagefx_streamlit.decode.
  destruct (loads r) as [parsed_res|]; [|discriminate].
  destruct (contains "imagePanels" parsed_res) as [[|]|e]; cbn -[getitem getitem_0 get];
    try discriminate.
  destruct (getitem parsed_res "imagePanels") as [panels|e]; cbn -[getitem_0 get truthy];
    try discriminate.
  destruct (negb (truthy panels)); [discriminate|].
  cbn -[getitem_0 get truthy].
  destruct (getitem_0 panels) as [panel|e]; cbn -[get truthy]; try discriminate.
  destruct (get panel "generatedImages" (VList [])) as [images|e]; cbn -[truthy];
    try discriminate.
  destruct images as [| | | |l|]; try discriminate.
  destruct (negb (truthy (VList l))); [discriminate|].
  destruct (imagefx_streamlit.convert prompt l []) as [[|g gs]|e]; cbn; try discriminate.
  intros H. injection H as <-. discriminate.
Qed.

Lemma dict_get_contains (key : string) (d : list (string * value)) (v : value) :
  dict_get key d = Some v -> contains key (VDict d) = Return true.
Proof. intros H. unfold contains. rewrite H. reflexivity. Qed.

(** The web client on a response of the expected shape whose entries are
    objects. *)
Lemma app_decode_objects (prompt : Prompt.t) (r : response_text)
    (d panel : list (string * value)) (rest : list value)
    (ds : list (list (string * value))) :
  loads r = Some (VDict d) ->
  dict_get "imagePanels" d = Some (VList (VDict panel :: rest)) ->
  dict_get "generatedImages" panel = Some (VList (map VDict ds)) ->
  imagefx_streamlit.decode prompt r
  = match ds with
    | [] => Err (Text "No images generated")
    | _ => match usable prompt ds with
           | [] => Err (Text "Failed to parse any images from response")
           | imgs => Ok imgs
           end
    end.
Proof.
  intros Hl Hp Hi. unfold imagefx_streamlit.decode. rewrite Hl.
  rewrite (dict_get_contains _ _ _ Hp). cbn [bind negb].
  unfold getitem. rewrite Hp. cbn [bind truthy negb getitem_0].
  unfold get. rewrite Hi. cbn [bind].
  destruct ds as [|d0 ds]; [reflexivity|].
  cbn [map truthy negb]. rewrite <- (map_cons VDict d0 ds).
  rewrite app_convert_dicts. cbn [bind app].
  destruct (usable prompt (d0 :: ds)); reflexivity.
Qed.

Lemma lib_to_image_dict (d : list (string * value)) :
  (exists g, imagefx.to_image (VDict d) = Return g
             /\ forall key, In key image_fields -> dict_get key d <> None)
  \/ (exists key, imagefx.to_image (VDict d) = Raise (KeyError (VStr key))).
Proof.
  unfold imagefx.to_image, getitem.
  destruct (dict_get "encodedImage" d) eqn:E1; cbn [bind]; [|eauto].
  destruct (dict_get "seed" d) eqn:E2; cbn [bind]; [|eauto].
  destruct (dict_get "mediaGenerationId" d) eqn:E3; cbn [bind]; [|eauto].
  destruct (dict_get "isMaskEditedImage" d) eqn:E4; cbn [bind]; [|eauto].
  destruct (dict_get "prompt" d) eqn:E5; cbn [bind]; [|eauto].
  destruct (dict_get "modelNameType" d) eqn:E6; cbn [bind]; [|eauto].
  destruct (dict_get "workflowId" d) eqn:E7; cbn [bind]; [|eauto].
  destruct (dict_get "fingerprintLogRecordId" d) eqn:E8; cbn [bind]; [|eauto].
  left. eexists. split; [reflexivity|].
  intros key Hin. cbn in Hin.
  repeat (destruct Hin as [<-|Hin]; [congruence|]). destruct Hin.
Qed.

Lemma lib_convert_missing (ds : list (list (string * value))) :
  forall acc : list GeneratedImage.t,
    (exists d0 key, In d0 ds /\ In key image_fields /\ dict_get key d0 = None) ->
    exists key, imagefx.convert (map VDict ds) acc = Raise (KeyError (VStr key)).
Proof.
  induction ds as [|d ds IH]; intros acc (d0 & key & Hin & Hk & Hnone).
  - destruct Hin.
  - cbn [map imagefx.convert].
    destruct (lib_to_image_dict d) as [(g & -> & Hall)|(k & ->)]; cbn [bind]; [|eauto].
    destruct Hin as [->|Hin]; [exfalso; exact (Hall key Hk Hnone)|].
    apply IH. eauto.
Qed.

(** The library client on a response of the expected shape in which some
    entry lacks one of the fields. *)
Lemma lib_decode_missing_field (r : response_text)
    (d panel : list (string * value)) (rest : list value)
    (ds : list (list (string * value))) :
  loads r = Some (VDict d) ->
  dict_get "imagePanels" d = Some (VList (VDict panel :: rest)) ->
  dict_get "generatedImages" panel = Some (VList (map VDict ds)) ->
  (exists d0 key, In d0 ds /\ In key image_fields /\ dict_get key d0 = None) ->
  imagefx.decode r = Return (Err (Text ("Failed to parse JSON: " ++ text r))).
Proof.
  intros Hl Hp Hi Hmiss. unfold imagefx.decode. rewrite Hl.
  unfold getitem at 1. rewrite Hp. cbn [bind getitem_0].
  unfold getitem at 1. rewrite Hi. cbn [bind].
  destruct (lib_convert_missing ds [] Hmiss) as [key ->]. reflexivity.
Qed.

(** Claim C4, amended. On a response of the expected shape whose entries
    are objects, the web client skips the entries without
    [encodedImage] and turns each other entry into an image in which
    every missing field has its default ([filled]); it answers
    ["No images generated"] for an empty list of entries and
    ["Failed to parse any images from response"] when it kept none; it
    never answers [Ok] with an empty list. The library client answers
    ["Failed to parse JSON: ..."] for the whole response as soon as one
    entry lacks one of the fields. *)
Theorem missing_fields_filled_or_fatal (prompt : Prompt.t) (r : response_text)
    (d panel : list (string * value)) (rest : list value)
    (ds : list (list (string * value))) :
  loads r = Some (VDict d) ->
  dict_get "imagePanels" d = Some (VList (VDict panel :: rest)) ->
  dict_get "generatedImages" panel = Some (VList (map VDict ds)) ->
  imagefx_streamlit.decode prompt r
  = match ds with
    | [] => Err (Text "No images generated")
    | _ => match usable prompt ds with
           | [] => Err (Text "Failed to parse any images from response")
           | imgs => Ok imgs
           end
    end
  /\ (forall (p : Prompt.t) (r' : response_text) (imgs : list GeneratedImage.t),
         imagefx_streamlit.decode p r' = Ok imgs -> imgs <> [])
  /\ ((exists d0 key, In d0 ds /\ In key image_fields /\ dict_get key d0 = None) ->
      imagefx.decode r = Return (Err (Text ("Failed to parse JSON: " ++ text r)))).
Proof.
  intros Hl Hp Hi. split; [exact (app_decode_objects prompt r d panel rest ds Hl Hp Hi)|].
  split; [exact app_decode_ok_nonempty|].
  exact (lib_decode_missing_field r d panel rest ds Hl Hp Hi).
Qed.

(** Claim C4 fails on the library client: a response of two entries, the
    second of which lacks only its seed, is answered with an error for
    the whole response. *)
Lemma lib_missing_seed_fails_response :
  dict_get "seed" entry_without_seed = None
  /\ imagefx.decode seedless_response
     = Return (Err (Text ("Failed to parse JSON: " ++ text seedless_response))).
Proof. split; reflexivity. Qed.

Lemma missing_fields_filled_or_fatal_witness :
  imagefx_streamlit.decode imagen4_prompt seedless_response
  = Ok [ filled imagen4_prompt complete_entry (VStr "iVBORw0KGgo=");
         filled imagen4_prompt entry_without_seed (VStr "R0lGODlhAQABAAAAACw=") ]
  /\ (forall (p : Prompt.t) (r' : response_text) (imgs : list GeneratedImage.t),
         imagefx_streamlit.decode p r' = Ok imgs -> imgs <> [])
  /\ ((exists d0 key, In d0 [complete_entry; entry_without_seed]
                      /\ In key image_fields /\ dict_get key d0 = None) ->
      imagefx.decode seedless_response
      = Return (Err (Text ("Failed to parse JSON: " ++ text seedless_response)))).
Proof.
  apply (missing_fields_filled_or_fatal imagen4_prompt seedless_response
           (body_of [complete_entry; entry_without_seed])
           (panel_of [complete_entry; entry_without_seed]) []
           [complete_entry; entry_without_seed]); reflexivity.
Defined.

Lemma lib_decode_empty_panels (r : response_text) (d : list (string * value)) :
  loads r = Some (VDict d) ->
  dict_get "imagePanels" d = Some (VList []) ->
  imagefx.decode r = Raise IndexError.
Proof.
  intros Hl Hp. unfold imagefx.decode. rewrite Hl.
  unfold getitem at 1. rewrite Hp. reflexivity.
Qed.

(** The web client on an empty list of panels. *)
Lemma app_decode_empty_panels (prompt : Prompt.t) (r : response_text)
    (d : list (string * value)) :
  loads r = Some (VDict d) ->
  dict_get "imagePanels" d = Some (VList []) ->
  imagefx_streamlit.decode prompt r = Err (Text "No image panels in response").
Proof.
  intros Hl Hp. unfold imagefx_streamlit.decode. rewrite Hl.
  rewrite (dict_get_contains _ _ _ Hp). cbn [bind negb].
  unfold getitem. rewrite Hp. reflexivity.
Qed.

(** Claim C5, on the library client. For a response whose body decodes
    to an object with [imagePanels] equal to the empty list,
    [imagefx.generate_image] returns neither an error nor a success: it
    raises [IndexError]. The web client returns the error
    ["No image panels in response"] for the same response. *)
Theorem lib_empty_panels_raises :
  fst (fst (imagefx.generate_image (fun _ => Response empty_panels)
              (token_credentials, imagen4_prompt)))
  = Raise IndexError
  /\ fst (fst (imagefx_streamlit.generate_image (fun _ => Response empty_panels)
                 (token_credentials, imagen4_prompt)))
     = Return (Err (Text "No image panels in response")).
Proof. split; reflexivity. Qed.


End Decoding.

(** ** The batch run *)

Section BatchRun.
Import ImageFX imagefx_streamlit.
Local Open Scope list_scope.

Section Run.

Variable fs : cookie_parser.filesystem.
Variable ui : sidebar.

Lemma validate_finds (projects : list project) :
  forall k : nat,
    Exists (fun p => 50 < List.length (prompts p)) projects ->
    exists i p,
      nth_error projects i = Some p /\ 50 < List.length (prompts p)
      /\ validate k projects
         = Some (TooManyPrompts (k + i + 1) (title p) (List.length (prompts p))).
Proof.
  induction projects as [|q rest IH]; intros k Hex.
  - inversion Hex.
  - cbn [validate].
    destruct (Nat.ltb_spec 50 (List.length (prompts q))) as [Hbig|Hsmall].
    + exists 0, q. rewrite Nat.add_0_r. auto.
    + inversion Hex as [? ? Hq|? ? Hrest]; subst; [lia|].
      destruct (IH (S k) Hrest) as (i & p & Hn & Hp & Hv).
      exists (S i), p. split; [exact Hn|]. split; [exact Hp|].
      rewrite Hv. do 2 f_equal. lia.
Qed.

(** Claim C6. When one of the projects has more than 50 prompts, the run
    sends no request at all and ends in a rejection; once the
    credential guards are passed, the rejection is the one for the first
    such project, no image has been recorded, and the session is
    neither generating nor complete. *)
Theorem oversized_project_rejected_before_any_request
    (nets : nat -> nat -> network) (order : nat -> nat -> list nat)
    (valid_projects : list project) (st : session_state) :
  Exists (fun p => 50 < List.length (prompts p)) valid_projects ->
  snd (run fs nets order ui valid_projects st) = []
  /\ exists r : rejection,
      fst (fst (run fs nets order ui valid_projects st)) = Some r
      /\ (credentials_given fs ui = true ->
          exists i p,
            nth_error valid_projects i = Some p
            /\ 50 < List.length (prompts p)
            /\ r = TooManyPrompts (i + 1) (title p) (List.length (prompts p))
            /\ all_generated_images (snd (fst (run fs nets order ui valid_projects st))) = []
            /\ generation_complete (snd (fst (run fs nets order ui valid_projects st)))
               = false
            /\ generating (snd (fst (run fs nets order ui valid_projects st))) = false).
Proof.
  intros Hex. unfold run, credentials_given.
  destruct (negb (truthy_str (sb_cookie ui)) && negb (truthy_str (sb_auth_token ui))
            && negb (truthy_str (sb_cookie_file ui))).
  { cbn. split; [reflexivity|]. eexists. split; [reflexivity|]. discriminate. }
  destruct (truthy_str (sb_cookie_file ui)
            && negb (cookie_parser.path_exists fs (default EmptyString (sb_cookie_file ui)))).
  { cbn. split; [reflexivity|]. eexists. split; [reflexivity|]. discriminate. }
  destruct (validate_finds valid_projects 0 Hex) as (i & p & Hn & Hp & Hv).
  rewrite Hv. cbn. split; [reflexivity|]. eexists. split; [reflexivity|].
  intros _. exists i, p. auto 10.
Qed.

End Run.

Section Completion.

Context {A : Type}.

Lemma nth_error_remove (l : list A) :
  forall (i : nat) (x : A),
    nth_error l i = Some x ->
    Permutation (x :: firstn i l ++ skipn (S i) l) l
    /\ S (List.length (firstn i l ++ skipn (S i) l)) = List.length l.
Proof.
  induction l as [|y l IH]; intros [|i] x H; cbn in H; try discriminate.
  - injection H as ->. cbn. split; [apply Permutation_refl | reflexivity].
  - destruct (IH i x H) as [Hp Hl]. cbn [firstn skipn app List.length].
    split; [|now rewrite Hl].
    etransitivity; [apply perm_swap|]. apply perm_skip. exact Hp.
Qed.

Lemma as_completed_aux_perm (fuel : nat) :
  forall (choices : list nat) (pending : list A),
    List.length pending = fuel ->
    Permutation (as_completed_aux fuel choices pending) pending.
Proof.
  induction fuel as [|fuel IH]; intros choices pending Hlen.
  - destruct pending; [constructor | discriminate].
  - cbn [as_completed_aux].
    assert (Hi : hd 0 choices mod List.length pending < List.length pending)
      by (apply Nat.mod_upper_bound; lia).
    destruct (nth_error pending (hd 0 choices mod List.length pending)) as [x|] eqn:E.
    + destruct (nth_error_remove pending _ x E) as [Hp Hl].
      etransitivity; [|exact Hp]. apply perm_skip. apply IH. lia.
    + apply nth_error_None in E. lia.
Qed.

Lemma as_completed_perm (choices : list nat) (pending : list A) :
  Permutation (as_completed choices pending) pending.
Proof. apply as_completed_aux_perm. reflexivity. Qed.

End Completion.

Lemma record_result_lists (st : session_state) (r : batch_result) :
  all_generated_images (record_result st r)
  = all_generated_images st ++ recorded_images r
  /\ failed_prompts (record_result st r) = failed_prompts st ++ recorded_failures r.
Proof.
  unfold record_result, recorded_images, recorded_failures.
  destruct (truthy_error (wr_error (br_result r))).
  - destruct (wr_error_data (br_result r)); cbn; rewrite ?app_nil_r; auto.
  - destruct (wr_images (br_result r)) as [[|img imgs]|]; cbn; rewrite ?app_nil_r; auto.
Qed.

Lemma record_results_lists (rs : list batch_result) :
  forall st : session_state,
    all_generated_images (fold_left record_result rs st)
    = all_generated_images st ++ flat_map recorded_images rs
    /\ failed_prompts (fold_left record_result rs st)
       = failed_prompts st ++ flat_map recorded_failures rs.
Proof.
  induction rs as [|r rs IH]; intros st; cbn [fold_left flat_map].
  - rewrite !app_nil_r. auto.
  - destruct (IH (record_result st r)) as [Hi Hf].
    destruct (record_result_lists st r) as [Hi1 Hf1].
    rewrite Hi, Hf, Hi1, Hf1, <- !app_assoc. auto.
Qed.

Lemma flat_map_Forall_ext {A B : Type} (f g : A -> list B) (l : list A) :
  Forall (fun x => f x = g x) l -> flat_map f l = flat_map g l.
Proof. induction 1 as [|x l Hx _ IH]; cbn; [reflexivity | now rewrite Hx, IH]. Qed.

Lemma flat_map_map {A B C : Type} (f : A -> B) (g : B -> list C) (l : list A) :
  flat_map g (map f l) = flat_map (fun x => g (f x)) l.
Proof. induction l as [|x l IH]; cbn; [reflexivity | now rewrite IH]. Qed.

Section Batch.

Variable fs : cookie_parser.filesystem.
Variable nets : nat -> network.
Variable ui : sidebar.
Variable project_title : string.
Lemma run_batch_lists (choices : list nat) (batch : list (nat * string))
    (st : session_state) :
  Permutation (all_generated_images (fst (run_batch fs nets choices ui project_title batch st)))
              (all_generated_images st ++ flat_map (fun pd => recorded_images (entry_of fs nets ui project_title pd)) batch)
  /\ exists fl,
      failed_prompts (fst (run_batch fs nets choices ui project_title batch st))
      = failed_prompts st ++ fl
      /\ Permutation fl (flat_map (fun pd => recorded_failures (entry_of fs nets ui project_title pd)) batch).
Proof.
  unfold run_batch. cbn [fst].
  match goal with
  | |- context [fold_left record_result (map ?mk (as_completed choices ?futures)) st] =>
      set (brs := map mk (as_completed choices futures));
      assert (Hperm : Permutation brs (map (entry_of fs nets ui project_title) batch))
  end.
  { subst brs. etransitivity; [apply Permutation_map, as_completed_perm|].
    rewrite map_map. apply Permutation_refl. }
  destruct (record_results_lists brs st) as [Hi Hf]. rewrite Hi, Hf.
  split.
  - apply Permutation_app_head.
    rewrite <- (flat_map_map (entry_of fs nets ui project_title) recorded_images batch).
    apply Permutation_flat_map. exact Hperm.
  - eexists. split; [reflexivity|].
    rewrite <- (flat_map_map (entry_of fs nets ui project_title) recorded_failures batch).
    apply Permutation_flat_map. exact Hperm.
Qed.

Lemma succeeded_records (pd : nat * string) :
  succeeded fs nets ui pd ->
  recorded_images (entry_of fs nets ui project_title pd) = titled_images fs nets ui project_title pd
  /\ recorded_failures (entry_of fs nets ui project_title pd) = [].
Proof.
  intros [imgs H]. unfold recorded_images, recorded_failures, titled_images, entry_of.
  cbn [br_result br_project_title]. rewrite H. cbn. auto.
Qed.

(** In a batch where one worker fails (with a message that is not
    empty) and the others succeed, [failed_prompts] gains one entry, for
    the prompt that failed, and [all_generated_images] gains the images
    of the others, in the order of completion. *)
Lemma batch_isolates_one_failure (choices : list nat)
    (pre post : list (nat * string)) (i0 : nat) (t0 : string) (m : message)
    (st : session_state) :
  worker fs nets ui (i0, t0) = failed i0 t0 m ->
  truthy_message m = true ->
  Forall (succeeded fs nets ui) (pre ++ post) ->
  failed_prompts
    (fst (run_batch fs nets choices ui project_title (pre ++ (i0, t0) :: post) st))
  = failed_prompts st
    ++ [ {| ed_prompt := t0; ed_error := m; ed_index := i0 + 1;
            ed_project_title := Some project_title |} ]
  /\ Permutation
       (all_generated_images
          (fst (run_batch fs nets choices ui project_title (pre ++ (i0, t0) :: post) st)))
       (all_generated_images st ++ flat_map (titled_images fs nets ui project_title) (pre ++ post)).
Proof.
  intros Hfail Hm Hok.
  assert (Hpre : Forall (succeeded fs nets ui) pre) by (apply Forall_app in Hok; tauto).
  assert (Hpost : Forall (succeeded fs nets ui) post) by (apply Forall_app in Hok; tauto).
  assert (Himg0 : recorded_images (entry_of fs nets ui project_title (i0, t0)) = []).
  { unfold recorded_images, entry_of. cbn [br_result]. rewrite Hfail.
    cbn [failed wr_error truthy_error]. rewrite Hm. reflexivity. }
  assert (Hfl0 : recorded_failures (entry_of fs nets ui project_title (i0, t0))
                 = [ {| ed_prompt := t0; ed_error := m; ed_index := i0 + 1;
                        ed_project_title := Some project_title |} ]).
  { unfold recorded_failures, entry_of. cbn [br_result br_project_title]. rewrite Hfail.
    cbn [failed wr_error wr_error_data truthy_error]. rewrite Hm. reflexivity. }
  assert (Hnone : forall l, Forall (succeeded fs nets ui) l ->
                    flat_map (fun pd => recorded_failures (entry_of fs nets ui project_title pd)) l = []).
  { induction 1 as [|pd l Hpd _ IH]; cbn; [reflexivity|].
    destruct (succeeded_records pd Hpd) as [_ ->]. exact IH. }
  assert (Himgs : forall l, Forall (succeeded fs nets ui) l ->
                    flat_map (fun pd => recorded_images (entry_of fs nets ui project_title pd)) l
                    = flat_map (titled_images fs nets ui project_title) l).
  { intros l Hl. apply flat_map_Forall_ext.
    eapply List.Forall_impl; [|exact Hl]. intros pd Hpd. apply (succeeded_records pd Hpd). }
  destruct (run_batch_lists choices (pre ++ (i0, t0) :: post) st) as [Hi (fl & Hf & Hp)].
  split.
  - rewrite Hf. f_equal.
    rewrite flat_map_app in Hp. cbn [flat_map] in Hp.
    rewrite (Hnone pre Hpre), (Hnone post Hpost), Hfl0 in Hp. cbn in Hp.
    apply Permutation_sym, Permutation_length_1_inv in Hp. exact Hp.
  - etransitivity; [exact Hi|]. apply Permutation_app_head.
    rewrite !flat_map_app. cbn [flat_map]. rewrite Himg0. cbn [app].
    rewrite (Himgs pre Hpre), (Himgs post Hpost). apply Permutation_refl.
Qed.

End Batch.


Section Worker.

Variable fs : cookie_parser.filesystem.
Variable nets : nat -> network.
Variable ui : sidebar.

(** A worker that is given an authentication token sends one request,
    the generation request, and fails exactly when that call or the
    decoding of its response does. *)
Lemma worker_with_token (pd : nat * string) (tok : string) :
  sb_cookie ui = None -> sb_cookie_file ui = None ->
  sb_auth_token ui = Some tok -> truthy_str (Some tok) = true ->
  worker fs nets ui pd
  = match nets (fst pd)
            (generate_request (VStr tok)
               (build_request_body (prompt_obj ui (snd pd)))) with
    | RequestException msg => failed (fst pd) (snd pd) (Text msg)
    | Response r =>
        match decode (prompt_obj ui (snd pd)) r with
        | Err m => failed (fst pd) (snd pd) m
        | Ok imgs =>
            {| wr_images := Some (imagefx_cli.stamp_prompt (snd pd) imgs);
               wr_prompt_text := snd pd;
               wr_error := None;
               wr_error_data := None |}
        end
    end.
Proof.
  intros Hc Hf Ht Htok. unfold worker, process_single_prompt.
  rewrite Hc, Hf, Ht.
  assert (Hinit : __init__ fs {| cookie := None;
                                 authorization_key := of_optional (Some tok);
                                 cookie_file := None |}
                  = Return {| cookie := None;
                              authorization_key := VStr tok;
                              cookie_file := None |}).
  { unfold __init__, add_missing_header, truthy_str in *. cbn in *.
    rewrite Htok. reflexivity. }
  rewrite Hinit, app_generate_image_eq, app_check_token_eq.
  unfold truthy_str in Htok. cbn [of_optional] in Htok.
  cbn [fst snd authorization_key cookie]. rewrite Htok.
  cbn [negb andb truthy_str of_optional truthy].
  destruct (nets (fst pd) _) as [msg|r]; [reflexivity|].
  destruct (decode (prompt_obj ui (snd pd)) r); reflexivity.
Qed.

End Worker.

Section Coverage.

Context {A : Type}.

Lemma enumerate_app (l1 l2 : list A) :
  forall start : nat,
    enumerate (l1 ++ l2) start
    = enumerate l1 start ++ enumerate l2 (start + List.length l1).
Proof.
  unfold enumerate. induction l1 as [|x l1 IH]; intros start.
  - cbn. rewrite Nat.add_0_r. reflexivity.
  - cbn [app List.length seq combine]. rewrite IH.
    replace (S start + List.length l1) with (start + S (List.length l1)) by lia.
    reflexivity.
Qed.

Lemma firstn_add (a b : nat) (l : list A) :
  firstn (a + b) l = firstn a l ++ firstn b (skipn a l).
Proof.
  rewrite <- (firstn_skipn a (firstn (a + b) l)) at 1.
  rewrite firstn_firstn, <- firstn_skipn_comm.
  replace (Nat.min a (a + b)) with a by lia. reflexivity.
Qed.

End Coverage.

Lemma batch_prompts_eq (l : list string) (b : nat) :
  batch_prompts l b = enumerate (firstn batch_size (skipn b l)) (b + 1).
Proof.
  unfold batch_prompts, batch_size. f_equal.
  destruct (Nat.le_gt_cases (b + 3) (List.length l)) as [Hle|Hgt].
  - replace (Nat.min (b + 3) (List.length l) - b) with 3 by lia. reflexivity.
  - rewrite !firstn_all2; [reflexivity | |]; rewrite length_skipn; lia.
Qed.

Lemma batches_prefix (l : list string) (m : nat) :
  concat (map (batch_prompts l) (map (fun k => k * batch_size) (seq 0 m)))
  = enumerate (firstn (m * batch_size) l) 1.
Proof.
  induction m as [|m IH].
  - reflexivity.
  - rewrite seq_S, !map_app, concat_app, IH. cbn [map concat plus].
    rewrite app_nil_r, batch_prompts_eq.
    replace (S m * batch_size) with (m * batch_size + batch_size)
      by (unfold batch_size; lia).
    rewrite firstn_add, enumerate_app. f_equal.
    destruct (firstn batch_size (skipn (m * batch_size) l)) as [|x rest] eqn:E;
      [reflexivity|].
    f_equal. rewrite length_firstn.
    assert (m * batch_size < List.length l).
    { destruct (Nat.le_gt_cases (List.length l) (m * batch_size)) as [Hle|Hgt];
        [|exact Hgt].
      rewrite skipn_all2 in E by exact Hle. destruct batch_size; discriminate. }
    lia.
Qed.

(** The batches of a project are its prompts, each once, in order,
    numbered from 1. *)
Lemma batches_cover (l : list string) :
  concat (map (batch_prompts l) (batch_starts (List.length l))) = enumerate l 1.
Proof.
  unfold batch_starts. rewrite batches_prefix. f_equal.
  apply firstn_all2. unfold batch_size.
  pose proof (Nat.div_mod_eq (List.length l + 3 - 1) 3) as Hd.
  pose proof (Nat.mod_upper_bound (List.length l + 3 - 1) 3) as Hm.
  lia.
Qed.

Lemma validate_passes (projects : list project) :
  forall k : nat,
    Forall (fun p => List.length (prompts p) <= 50) projects ->
    validate k projects = None.
Proof.
  induction projects as [|p rest IH]; intros k Hall; [reflexivity|].
  inversion Hall as [|? ? Hp Hrest]; subst. cbn [validate].
  destruct (Nat.ltb_spec 50 (List.length (prompts p))); [lia|]. apply IH, Hrest.
Qed.

(** With credentials and no project over the limit the run goes through
    all projects, whatever the workers return. *)
Lemma run_completes (fs : cookie_parser.filesystem) (nets : nat -> nat -> network)
    (order : nat -> nat -> list nat) (ui : sidebar)
    (valid_projects : list project) (st : session_state) :
  credentials_given fs ui = true ->
  Forall (fun p => List.length (prompts p) <= 50) valid_projects ->
  fst (fst (run fs nets order ui valid_projects st)) = None
  /\ generation_complete (snd (fst (run fs nets order ui valid_projects st))) = true
  /\ generating (snd (fst (run fs nets order ui valid_projects st))) = false.
Proof.
  intros Hc Hall. unfold run. unfold credentials_given in Hc.
  apply andb_true_iff in Hc as [H1 H2].
  apply negb_true_iff in H1. apply negb_true_iff in H2. rewrite H1, H2.
  rewrite (validate_passes valid_projects 0 Hall).
  destruct (run_projects fs nets order ui 0 valid_projects _) as [st1 l].
  cbn. auto.
Qed.

Example batch_starts_7 : batch_starts 7 = [0; 3; 6].
Proof. reflexivity. Qed.

Example batch_prompts_last :
  batch_prompts ["a"; "b"; "c"; "d"] 3 = [(4, "d")].
Proof. reflexivity. Qed.

Example as_completed_third_first :
  as_completed [2; 0; 5] ["w"; "x"; "y"; "z"] = ["y"; "w"; "z"; "x"].
Proof. reflexivity. Qed.

Example strip_both_ends : strip "  purple cat  " = "purple cat".
Proof. reflexivity. Qed.

(** A failure whose message is empty is recorded nowhere: [if error:]
    is false, and there are no images. *)
Lemma failure_with_empty_message_is_dropped :
  failed_prompts
    (snd (fst (run no_files second_fails_silently in_order token_sidebar [three_prompts]
                 fresh_session))) = []
  /\ map GeneratedImage.prompt
       (all_generated_images
          (snd (fst (run no_files second_fails_silently in_order token_sidebar
                       [three_prompts] fresh_session))))
     = [VStr "cat"; VStr "bird"].
Proof. split; vm_compute; reflexivity. Qed.

(** Claim C1. One project with the prompts cat, dog, bird, an
    authentication token, and a generation endpoint that answers the
    call for dog with an error and the two others with one image: the
    run goes through, [failed_prompts] holds one entry, for dog, with
    the project title, and the images of cat and bird are recorded; but
    the entry's index is 3, while dog is prompt 2 of the project. *)
Theorem failure_entry_index_is_one_too_high :
  batch_prompts ["cat"; "dog"; "bird"] 0 = [(1, "cat"); (2, "dog"); (3, "bird")]
  /\ fst (fst (run no_files second_fails in_order token_sidebar [three_prompts]
                   fresh_session)) = None
  /\ failed_prompts
       (snd (fst (run no_files second_fails in_order token_sidebar [three_prompts]
                    fresh_session)))
     = [ {| ed_prompt := "dog"; ed_error := Text "500 Server Error";
            ed_index := 3; ed_project_title := Some "A" |} ]
  /\ map (fun g => (GeneratedImage.prompt g, GeneratedImage.project_title g))
         (all_generated_images
            (snd (fst (run no_files second_fails in_order token_sidebar [three_prompts]
                         fresh_session))))
     = [ (VStr "cat", Some "A"); (VStr "bird", Some "A") ].
Proof. repeat split; vm_compute; reflexivity. Qed.

Lemma oversized_project_rejected_before_any_request_witness :
  snd (run no_files second_fails in_order token_sidebar [three_prompts; fifty_one_prompts]
         fresh_session) = []
  /\ exists r : rejection,
      fst (fst (run no_files second_fails in_order token_sidebar
                  [three_prompts; fifty_one_prompts] fresh_session)) = Some r
      /\ (credentials_given no_files token_sidebar = true ->
          exists i p,
            nth_error [three_prompts; fifty_one_prompts] i = Some p
            /\ 50 < List.length (prompts p)
            /\ r = TooManyPrompts (i + 1) (title p) (List.length (prompts p))
            /\ all_generated_images
                 (snd (fst (run no_files second_fails in_order token_sidebar
                              [three_prompts; fifty_one_prompts] fresh_session))) = []
            /\ generation_complete
                 (snd (fst (run no_files second_fails in_order token_sidebar
                              [three_prompts; fifty_one_prompts] fresh_session))) = false
            /\ generating
                 (snd (fst (run no_files second_fails in_order token_sidebar
                              [three_prompts; fifty_one_prompts] fresh_session))) = false).
Proof.
  apply (oversized_project_rejected_before_any_request no_files token_sidebar
           second_fails in_order [three_prompts; fifty_one_prompts] fresh_session).
  apply Exists_cons_tl, Exists_cons_hd. vm_compute. lia.
Defined.

End BatchRun.

(* ===================================================================== *)
(** * Further properties                                                  *)
(* ===================================================================== *)

Section Trimming.

Lemma lstrip_first (s : string) (c : ascii) :
  first_char (lstrip s) = Some c -> is_space c = false.
Proof.
  induction s as [|ch s IH]; cbn [lstrip]; [discriminate|].
  destruct (is_space ch) eqn:E; [exact IH|].
  cbn. intros H. injection H as <-. exact E.
Qed.

Lemma lstrip_fixed (s : string) :
  match first_char s with Some c => is_space c = false | None => True end ->
  lstrip s = s.
Proof. destruct s as [|ch s]; cbn; [reflexivity|]. intros ->. reflexivity. Qed.

Lemma rstrip_empty_or_last (s : string) :
  match last_char (rstrip s) with Some c => is_space c = false | None => rstrip s = EmptyString end.
Proof.
  induction s as [|ch s IH]; cbn [rstrip]; [reflexivity|].
  destruct (rstrip s) as [|c' t] eqn:E.
  - destruct (is_space ch) eqn:Es; cbn; [reflexivity | exact Es].
  - cbn [last_char] in *. destruct (last_char t) as [c''|]; exact IH.
Qed.

Lemma rstrip_fixed (s : string) :
  match last_char s with Some c => is_space c = false | None => True end ->
  rstrip s = s.
Proof.
  induction s as [|ch s IH]; [reflexivity|].
  cbn [last_char rstrip]. destruct (last_char s) as [c'|] eqn:E.
  - intros H. rewrite (IH H). destruct s; [discriminate | reflexivity].
  - intros H. destruct s as [|c2 s2]; [cbn; rewrite H; reflexivity|].
    cbn in E. destruct (last_char s2); discriminate.
Qed.

Lemma rstrip_first (s : string) (c : ascii) :
  first_char s = Some c -> is_space c = false -> first_char (rstrip s) = Some c.
Proof.
  destruct s as [|ch s]; cbn [first_char rstrip]; [discriminate|].
  intros H Hc. injection H as ->.
  destruct (rstrip s); [rewrite Hc|]; reflexivity.
Qed.

Lemma last_char_none (s : string) : last_char s = None -> s = EmptyString.
Proof.
  destruct s as [|c s]; [reflexivity|]. cbn. destruct (last_char s); discriminate.
Qed.

Lemma trimmed_fixed (s : string) : trimmed s = true -> strip s = s /\ s <> EmptyString.
Proof.
  unfold trimmed, strip.
  destruct (first_char s) as [a|] eqn:Ea; [|discriminate].
  destruct (last_char s) as [b|] eqn:Eb; [|discriminate].
  intros H. apply andb_true_iff in H as [Ha Hb].
  apply negb_true_iff in Ha. apply negb_true_iff in Hb.
  rewrite lstrip_fixed by (rewrite Ea; exact Ha).
  rewrite rstrip_fixed by (rewrite Eb; exact Hb).
  split; [reflexivity|]. intros ->. discriminate.
Qed.

Lemma strip_trimmed (s : string) : nonempty (strip s) = true -> trimmed (strip s) = true.
Proof.
  unfold nonempty, strip, trimmed. intros Hne.
  pose proof (rstrip_empty_or_last (lstrip s)) as Hlast.
  destruct (last_char (rstrip (lstrip s))) as [b|] eqn:Eb.
  2:{ rewrite Hlast in Hne. discriminate. }
  destruct (first_char (lstrip s)) as [a|] eqn:Ea.
  - pose proof (lstrip_first s a Ea) as Ha.
    rewrite (rstrip_first _ a Ea Ha), Ha, Hlast. reflexivity.
  - destruct (lstrip s); [discriminate Eb | discriminate Ea].
Qed.

Lemma strip_idempotent (s : string) : strip (strip s) = strip s.
Proof.
  destruct (nonempty (strip s)) eqn:E.
  - apply trimmed_fixed, strip_trimmed, E.
  - unfold nonempty in E. apply negb_false_iff, String.eqb_eq in E. rewrite E. reflexivity.
Qed.

Lemma rstrip_ink (s : string) : nonempty (rstrip s) = has_ink s.
Proof.
  induction s as [|ch s IH]; [reflexivity|].
  cbn [rstrip has_ink]. rewrite <- IH. unfold nonempty.
  destruct (rstrip s); cbn; [|symmetry; apply orb_true_r].
  destruct (is_space ch); reflexivity.
Qed.

Lemma lstrip_ink (s : string) : has_ink (lstrip s) = has_ink s.
Proof.
  induction s as [|ch s IH]; [reflexivity|].
  cbn [lstrip has_ink]. destruct (is_space ch) eqn:E; [exact IH|].
  cbn [has_ink negb orb]. rewrite E. reflexivity.
Qed.

Lemma strip_ink (s : string) : nonempty (strip s) = has_ink s.
Proof. unfold strip. rewrite rstrip_ink. apply lstrip_ink. Qed.

Lemma lstrip_occurs (ch : ascii) (s : string) :
  occurs ch (lstrip s) = true -> occurs ch s = true.
Proof.
  induction s as [|c s IH]; [trivial|]. cbn [lstrip].
  destruct (is_space c); [|trivial]. intros H. cbn. rewrite (IH H). apply orb_true_r.
Qed.

Lemma rstrip_occurs (ch : ascii) (s : string) :
  occurs ch (rstrip s) = true -> occurs ch s = true.
Proof.
  induction s as [|c s IH]; [trivial|]. cbn [rstrip].
  destruct (rstrip s) as [|c' t].
  - destruct (is_space c); cbn; [discriminate|].
    rewrite orb_false_r. intros ->. reflexivity.
  - cbn [occurs] in *. intros H. apply orb_true_iff in H as [H|H].
    + rewrite H. reflexivity.
    + rewrite (IH H). apply orb_true_r.
Qed.

Lemma strip_occurs (ch : ascii) (s : string) :
  occurs ch (strip s) = true -> occurs ch s = true.
Proof. intros H. apply lstrip_occurs, rstrip_occurs, H. Qed.

End Trimming.

Section Splitting.

Variable sep : ascii.

Lemma split_nonempty (s : string) : split sep s <> [].
Proof.
  induction s as [|ch s IH]; cbn; [discriminate|].
  destruct (Ascii.eqb ch sep); [discriminate|]. destruct (split sep s); discriminate.
Qed.

Lemma split_pieces (s : string) :
  Forall (fun piece => occurs sep piece = false) (split sep s).
Proof.
  induction s as [|ch s IH]; cbn [split].
  - constructor; [reflexivity | constructor].
  - destruct (Ascii.eqb ch sep) eqn:E.
    + constructor; [reflexivity | exact IH].
    + destruct (split sep s) as [|piece pieces]; [constructor; [cbn; now rewrite E|constructor]|].
      inversion IH as [|? ? Hp Hps]; subst.
      constructor; [cbn; rewrite E; exact Hp | exact Hps].
Qed.

Lemma split_no_sep (s : string) : occurs sep s = false -> split sep s = [s].
Proof.
  induction s as [|ch s IH]; [reflexivity|]. cbn [occurs split].
  intros H. apply orb_false_iff in H as [H1 H2]. rewrite H1, (IH H2). reflexivity.
Qed.

Lemma split_append (p s : string) :
  occurs sep p = false ->
  split sep (p ++ String sep s) = p :: split sep s.
Proof.
  induction p as [|ch p IH]; intros H.
  - change (split sep (String sep s) = EmptyString :: split sep s).
    cbn [split]. rewrite Ascii.eqb_refl. reflexivity.
  - change (split sep (String ch (p ++ String sep s)) = String ch p :: split sep s).
    cbn [occurs] in H. apply orb_false_iff in H as [H1 H2].
    cbn [split]. rewrite H1, (IH H2). reflexivity.
Qed.

(** [sep.join(pieces).split(sep)] gives the pieces back. *)
Lemma split_concat (pieces : list string) :
  pieces <> [] ->
  Forall (fun piece => occurs sep piece = false) pieces ->
  split sep (String.concat (String sep EmptyString) pieces) = pieces.
Proof.
  induction pieces as [|p ps IH]; [contradiction|]. intros _ Hall.
  inversion Hall as [|? ? Hp Hps]; subst.
  destruct ps as [|q qs].
  - cbn. apply split_no_sep, Hp.
  - change (String.concat (String sep EmptyString) (p :: q :: qs))
      with (p ++ String sep (String.concat (String sep EmptyString) (q :: qs))).
    rewrite split_append by exact Hp.
    f_equal. apply IH; [discriminate | exact Hps].
Qed.

End Splitting.

Section Prompts.
Import prompt_input.
Local Open Scope list_scope.

Lemma clean_lines_trimmed (raw_prompts : list string) :
  Forall (fun p => trimmed p = true) (clean_lines raw_prompts).
Proof.
  unfold clean_lines. apply List.Forall_forall. intros p Hin.
  apply in_map_iff in Hin as (raw & <- & Hraw).
  apply filter_In in Hraw as [_ Hne]. apply strip_trimmed, Hne.
Qed.

Lemma clean_lines_fixed (prompts : list string) :
  Forall (fun p => trimmed p = true) prompts -> clean_lines prompts = prompts.
Proof.
  unfold clean_lines. induction 1 as [|p ps Hp _ IH]; [reflexivity|].
  destruct (trimmed_fixed p Hp) as [Hs Hne]. cbn [List.filter]. rewrite Hs.
  assert (nonempty p = true) as ->
    by (unfold nonempty; apply negb_true_iff, String.eqb_neq, Hne).
  cbn [map]. rewrite Hs, IH. reflexivity.
Qed.

Lemma has_ink_split (s : string) :
  has_ink s = existsb has_ink (split newline s).
Proof.
  induction s as [|ch s IH]; [reflexivity|]. cbn [has_ink split].
  destruct (Ascii.eqb ch newline) eqn:E.
  - apply Ascii.eqb_eq in E. subst ch. cbn [existsb has_ink]. exact IH.
  - rewrite IH. pose proof (split_nonempty newline s) as Hne.
    destruct (split newline s) as [|piece pieces]; [contradiction|].
    cbn [existsb has_ink]. apply orb_assoc.
Qed.

Lemma clean_lines_nonempty (raw_prompts : list string) :
  existsb has_ink raw_prompts = true -> clean_lines raw_prompts <> [].
Proof.
  unfold clean_lines. induction raw_prompts as [|raw rest IH]; [discriminate|].
  cbn [existsb List.filter]. rewrite strip_ink. destruct (has_ink raw); [discriminate|].
  exact IH.
Qed.

Lemma parse_prompts_nonempty (prompts_text : string) :
  nonempty (strip prompts_text) = true -> parse_prompts prompts_text <> [].
Proof.
  rewrite strip_ink, has_ink_split. apply clean_lines_nonempty.
Qed.

Lemma collect_prompts_clean_lines (raw_prompts : list string) :
  forall prompts : list string,
    collect_prompts raw_prompts prompts = prompts ++ clean_lines raw_prompts.
Proof.
  unfold clean_lines.
  induction raw_prompts as [|raw rest IH]; intros prompts; cbn [collect_prompts List.filter].
  - cbn. rewrite app_nil_r. reflexivity.
  - destruct (nonempty (strip raw)); rewrite IH; [|reflexivity].
    cbn [map]. rewrite <- app_assoc. reflexivity.
Qed.

Lemma parsed_prompt_facts (prompts_text p : string) :
  In p (parse_prompts prompts_text) ->
  p <> EmptyString /\ strip p = p /\ occurs newline p = false.
Proof.
  intros Hin.
  pose proof (clean_lines_trimmed (split newline prompts_text)) as Hall.
  rewrite List.Forall_forall in Hall. destruct (trimmed_fixed p (Hall p Hin)) as [Hs Hne].
  repeat split; [exact Hne | exact Hs |].
  unfold parse_prompts, clean_lines in Hin.
  apply in_map_iff in Hin as (raw & <- & Hraw). apply filter_In in Hraw as [Hraw _].
  pose proof (split_pieces newline prompts_text) as Hp. rewrite List.Forall_forall in Hp.
  specialize (Hp raw Hraw).
  destruct (occurs newline (strip raw)) eqn:E; [|reflexivity].
  rewrite (strip_occurs _ _ E) in Hp. discriminate.
Qed.


(** Property X2. Single mode, which collects the prompts in a loop, reads
    the same prompts from a text as batch mode, which builds them with a
    comprehension. *)
Theorem single_mode_reads_like_batch_mode (prompts_text : string) :
  collect_prompts (split newline prompts_text) [] = parse_prompts prompts_text.
Proof. apply collect_prompts_clean_lines. Qed.

(** Property X3. The box of failed prompts shows them joined by newlines.
    Pasted back into a text area they are read as the same prompts: a
    list of prompts taken from those of a text area is what parsing its
    join gives. *)
Theorem failed_prompts_can_be_pasted_back (prompts_text : string)
    (failed : list string) :
  incl failed (parse_prompts prompts_text) ->
  parse_prompts (String.concat (String newline EmptyString) failed) = failed.
Proof.
  intros Hincl. destruct failed as [|p ps] eqn:E; [reflexivity|]. rewrite <- E.
  assert (Hfacts : forall q, In q failed ->
                     q <> EmptyString /\ strip q = q /\ occurs newline q = false).
  { intros q Hq. apply (parsed_prompt_facts prompts_text q). apply Hincl.
    rewrite <- E. exact Hq. }
  unfold parse_prompts. rewrite split_concat.
  - apply clean_lines_fixed. apply List.Forall_forall. intros q Hq.
    destruct (Hfacts q Hq) as (Hne & Hs & _).
    rewrite <- Hs. apply strip_trimmed. rewrite Hs.
    unfold nonempty. apply negb_true_iff, String.eqb_neq, Hne.
  - rewrite E. discriminate.
  - apply List.Forall_forall. intros q Hq. apply (Hfacts q Hq).
Qed.

Lemma validate_projects_no_empty_project (pairs : list (string * string)) :
  forall (i : nat) (valid : list imagefx_streamlit.project) (n : nat),
    validate_projects i pairs valid <> Refused (NoValidPrompts n).
Proof.
  induction pairs as [|[t txt] rest IH]; intros i valid n; cbn [validate_projects].
  - discriminate.
  - destruct (nonempty (strip t)); cbn [negb orb]; [|discriminate].
    destruct (nonempty (strip txt)) eqn:E; cbn [negb]; [|discriminate].
    pose proof (parse_prompts_nonempty txt E) as Hne.
    destruct (parse_prompts txt); [contradiction | apply IH].
Qed.

(** Property X4. The exits [Project i has no valid prompts!] of batch mode
    and [No valid prompts found!] of single mode are never taken: a text
    that passes the check [prompts_text.strip()] has a prompt. *)
Theorem no_valid_prompts_exits_are_dead :
  (forall (project_titles project_prompts : list string) (n : nat),
      batch_projects project_titles project_prompts <> Refused (NoValidPrompts n))
  /\ (forall title prompts_text : string,
         single_project title prompts_text <> Refused NoValidPromptsFound).
Proof.
  split.
  - intros titles texts n. unfold batch_projects.
    destruct titles; [discriminate|]. destruct texts; [discriminate|].
    apply validate_projects_no_empty_project.
  - intros title txt. unfold single_project.
    destruct (nonempty (strip txt)) eqn:E; cbn [negb]; [|discriminate].
    destruct (nonempty (strip title)); cbn [negb]; [|discriminate].
    rewrite collect_prompts_clean_lines. cbn [app]. fold (parse_prompts txt).
    pose proof (parse_prompts_nonempty txt E) as Hne.
    destruct (parse_prompts txt); [contradiction | discriminate].
Qed.

Lemma validate_projects_accepted (pairs : list (string * string)) :
  forall (i : nat) (valid out : list imagefx_streamlit.project),
    validate_projects i pairs valid = Accepted out ->
    exists added,
      out = valid ++ added
      /\ List.length added = List.length pairs
      /\ Forall well_formed_project added
      /\ forall k p, nth_error added k = Some p ->
           imagefx_streamlit.project_index p = i + k + 1
           /\ exists txt, nth_error pairs k = Some (imagefx_streamlit.title p, txt)
                          /\ imagefx_streamlit.prompts p = parse_prompts txt.
Proof.
  induction pairs as [|[t txt] rest IH]; intros i valid out; cbn [validate_projects].
  - intros H. injection H as <-. exists []. rewrite app_nil_r.
    split; [reflexivity|]. split; [reflexivity|]. split; [constructor|].
    intros [|k] p; discriminate.
  - destruct (nonempty (strip t)) eqn:Et; cbn [negb orb]; [|discriminate].
    destruct (nonempty (strip txt)) eqn:Ex; cbn [negb]; [|discriminate].
    destruct (parse_prompts txt) as [|q qs] eqn:Ep; [discriminate|].
    intros H. destruct (IH _ _ _ H) as (added & -> & Hlen & Hwf & Hidx).
    eexists (_ :: added). rewrite <- app_assoc. split; [reflexivity|].
    split; [cbn; now rewrite Hlen|]. split.
    + constructor; [|exact Hwf]. repeat split; cbn; [exact Et | discriminate |].
      rewrite <- Ep. apply clean_lines_trimmed.
    + intros [|k] p Hk; cbn in Hk.
      * injection Hk as <-. cbn. split; [lia|]. exists txt. auto.
      * destruct (Hidx k p Hk) as [Hi Ht]. split; [lia | exact Ht].
Qed.

(** Property X5. When batch mode accepts the projects there is one for
    each pair of title and prompts, in order; the project at position [k]
    has the title given, the index [k + 1] and at least one prompt; its
    prompts are trimmed, so the [strip] of the worker changes none. *)
Theorem accepted_batch_projects_are_well_formed
    (project_titles project_prompts : list string)
    (valid_projects : list imagefx_streamlit.project) (ui : imagefx_streamlit.sidebar) :
  batch_projects project_titles project_prompts = Accepted valid_projects ->
  List.length valid_projects
  = Nat.min (List.length project_titles) (List.length project_prompts)
  /\ valid_projects <> []
  /\ forall k p, nth_error valid_projects k = Some p ->
       nth_error project_titles k = Some (imagefx_streamlit.title p)
       /\ imagefx_streamlit.project_index p = k + 1
       /\ well_formed_project p
       /\ forall t, In t (imagefx_streamlit.prompts p) ->
            Prompt.prompt (imagefx_streamlit.prompt_obj ui t) = t.
Proof.
  unfold batch_projects.
  destruct project_titles as [|t0 ts]; [discriminate|].
  destruct project_prompts as [|x0 xs]; [discriminate|].
  intros H. destruct (validate_projects_accepted _ _ _ _ H) as (added & -> & Hlen & Hwf & Hidx).
  cbn [app]. rewrite Hlen, length_combine. split; [reflexivity|].
  split; [destruct added; [discriminate Hlen | discriminate]|].
  intros k p Hk. destruct (Hidx k p Hk) as [Hi (txt & Hn & Hp)].
  assert (Hwfp : well_formed_project p).
  { rewrite List.Forall_forall in Hwf. apply Hwf. eapply nth_error_In, Hk. }
  split.
  { revert Hn. generalize (t0 :: ts) (x0 :: xs). clear.
    induction k as [|k IH]; intros [|a l] [|b m]; cbn; try discriminate.
    - intros H. injection H as <- _. reflexivity.
    - apply IH. }
  split; [exact Hi|]. split; [exact Hwfp|].
  intros t Ht. destruct Hwfp as (_ & _ & Hall). rewrite List.Forall_forall in Hall.
  cbn. apply (trimmed_fixed t (Hall t Ht)).
Qed.

Lemma collect_batch_inputs_filter (inputs : list (string * string)) :
  forall project_titles project_prompts,
    collect_batch_inputs inputs project_titles project_prompts
    = (project_titles ++ map fst (List.filter complete_input inputs),
       project_prompts ++ map snd (List.filter complete_input inputs)).
Proof.
  induction inputs as [|[t x] rest IH]; intros ts xs.
  - cbn. now rewrite !app_nil_r.
  - cbn [collect_batch_inputs List.filter].
    replace (complete_input (t, x)) with (nonempty (strip t) && nonempty (strip x))
      by reflexivity.
    destruct (nonempty (strip t) && nonempty (strip x)).
    + rewrite IH. cbn [map fst snd]. rewrite <- !app_assoc. reflexivity.
    + apply IH.
Qed.

Lemma combine_fst_snd {A B : Type} (l : list (A * B)) :
  combine (map fst l) (map snd l) = l.
Proof. induction l as [|[a b] l IH]; cbn; [reflexivity | now rewrite IH]. Qed.

Lemma validate_projects_complete (pairs : list (string * string)) :
  Forall (fun input => complete_input input = true) pairs ->
  forall (i : nat) (valid : list imagefx_streamlit.project),
    exists added,
      validate_projects i pairs valid = Accepted (valid ++ added)
      /\ List.length added = List.length pairs.
Proof.
  induction 1 as [|[t x] rest Hc _ IH]; intros i valid.
  - exists []. cbn. now rewrite app_nil_r.
  - unfold complete_input in Hc. cbn [fst snd] in Hc.
    apply andb_true_iff in Hc as [Ht Hx].
    cbn [validate_projects]. rewrite Ht, Hx. cbn [negb orb].
    pose proof (parse_prompts_nonempty x Hx) as Hne.
    destruct (parse_prompts x) as [|q qs] eqn:Ep; [contradiction|].
    match goal with
    | |- context [validate_projects (S i) rest ?v] => destruct (IH (S i) v) as (added & -> & Hlen)
    end.
    eexists (_ :: added). rewrite <- app_assoc. split; [reflexivity|].
    cbn. now rewrite Hlen.
Qed.

(** Property X6. Batch mode on what the form stores (the inputs that have
    both a title and prompts): either no input is complete and the run is
    refused for want of a project, or the projects are accepted, one for
    each complete input. The exit [Project i is missing title or prompts!]
    is never taken. *)
Theorem form_projects_are_never_refused_for_their_content
    (inputs : list (string * string)) :
  match batch_projects (fst (collect_batch_inputs inputs [] []))
                       (snd (collect_batch_inputs inputs [] [])) with
  | Accepted valid_projects =>
      List.length valid_projects = List.length (List.filter complete_input inputs)
      /\ valid_projects <> []
  | Refused r => r = NoBatchProject /\ List.filter complete_input inputs = []
  end.
Proof.
  rewrite collect_batch_inputs_filter. cbn [fst snd app].
  destruct (List.filter complete_input inputs) as [|[t x] rest] eqn:E.
  - cbn. auto.
  - assert (Hall : Forall (fun input => complete_input input = true) ((t, x) :: rest)).
    { rewrite <- E. apply List.Forall_forall. intros input Hin.
      apply filter_In in Hin. tauto. }
    unfold batch_projects. cbn [map fst snd].
    change (combine (t :: map fst rest) (x :: map snd rest))
      with (combine (map fst ((t, x) :: rest)) (map snd ((t, x) :: rest))).
    rewrite combine_fst_snd.
    destruct (validate_projects_complete _ Hall 0 []) as (added & -> & Hlen).
    cbn [app]. split; [exact Hlen|]. destruct added; [discriminate Hlen | discriminate].
Qed.

End Prompts.

Section CookieFile.
Import cookie_file.
Local Open Scope list_scope.

Lemma parse_line_cookie (cookies : gmap string string) (line : string) :
  parse_line cookies line
  = match line_cookie line with
    | Some (name, value) => <[name := value]> cookies
    | None => cookies
    end.
Proof.
  unfold parse_line, line_cookie.
  destruct (String.prefix "#" (strip line) || negb (nonempty (strip line)));
    [reflexivity|].
  destruct (7 <=? List.length (split tab (strip line)))%nat; [|reflexivity].
  destruct (nth 0 (split tab (strip line)) EmptyString =? "labs.google")%string;
    reflexivity.
Qed.

Lemma parse_lines_snoc (lines : list string) (line : string) :
  parse_lines (lines ++ [line]) = parse_line (parse_lines lines) line.
Proof. unfold parse_lines. rewrite fold_left_app. reflexivity. Qed.

Lemma not_redefined_app (name : string) (l1 l2 : list string) :
  not_redefined name (l1 ++ l2) = not_redefined name l1 && not_redefined name l2.
Proof. unfold not_redefined. apply forallb_app. Qed.

Lemma not_redefined_one (name : string) (x : string) :
  not_redefined name [x] = negb (defines name x).
Proof. unfold not_redefined. cbn [forallb]. apply andb_true_r. Qed.

Lemma parse_lines_lookup (lines : list string) (name value : string) :
  parse_lines lines !! name = Some value
  <-> exists pre line post,
        lines = pre ++ line :: post
        /\ line_cookie line = Some (name, value)
        /\ not_redefined name post = true.
Proof.
  induction lines as [|x lines IH] using rev_ind.
  - split.
    + unfold parse_lines. cbn. rewrite lookup_empty. discriminate.
    + intros (pre & line & post & H & _). destruct pre; discriminate.
  - rewrite parse_lines_snoc, parse_line_cookie. split.
    + intros H. destruct (line_cookie x) as [[n v]|] eqn:Ex.
      * destruct (decide (n = name)) as [->|Hne].
        -- rewrite lookup_insert_eq in H. injection H as ->.
           exists lines, x, []. repeat split; exact Ex.
        -- rewrite lookup_insert_ne in H by exact Hne.
           apply IH in H as (pre & line & post & -> & Hl & Hpost).
           exists pre, line, (post ++ [x]). rewrite <- app_assoc. repeat split; [exact Hl|].
           rewrite not_redefined_app, Hpost, not_redefined_one.
           unfold defines. rewrite Ex. cbn [andb]. apply negb_true_iff.
           apply String.eqb_neq, Hne.
      * apply IH in H as (pre & line & post & -> & Hl & Hpost).
        exists pre, line, (post ++ [x]). rewrite <- app_assoc. repeat split; [exact Hl|].
        rewrite not_redefined_app, Hpost, not_redefined_one.
        unfold defines. rewrite Ex. reflexivity.
    + intros (pre & line & post & Heq & Hl & Hpost).
      destruct post as [|y post] using rev_ind.
      * apply app_inj_tail in Heq as [-> ->]. rewrite Hl. apply lookup_insert_eq.
      * clear IHpost. rewrite app_comm_cons, app_assoc in Heq.
        apply app_inj_tail in Heq as [-> ->].
        rewrite not_redefined_app, not_redefined_one in Hpost.
        apply andb_true_iff in Hpost as [Hpost Hy].
        assert (Hlook : parse_lines (pre ++ line :: post) !! name = Some value)
          by (apply IH; eauto 6).
        unfold defines in Hy.
        destruct (line_cookie y) as [[n v]|] eqn:Ey; [|exact Hlook].
        rewrite lookup_insert_ne; [exact Hlook|].
        apply negb_true_iff, String.eqb_neq in Hy. exact Hy.
Qed.

Lemma first_char_append (a b : string) :
  first_char (a ++ b)%string
  = match first_char a with Some c => Some c | None => first_char b end.
Proof. destruct a; reflexivity. Qed.

Lemma last_char_append (a b : string) :
  last_char (a ++ b)%string
  = match last_char b with Some c => Some c | None => last_char a end.
Proof.
  induction a as [|ch a IH].
  - change (EmptyString ++ b)%string with b. destruct (last_char b); reflexivity.
  - change (String ch a ++ b)%string with (String ch (a ++ b)%string).
    cbn [last_char]. rewrite IH. destruct (last_char b); reflexivity.
Qed.

Lemma rstrip_append_space (s : string) (c : ascii) :
  is_space c = true -> rstrip (s ++ String c EmptyString)%string = rstrip s.
Proof.
  intros Hc. induction s as [|a s IH].
  - change (rstrip (String c EmptyString) = EmptyString).
    cbn [rstrip]. rewrite Hc. reflexivity.
  - change (String a s ++ String c EmptyString)%string
      with (String a (s ++ String c EmptyString)%string).
    cbn [rstrip]. rewrite IH. reflexivity.
Qed.

Lemma append_assoc (a b c : string) :
  ((a ++ b) ++ c)%string = (a ++ (b ++ c))%string.
Proof.
  induction a as [|ch a IH]; [reflexivity|].
  change (String ch ((a ++ b) ++ c)%string = String ch (a ++ (b ++ c))%string).
  rewrite IH. reflexivity.
Qed.

Lemma concat_cons2 (sep a b : string) (l : list string) :
  String.concat sep (a :: b :: l) = (a ++ sep ++ String.concat sep (b :: l))%string.
Proof. reflexivity. Qed.

Lemma first_char_concat (sep a : string) (l : list string) (c : ascii) :
  first_char a = Some c -> first_char (String.concat sep (a :: l)) = Some c.
Proof.
  intros H. destruct l as [|b l]; [exact H|].
  rewrite concat_cons2, first_char_append, H. reflexivity.
Qed.

Lemma prefix_hash (s : string) :
  String.prefix "#" s
  = match first_char s with Some c => Ascii.eqb c "#"%char | None => false end.
Proof.
  destruct s as [|c s]; [reflexivity|]. cbn [String.prefix first_char].
  destruct (ascii_dec "#" c) as [<-|Hne].
  - destruct s; reflexivity.
  - symmetry. apply Ascii.eqb_neq. congruence.
Qed.

Lemma no_tabs_Forall (fields : list string) :
  no_tabs fields = true -> Forall (fun f => occurs tab f = false) fields.
Proof.
  unfold no_tabs. rewrite forallb_forall, List.Forall_forall.
  intros H f Hf. apply negb_true_iff, H, Hf.
Qed.

Lemma line_cookie_fields (fields : list string) (d : string) :
  no_tabs (d :: fields) = true -> begins_plainly d = true ->
  trimmed (String.concat (String tab EmptyString) (d :: fields)) = true ->
  line_cookie (String.concat (String tab EmptyString) (d :: fields))
  = if (7 <=? List.length (d :: fields))%nat
    then if (d =? "labs.google")%string
         then Some (nth 5 (d :: fields) EmptyString, nth 6 (d :: fields) EmptyString)
         else None
    else None.
Proof.
  intros Hnt Hd Htr. unfold line_cookie.
  destruct (trimmed_fixed _ Htr) as [-> Hne].
  unfold begins_plainly in Hd. destruct (first_char d) as [c|] eqn:Ec; [|discriminate].
  apply andb_true_iff in Hd as [_ Hhash]. apply negb_true_iff in Hhash.
  rewrite prefix_hash, (first_char_concat _ d fields c Ec), Hhash.
  assert (nonempty (String.concat (String tab EmptyString) (d :: fields)) = true) as ->
    by (unfold nonempty; apply negb_true_iff, String.eqb_neq, Hne).
  cbn [negb orb]. rewrite split_concat; [reflexivity | discriminate |].
  apply no_tabs_Forall, Hnt.
Qed.

Lemma begins_plainly_ink (d : string) (c : ascii) :
  begins_plainly d = true -> first_char d = Some c -> is_space c = false.
Proof.
  unfold begins_plainly. intros H E. rewrite E in H.
  apply andb_true_iff in H as [H _]. apply negb_true_iff, H.
Qed.

(** A line of seven plain fields is read back as its cookie. *)
Lemma cookie_line_read_back (d f p s e n v : string) :
  no_tabs [d; f; p; s; e; n; v] = true ->
  begins_plainly d = true -> ends_in_ink v = true ->
  line_cookie (cookie_line d f p s e n v)
  = if (d =? "labs.google")%string then Some (n, v) else None.
Proof.
  intros Hnt Hd Hv. unfold cookie_line.
  rewrite line_cookie_fields; [reflexivity | exact Hnt | exact Hd |].
  unfold trimmed.
  destruct (first_char d) as [c|] eqn:Ec; [|unfold begins_plainly in Hd; now rewrite Ec in Hd].
  rewrite (first_char_concat _ d _ c Ec), (begins_plainly_ink d c Hd Ec).
  unfold ends_in_ink in Hv. destruct (last_char v) as [c'|] eqn:Ev; [|discriminate].
  assert (Hl : last_char (String.concat (String tab EmptyString) [d; f; p; s; e; n; v])
               = Some c').
  { rewrite !concat_cons2. cbn [String.concat]. rewrite !last_char_append, Ev. reflexivity. }
  rewrite Hl. exact Hv.
Qed.

(** A line whose seventh field is empty is not read as a cookie. *)
Lemma cookie_line_empty_value (d f p s e n : string) :
  no_tabs [d; f; p; s; e; n] = true ->
  begins_plainly d = true -> ends_in_ink n = true ->
  line_cookie (cookie_line d f p s e n EmptyString) = None.
Proof.
  intros Hnt Hd Hn.
  assert (Hline : cookie_line d f p s e n EmptyString
                  = (String.concat (String tab EmptyString) [d; f; p; s; e; n]
                     ++ String tab EmptyString)%string).
  { unfold cookie_line. rewrite !concat_cons2. cbn [String.concat].
    rewrite !append_assoc. reflexivity. }
  assert (Htr : trimmed (String.concat (String tab EmptyString) [d; f; p; s; e; n]) = true).
  { unfold trimmed.
    destruct (first_char d) as [c|] eqn:Ec;
      [|unfold begins_plainly in Hd; now rewrite Ec in Hd].
    rewrite (first_char_concat _ d _ c Ec), (begins_plainly_ink d c Hd Ec).
    unfold ends_in_ink in Hn. destruct (last_char n) as [c'|] eqn:En; [|discriminate].
    rewrite !concat_cons2. cbn [String.concat]. rewrite !last_char_append, En. exact Hn. }
  assert (Hstrip : strip (cookie_line d f p s e n EmptyString)
                   = String.concat (String tab EmptyString) [d; f; p; s; e; n]).
  { rewrite Hline. unfold strip.
    destruct (first_char d) as [c|] eqn:Ec;
      [|unfold begins_plainly in Hd; now rewrite Ec in Hd].
    rewrite lstrip_fixed.
    - rewrite rstrip_append_space by reflexivity.
      destruct (trimmed_fixed _ Htr) as [Hs _]. unfold strip in Hs.
      rewrite lstrip_fixed in Hs; [exact Hs|].
      rewrite (first_char_concat _ d _ c Ec). apply (begins_plainly_ink d c Hd Ec).
    - rewrite first_char_append, (first_char_concat _ d _ c Ec).
      apply (begins_plainly_ink d c Hd Ec). }
  pose proof (line_cookie_fields [f; p; s; e; n] d Hnt Hd Htr) as H6.
  unfold line_cookie in *. rewrite Hstrip.
  destruct (trimmed_fixed _ Htr) as [Hs _]. rewrite Hs in H6. exact H6.
Qed.

(** Property X7. [parse_cookie_file]: the dictionary holds [value] under
    [name] exactly when a line of the file defines the cookie [name] of
    labs.google with that value and no later line defines [name] again. *)
Theorem cookie_defined_by_last_line (lines : list string) (name value : string) :
  parse_lines lines !! name = Some value
  <-> exists pre line post,
        lines = pre ++ line :: post
        /\ line_cookie line = Some (name, value)
        /\ not_redefined name post = true.
Proof. apply parse_lines_lookup. Qed.

(** Property X8. A line of seven fields separated by tabs (no field holds
    a tab, the first begins with a character that is neither white space
    nor [#], the last ends with one that is not white space) adds its
    name and value to the dictionary when its domain is labs.google, and
    nothing when it is not. *)
Theorem written_cookie_is_read_back (lines : list string)
    (d f p s e n v : string) :
  no_tabs [d; f; p; s; e; n; v] = true ->
  begins_plainly d = true -> ends_in_ink v = true ->
  parse_lines (lines ++ [cookie_line d f p s e n v])
  = if (d =? "labs.google")%string
    then <[n := v]> (parse_lines lines)
    else parse_lines lines.
Proof.
  intros Hnt Hd Hv.
  rewrite parse_lines_snoc, parse_line_cookie, cookie_line_read_back by assumption.
  destruct (d =? "labs.google")%string; reflexivity.
Qed.

(** Property X9. A cookie line whose value is empty adds nothing: the tab
    before the value is stripped with the line, which leaves six fields. *)
Theorem cookie_with_empty_value_is_skipped (lines : list string)
    (d f p s e n : string) :
  no_tabs [d; f; p; s; e; n] = true ->
  begins_plainly d = true -> ends_in_ink n = true ->
  parse_lines (lines ++ [cookie_line d f p s e n EmptyString]) = parse_lines lines.
Proof.
  intros Hnt Hd Hn.
  rewrite parse_lines_snoc, parse_line_cookie, cookie_line_empty_value by assumption.
  reflexivity.
Qed.

Import cookie_parser ImageFX.

(** Property X10. When a cookie file is named and it does not exist, or no
    session token is found in it, the constructor raises the
    [ValueError] of [_load_cookies_from_file], whatever cookie or token
    was given with it. *)
Theorem unusable_cookie_file_is_fatal (fs : filesystem) (c : Credentials) :
  truthy_str (cookie_file c) = true ->
  path_exists fs (path_of c) = false
  \/ truthy_str (extract_session_token (parse_cookie_file fs (path_of c))) = false ->
  exists msg,
    __init__ fs c = Raise (ValueError ("Failed to load cookies from file: " ++ msg)).
Proof.
  intros Hf Hbad. rewrite init_load, Hf. rewrite andb_false_r. cbn [andb].
  destruct (path_exists fs (path_of c)) eqn:Ex; cbn [negb].
  - destruct Hbad as [Hbad|Hbad]; [discriminate|].
    unfold accepted_cookie. rewrite Hf. unfold get_auth_credentials.
    cbn [session_token]. rewrite Hbad. cbn [negb]. eexists. reflexivity.
  - eexists. reflexivity.
Qed.

Lemma first_key_head (key : string) (keys : list string)
    (cookies : gmap string string) (v : string) :
  cookies !! key = Some v -> first_key (key :: keys) cookies = Some v.
Proof. intros H. cbn [first_key]. rewrite H. reflexivity. Qed.

(** Property X11. From the text of a cookie file to the credentials: when
    the named file has a line that defines
    [__Secure-next-auth.session-token] for labs.google, with a token of
    at least 70 characters, and no later line defines it again, the
    constructor returns credentials whose cookie is that token with the
    prefix (added when it lacks it), and the token and file name given. *)
Theorem init_reads_token_from_file (files : gmap string (list string))
    (c : Credentials) (path : string) (pre post : list string)
    (flag p secure expiration token : string) :
  cookie_file c = Some path ->
  nonempty path = true ->
  files !! path
  = Some (pre ++ cookie_line "labs.google" flag p secure expiration
                   "__Secure-next-auth.session-token" token :: post) ->
  not_redefined "__Secure-next-auth.session-token" post = true ->
  no_tabs [flag; p; secure; expiration; token] = true ->
  ends_in_ink token = true ->
  (70 <= String.length token)%nat ->
  __init__ (filesystem_of files) c
  = Return {| cookie := Some (if String.prefix session_prefix token
                              then token else (session_prefix ++ token)%string);
              authorization_key := authorization_key c;
              cookie_file := cookie_file c |}.
Proof.
  intros Hf Hpath Hfile Hpost Hnt Hink Hlen.
  assert (Htok : extract_session_token
                   (parse_cookie_file (filesystem_of files) (path_of c)) = Some token).
  { unfold path_of. rewrite Hf. cbn [filesystem_of parse_cookie_file]. rewrite Hfile.
    unfold extract_session_token, session_keys. apply first_key_head.
    apply parse_lines_lookup. do 3 eexists. split; [reflexivity|]. split; [|exact Hpost].
    rewrite cookie_line_read_back; [reflexivity | | reflexivity | exact Hink].
    unfold no_tabs in *. cbn [forallb] in *. exact Hnt. }
  assert (Htruthy : truthy_str (Some token) = true).
  { destruct token; [cbn in Hlen; lia | reflexivity]. }
  assert (Hfile_truthy : truthy_str (cookie_file c) = true).
  { rewrite Hf. destruct path; [discriminate | reflexivity]. }
  assert (Hacc : accepted_cookie (filesystem_of files) c = Some token).
  { unfold accepted_cookie. rewrite Hfile_truthy. exact Htok. }
  assert (Hex : path_exists (filesystem_of files) (path_of c) = true).
  { unfold path_of. rewrite Hf. cbn [filesystem_of path_exists]. rewrite Hfile. reflexivity. }
  rewrite init_load, Hacc, Hfile_truthy, Hex, Htruthy. cbn [negb andb].
  rewrite !andb_false_r. cbn [andb]. cbn zeta.
  unfold cookie_text at 1. cbn [cookie set_cookie].
  destruct (Nat.ltb_spec (String.length token) 70) as [Hlt|_]; [lia|].
  f_equal. unfold add_missing_header, cookie_text. cbn [cookie set_cookie].
  rewrite Htruthy. cbn [andb].
  destruct (String.prefix session_prefix token); reflexivity.
Qed.

End CookieFile.

Section Wire.
Import ImageFX.
Local Open Scope list_scope.

Lemma get_auth_token_shape (net : network) (mutate : bool) (c : Credentials) :
  snd (get_auth_token net mutate c)
  = if truthy_str (cookie c) then [session_request c] else [].
Proof.
  destruct (truthy_str (cookie c)) eqn:E.
  - apply get_auth_token_sends, E.
  - rewrite get_auth_token_eq, E. reflexivity.
Qed.

Lemma lib_check_token_shape (net : network) (c : Credentials) :
  snd (imagefx.check_token net c)
  = if truthy_str (cookie c) && negb (truthy (authorization_key c))
    then [session_request c] else [].
Proof.
  rewrite lib_check_token_eq.
  destruct (truthy (authorization_key c)) eqn:Ek;
    destruct (truthy_str (cookie c)) eqn:Ec; cbn [negb andb]; try reflexivity.
  pose proof (get_auth_token_shape net true c) as H. rewrite Ec in H.
  destruct (get_auth_token net true c) as [[[[tok|m]|e] c'] l]; exact H.
Qed.

Lemma app_check_token_shape (net : network) (c : Credentials) :
  snd (imagefx_streamlit.check_token net c)
  = if truthy_str (cookie c) && negb (truthy (authorization_key c))
    then [session_request c] else [].
Proof.
  rewrite app_check_token_eq.
  destruct (truthy (authorization_key c)) eqn:Ek;
    destruct (truthy_str (cookie c)) eqn:Ec; cbn [negb andb]; try reflexivity.
  pose proof (get_auth_token_shape net true c) as H. rewrite Ec in H.
  destruct (get_auth_token net true c) as [[[[tok|m]|e] c'] l]; exact H.
Qed.

Lemma lib_generate_image_shape (net : network) (s : Credentials * Prompt.t) :
  exists post,
    snd (imagefx.generate_image net s)
    = (if truthy_str (cookie (fst s)) && negb (truthy (authorization_key (fst s)))
       then [session_request (fst s)] else []) ++ post
    /\ (post = []
        \/ exists key,
            post = [generate_request key
                      (imagefx.build_request_body (imagefx.alias_model (snd s)))]).
Proof.
  rewrite lib_generate_image_eq.
  pose proof (lib_check_token_shape net (fst s)) as H.
  destruct (imagefx.check_token net (fst s)) as [[[[ok|m]|e] c'] l];
    cbn [snd] in *; rewrite H.
  - eexists. split; [reflexivity|]. right. eexists. reflexivity.
  - exists []. rewrite app_nil_r. auto.
  - exists []. rewrite app_nil_r. auto.
Qed.

Lemma app_generate_image_shape (net : network) (s : Credentials * Prompt.t) :
  exists post,
    snd (imagefx_streamlit.generate_image net s)
    = (if truthy_str (cookie (fst s)) && negb (truthy (authorization_key (fst s)))
       then [session_request (fst s)] else []) ++ post
    /\ (post = []
        \/ exists key,
            truthy key = true
            /\ post = [generate_request key
                         (imagefx_streamlit.build_request_body (snd s))]).
Proof.
  rewrite app_generate_image_eq, app_check_token_eq.
  destruct (truthy (authorization_key (fst s))) eqn:Ek;
    destruct (truthy_str (cookie (fst s))) eqn:Ec; cbn [negb andb].
  - eexists. split; [reflexivity|]. right. eauto.
  - eexists. split; [reflexivity|]. right. eauto.
  - pose proof (get_auth_token_shape net true (fst s)) as H. rewrite Ec in H.
    destruct (get_auth_token net true (fst s)) as [[[[tok|m]|e] c'] l];
      cbn [snd] in H; subst l.
    + destruct (truthy (authorization_key c')) eqn:Ek'; cbn [negb snd].
      * eexists. split; [reflexivity|]. right. eauto.
      * exists []. auto.
    + exists []. auto.
    + exists []. auto.
  - exists []. auto.
Qed.

(** Property X12. One generation call, on either client, sends nothing, or
    the token exchange alone, or the generation request alone, or the
    exchange followed by the generation request; the generation request
    carries the body built from the prompt. *)
Theorem generation_call_sends_at_most_two_requests
    (net : network) (s : Credentials * Prompt.t) :
  let exchange := session_request (fst s) in
  let lib_body := imagefx.build_request_body (imagefx.alias_model (snd s)) in
  let app_body := imagefx_streamlit.build_request_body (snd s) in
  (snd (imagefx.generate_image net s) = []
   \/ snd (imagefx.generate_image net s) = [exchange]
   \/ (exists key, snd (imagefx.generate_image net s) = [generate_request key lib_body])
   \/ (exists key, snd (imagefx.generate_image net s)
                   = [exchange; generate_request key lib_body]))
  /\ (snd (imagefx_streamlit.generate_image net s) = []
      \/ snd (imagefx_streamlit.generate_image net s) = [exchange]
      \/ (exists key, snd (imagefx_streamlit.generate_image net s)
                      = [generate_request key app_body])
      \/ (exists key, snd (imagefx_streamlit.generate_image net s)
                      = [exchange; generate_request key app_body])).
Proof.
  cbn zeta. split.
  - destruct (lib_generate_image_shape net s) as (post & -> & [->|[key ->]]);
      destruct (_ && _); cbn [app]; eauto 6.
  - destruct (app_generate_image_shape net s) as (post & -> & [->|(key & _ & ->)]);
      destruct (_ && _); cbn [app]; eauto 6.
Qed.

(** Property X13. A generation request of the web client carries a bearer
    that is truthy, and the body built from the prompt. *)
Theorem web_client_never_sends_an_empty_bearer
    (net : network) (s : Credentials * Prompt.t) (req : request) :
  In req (snd (imagefx_streamlit.generate_image net s)) ->
  url req = generate_url ->
  exists key,
    truthy key = true
    /\ req = generate_request key (imagefx_streamlit.build_request_body (snd s)).
Proof.
  destruct (app_generate_image_shape net s) as (post & -> & Hpost).
  intros Hin Hurl. apply in_app_or in Hin. destruct Hin as [Hin|Hin].
  - destruct (_ && _); [|destruct Hin]. destruct Hin as [<-|[]]. discriminate.
  - destruct Hpost as [->|(key & Hk & ->)]; [destruct Hin|].
    destruct Hin as [<-|[]]. eauto.
Qed.

(** Property X14. When the session endpoint answers with an [access_token]
    that is falsy, the web client stores it, sends nothing more and
    returns [Failed to obtain authorization token from cookie]; the
    library client goes on and sends the generation request with that
    token as its bearer. *)
Theorem falsy_token_stops_the_web_client_only
    (net : network) (s : Credentials * Prompt.t)
    (r : response_text) (d : list (string * value)) (token : value) :
  truthy_str (cookie (fst s)) = true ->
  truthy (authorization_key (fst s)) = false ->
  net (session_request (fst s)) = Response r ->
  loads r = Some (VDict d) ->
  dict_get "access_token" d = Some token ->
  truthy token = false ->
  imagefx_streamlit.generate_image net s
  = (Return (Err (Text "Failed to obtain authorization token from cookie")),
     (set_authorization_key (fst s) token, snd s),
     [session_request (fst s)])
  /\ snd (imagefx.generate_image net s)
     = [session_request (fst s);
        generate_request token
          (imagefx.build_request_body (imagefx.alias_model (snd s)))].
Proof.
  intros Hc Hk Hnet Hl Hd Ht.
  assert (Hget : get_auth_token net true (fst s)
                 = (Return (Ok token), set_authorization_key (fst s) token,
                    [session_request (fst s)])).
  { rewrite get_auth_token_eq, Hc, Hnet, Hl. cbn [negb].
    unfold contains, getitem. rewrite Hd. reflexivity. }
  split.
  - rewrite app_generate_image_eq, app_check_token_eq, Hc, Hk, Hget.
    cbn [negb andb]. destruct (fst s) as [ck key f]. unfold set_authorization_key.
    cbn. rewrite Ht. reflexivity.
  - rewrite lib_generate_image_eq, lib_check_token_eq, Hc, Hk, Hget.
    cbn [negb andb]. destruct (fst s); reflexivity.
Qed.

End Wire.

Section Agreement.
Local Open Scope list_scope.

Lemma lib_to_image_complete (prompt : Prompt.t) (d : list (string * value)) :
  has_all_fields d = true ->
  exists enc,
    dict_get "encodedImage" d = Some enc
    /\ imagefx.to_image (VDict d) = Return (filled prompt d enc).
Proof.
  unfold has_all_fields, image_fields. cbn [forallb]. intros H.
  repeat (apply andb_true_iff in H; destruct H as [?H H]).
  unfold imagefx.to_image, filled, getitem.
  repeat match goal with
         | Hk : match dict_get ?k d with Some _ => true | None => false end = true |- _ =>
             destruct (dict_get k d) eqn:?; [clear Hk | discriminate Hk]
         end.
  eexists. split; reflexivity.
Qed.

Lemma lib_convert_complete (prompt : Prompt.t) (ds : list (list (string * value))) :
  forallb has_all_fields ds = true ->
  forall acc : list GeneratedImage.t,
    imagefx.convert (map VDict ds) acc = Return (acc ++ usable prompt ds)
    /\ List.length (usable prompt ds) = List.length ds.
Proof.
  induction ds as [|d ds IH]; intros H acc.
  - cbn. rewrite app_nil_r. auto.
  - cbn [forallb] in H. apply andb_true_iff in H as [Hd Hds].
    destruct (lib_to_image_complete prompt d Hd) as (enc & He & Hi).
    cbn [map imagefx.convert usable]. rewrite Hi, He. cbn [bind].
    destruct (IH Hds (acc ++ [filled prompt d enc])) as [-> Hlen].
    rewrite <- app_assoc. cbn [List.length]. rewrite Hlen. auto.
Qed.

(** Property X15. On a response of the expected shape whose entries have
    all eight fields the library client returns one image for each entry,
    in order, with the fields of the entry; the web client returns the
    same list, except when there is no entry, where it returns
    [No images generated]. *)
Theorem clients_agree_on_complete_entries (prompt : Prompt.t) (r : response_text)
    (d panel : list (string * value)) (rest : list value)
    (ds : list (list (string * value))) :
  loads r = Some (VDict d) ->
  dict_get "imagePanels" d = Some (VList (VDict panel :: rest)) ->
  dict_get "generatedImages" panel = Some (VList (map VDict ds)) ->
  forallb has_all_fields ds = true ->
  imagefx.decode r = Return (Ok (usable prompt ds))
  /\ List.length (usable prompt ds) = List.length ds
  /\ imagefx_streamlit.decode prompt r
     = match ds with
       | [] => Err (Text "No images generated")
       | _ => Ok (usable prompt ds)
       end.
Proof.
  intros Hl Hp Hi Hall.
  destruct (lib_convert_complete prompt ds Hall []) as [Hconv Hlen].
  split; [|split; [exact Hlen|]].
  - unfold imagefx.decode. rewrite Hl.
    unfold getitem at 1. rewrite Hp. cbn [bind getitem_0].
    unfold getitem at 1. rewrite Hi. cbn [bind]. rewrite Hconv. reflexivity.
  - rewrite (app_decode_objects prompt r d panel rest ds Hl Hp Hi).
    destruct ds as [|d0 ds']; [reflexivity|].
    destruct (usable prompt (d0 :: ds')); [discriminate Hlen | reflexivity].
Qed.

End Agreement.

Section RunReport.
Import ImageFX imagefx_streamlit.
Local Open Scope list_scope.

Lemma worker_outcome (fs : cookie_parser.filesystem) (net : network) (ui : sidebar)
    (pd : nat * string) :
  (exists m, fst (process_single_prompt fs net ui pd) = failed (fst pd) (snd pd) m)
  \/ (exists imgs,
        imgs <> []
        /\ fst (process_single_prompt fs net ui pd)
           = {| wr_images := Some (imagefx_cli.stamp_prompt (snd pd) imgs);
                wr_prompt_text := snd pd;
                wr_error := None;
                wr_error_data := None |}).
Proof.
  unfold process_single_prompt.
  destruct (__init__ fs _) as [self|e]; [|left; eexists; reflexivity].
  rewrite app_generate_image_eq.
  destruct (check_token net _) as [[[[ok|m]|e] c'] l]; cbn [fst snd];
    try (left; eexists; reflexivity).
  destruct (net _) as [msg|r]; [left; eexists; reflexivity|].
  destruct (decode (prompt_obj ui (snd pd)) r) as [imgs|m] eqn:E;
    [|left; eexists; reflexivity].
  right. exists imgs. split; [|reflexivity].
  exact (app_decode_ok_nonempty _ _ _ E).
Qed.

Lemma recorded_images_labels (fs : cookie_parser.filesystem) (nets : nat -> network)
    (ui : sidebar) (project_title : string) (pd : nat * string) (g : GeneratedImage.t) :
  In g (recorded_images (entry_of fs nets ui project_title pd)) ->
  GeneratedImage.project_title g = Some project_title
  /\ GeneratedImage.prompt g = VStr (snd pd).
Proof.
  unfold recorded_images, entry_of, worker. cbn [br_result br_project_title].
  destruct (worker_outcome fs (nets (fst pd)) ui pd) as [[m ->]|(imgs & _ & ->)];
    cbn [failed wr_error wr_images truthy_error].
  - destruct (truthy_message m); intros [].
  - unfold imagefx_cli.stamp_prompt. rewrite map_map. intros Hin.
    apply in_map_iff in Hin as (g0 & <- & _). split; reflexivity.
Qed.

Lemma recorded_failures_labels (fs : cookie_parser.filesystem) (nets : nat -> network)
    (ui : sidebar) (project_title : string) (pd : nat * string) (e : error_data) :
  In e (recorded_failures (entry_of fs nets ui project_title pd)) ->
  ed_prompt e = snd pd /\ ed_index e = fst pd + 1
  /\ ed_project_title e = Some project_title
  /\ truthy_message (ed_error e) = true.
Proof.
  unfold recorded_failures, entry_of, worker. cbn [br_result br_project_title].
  destruct (worker_outcome fs (nets (fst pd)) ui pd) as [[m ->]|(imgs & _ & ->)];
    cbn [failed wr_error wr_error_data truthy_error].
  - destruct (truthy_message m) eqn:Em; [|intros []].
    intros [<-|[]]. cbn. auto.
  - intros [].
Qed.


Lemma run_batch_requests (fs : cookie_parser.filesystem) (nets : nat -> network)
    (choices : list nat) (ui : sidebar) (project_title : string)
    (batch : list (nat * string)) (st : session_state) :
  snd (run_batch fs nets choices ui project_title batch st)
  = flat_map (fun pd => snd (process_single_prompt fs (nets (fst pd)) ui pd)) batch.
Proof.
  unfold run_batch. cbn [snd]. rewrite map_map. cbn [snd].
  rewrite flat_map_concat_map. reflexivity.
Qed.

Lemma run_batches_report (fs : cookie_parser.filesystem) (nets : nat -> network)
    (order : nat -> list nat) (ui : sidebar) (p : project) (starts : list nat) :
  forall st : session_state,
    Permutation
      (all_generated_images (fst (run_batches fs nets order ui p starts st)))
      (all_generated_images st
         ++ flat_map (fun pd => recorded_images (entry_of fs nets ui (title p) pd))
                     (concat (map (batch_prompts (prompts p)) starts)))
    /\ Permutation
         (failed_prompts (fst (run_batches fs nets order ui p starts st)))
         (failed_prompts st
            ++ flat_map (fun pd => recorded_failures (entry_of fs nets ui (title p) pd))
                        (concat (map (batch_prompts (prompts p)) starts)))
    /\ snd (run_batches fs nets order ui p starts st)
       = flat_map (fun pd => snd (process_single_prompt fs (nets (fst pd)) ui pd))
                  (concat (map (batch_prompts (prompts p)) starts)).
Proof.
  induction starts as [|b rest IH]; intros st.
  - cbn. rewrite !app_nil_r. auto.
  - cbn [run_batches map concat].
    pose proof (run_batch_lists fs nets ui (title p) (order b)
                  (batch_prompts (prompts p) b) st) as [Hi (fl & Hf & Hp)].
    pose proof (run_batch_requests fs nets (order b) ui (title p)
                  (batch_prompts (prompts p) b) st) as Hl.
    destruct (run_batch fs nets (order b) ui (title p) (batch_prompts (prompts p) b) st)
      as [st1 l1]. cbn [fst snd] in *.
    destruct (IH st1) as (IHi & IHf & IHl).
    destruct (run_batches fs nets order ui p rest st1) as [st2 l2]. cbn [fst snd] in *.
    rewrite !flat_map_app. split; [|split].
    + etransitivity; [exact IHi|]. rewrite app_assoc.
      apply Permutation_app_tail. exact Hi.
    + etransitivity; [exact IHf|]. rewrite app_assoc.
      apply Permutation_app_tail. rewrite Hf. apply Permutation_app_head. exact Hp.
    + rewrite Hl, IHl. reflexivity.
Qed.

Lemma run_projects_report (fs : cookie_parser.filesystem)
    (nets : nat -> nat -> network) (order : nat -> nat -> list nat) (ui : sidebar)
    (projects : list project) :
  forall (project_idx : nat) (st : session_state),
    Permutation
      (all_generated_images (fst (run_projects fs nets order ui project_idx projects st)))
      (all_generated_images st
         ++ flat_map (fun ip => project_images fs (nets (fst ip)) ui (snd ip))
                     (enumerate projects project_idx))
    /\ Permutation
         (failed_prompts (fst (run_projects fs nets order ui project_idx projects st)))
         (failed_prompts st
            ++ flat_map (fun ip => project_failures fs (nets (fst ip)) ui (snd ip))
                        (enumerate projects project_idx))
    /\ snd (run_projects fs nets order ui project_idx projects st)
       = flat_map (fun ip => project_requests fs (nets (fst ip)) ui (snd ip))
                  (enumerate projects project_idx).
Proof.
  induction projects as [|p rest IH]; intros project_idx st.
  - cbn. rewrite !app_nil_r. auto.
  - cbn [run_projects].
    destruct (run_batches_report fs (nets project_idx) (order project_idx) ui p
                (batch_starts (List.length (prompts p))) st) as (Hi & Hf & Hl).
    rewrite batches_cover in Hi, Hf, Hl.
    destruct (run_batches fs (nets project_idx) (order project_idx) ui p
                (batch_starts (List.length (prompts p))) st) as [st1 l1].
    cbn [fst snd] in *.
    destruct (IH (S project_idx) st1) as (IHi & IHf & IHl).
    destruct (run_projects fs nets order ui (S project_idx) rest st1) as [st2 l2].
    cbn [fst snd] in *.
    change (enumerate (p :: rest) project_idx)
      with ((project_idx, p) :: enumerate rest (S project_idx)).
    cbn [flat_map fst snd]. split; [|split].
    + etransitivity; [exact IHi|]. rewrite app_assoc.
      apply Permutation_app_tail. exact Hi.
    + etransitivity; [exact IHf|]. rewrite app_assoc.
      apply Permutation_app_tail. exact Hf.
    + rewrite Hl, IHl. reflexivity.
Qed.

Lemma run_report (fs : cookie_parser.filesystem)
    (nets : nat -> nat -> network) (order : nat -> nat -> list nat) (ui : sidebar)
    (valid_projects : list project) (st : session_state) :
  credentials_given fs ui = true ->
  Forall (fun p => List.length (prompts p) <= 50) valid_projects ->
  Permutation (all_generated_images (snd (fst (run fs nets order ui valid_projects st))))
              (run_images fs nets ui valid_projects)
  /\ Permutation (failed_prompts (snd (fst (run fs nets order ui valid_projects st))))
                 (run_failures fs nets ui valid_projects)
  /\ snd (run fs nets order ui valid_projects st) = run_requests fs nets ui valid_projects.
Proof.
  intros Hc Hall. unfold run. unfold credentials_given in Hc.
  apply andb_true_iff in Hc as [H1 H2].
  apply negb_true_iff in H1. apply negb_true_iff in H2. rewrite H1, H2.
  rewrite (validate_passes valid_projects 0 Hall).
  match goal with
  | |- context [run_projects fs nets order ui 0 valid_projects ?s0] =>
      destruct (run_projects_report fs nets order ui valid_projects 0 s0) as (Hi & Hf & Hl);
      destruct (run_projects fs nets order ui 0 valid_projects s0) as [st1 l]
  end.
  cbn [fst snd all_generated_images failed_prompts app] in *. auto.
Qed.



Lemma in_enumerate {A : Type} (l : list A) :
  forall (start i : nat) (x : A),
    In (i, x) (enumerate l start) ->
    exists k, nth_error l k = Some x /\ i = start + k.
Proof.
  unfold enumerate. induction l as [|y l IH]; intros start i x Hin.
  - destruct Hin.
  - cbn in Hin. destruct Hin as [Heq|Hin].
    + injection Heq as <- <-. exists 0. split; [reflexivity | lia].
    + destruct (IH (S start) i x Hin) as (k & Hk & ->).
      exists (S k). split; [exact Hk | lia].
Qed.

Lemma run_images_labels (fs : cookie_parser.filesystem) (nets : nat -> nat -> network)
    (ui : sidebar) (projects : list project) :
  Forall (image_of projects) (run_images fs nets ui projects).
Proof.
  apply List.Forall_forall. intros g Hg. unfold run_images in Hg.
  apply in_flat_map in Hg as ([idx p] & Hp & Hg). cbn [fst snd] in Hg.
  apply in_enumerate in Hp as (kp & Hkp & _).
  unfold project_images in Hg. apply in_flat_map in Hg as ([i t] & Ht & Hg).
  apply in_enumerate in Ht as (k & Hk & _).
  apply recorded_images_labels in Hg as [Htitle Hprompt].
  exists p, t. split; [eapply nth_error_In, Hkp|].
  split; [eapply nth_error_In, Hk|]. auto.
Qed.

Lemma run_failures_labels (fs : cookie_parser.filesystem) (nets : nat -> nat -> network)
    (ui : sidebar) (projects : list project) :
  Forall (failure_of projects) (run_failures fs nets ui projects).
Proof.
  apply List.Forall_forall. intros e He. unfold run_failures in He.
  apply in_flat_map in He as ([idx p] & Hp & He). cbn [fst snd] in He.
  apply in_enumerate in Hp as (kp & Hkp & _).
  unfold project_failures in He. apply in_flat_map in He as ([i t] & Ht & He).
  apply in_enumerate in Ht as (k & Hk & Hi).
  apply recorded_failures_labels in He as (Hprompt & Hidx & Htitle & Hm).
  cbn [fst snd] in *. exists p, k. split; [eapply nth_error_In, Hkp|].
  rewrite Hprompt. split; [exact Hk|]. split; [lia|]. auto.
Qed.

(** Property X18. After such a run every recorded image carries the title
    of one of the projects and, as its prompt, a prompt of that project;
    every failure carries the title of a project, a prompt of it, an
    error text that is not empty and, as index, the position of the
    prompt (from 0) plus 2. *)
Theorem run_labels_its_records (fs : cookie_parser.filesystem)
    (nets : nat -> nat -> network) (order : nat -> nat -> list nat) (ui : sidebar)
    (valid_projects : list project) (st : session_state) :
  credentials_given fs ui = true ->
  Forall (fun p => List.length (prompts p) <= 50) valid_projects ->
  Forall (image_of valid_projects)
         (all_generated_images (snd (fst (run fs nets order ui valid_projects st))))
  /\ Forall (failure_of valid_projects)
            (failed_prompts (snd (fst (run fs nets order ui valid_projects st)))).
Proof.
  intros Hc Hall.
  destruct (run_report fs nets order ui valid_projects st Hc Hall) as (Hi & Hf & _).
  split.
  - eapply Permutation_Forall; [apply Permutation_sym, Hi|]. apply run_images_labels.
  - eapply Permutation_Forall; [apply Permutation_sym, Hf|]. apply run_failures_labels.
Qed.

Lemma worker_log_bound (fs : cookie_parser.filesystem) (net : network) (ui : sidebar)
    (pd : nat * string) :
  List.length (snd (process_single_prompt fs net ui pd)) <= 2.
Proof.
  unfold process_single_prompt.
  destruct (__init__ fs _) as [self|e]; [|cbn; lia].
  destruct (app_generate_image_shape net (self, prompt_obj ui (snd pd)))
    as (post & Hl & Hpost).
  destruct (generate_image net _) as [[[[imgs|m]|e] s'] l]; cbn [snd] in *; subst l;
    rewrite length_app; destruct (_ && _);
    destruct Hpost as [->|(key & _ & ->)]; cbn; lia.
Qed.

Lemma flat_map_length_bound {A B : Type} (f : A -> list B) (n : nat) (l : list A) :
  (forall x, List.length (f x) <= n) ->
  List.length (flat_map f l) <= n * List.length l.
Proof.
  intros H. induction l as [|x l IH]; cbn [flat_map List.length]; [lia|].
  rewrite length_app. specialize (H x). lia.
Qed.

Lemma enumerate_length {A : Type} (l : list A) (start : nat) :
  List.length (enumerate l start) = List.length l.
Proof. unfold enumerate. rewrite length_combine, length_seq. lia. Qed.

Lemma run_requests_bound (fs : cookie_parser.filesystem) (nets : nat -> nat -> network)
    (ui : sidebar) (projects : list project) :
  forall start : nat,
    List.length (flat_map (fun ip => project_requests fs (nets (fst ip)) ui (snd ip))
                          (enumerate projects start))
    <= 2 * total_prompts projects.
Proof.
  induction projects as [|p rest IH]; intros start.
  - cbn. lia.
  - change (enumerate (p :: rest) start) with ((start, p) :: enumerate rest (S start)).
    cbn [flat_map fst snd]. rewrite length_app. unfold total_prompts. cbn [map list_sum].
    specialize (IH (S start)). unfold total_prompts in IH.
    assert (List.length (project_requests fs (nets start) ui p)
            <= 2 * List.length (prompts p)).
    { unfold project_requests.
      rewrite <- (enumerate_length (prompts p) 1). apply flat_map_length_bound.
      intros pd. apply worker_log_bound. }
    unfold list_sum in *. cbn [fold_right]. lia.
Qed.

(** Property X19. A run sends at most two requests for each prompt. *)
Theorem run_sends_at_most_two_requests_per_prompt (fs : cookie_parser.filesystem)
    (nets : nat -> nat -> network) (order : nat -> nat -> list nat) (ui : sidebar)
    (valid_projects : list project) (st : session_state) :
  List.length (snd (run fs nets order ui valid_projects st))
  <= 2 * total_prompts valid_projects.
Proof.
  unfold run.
  destruct (_ && _); [cbn; lia|]. destruct (_ && _); [cbn; lia|].
  destruct (validate 0 valid_projects); [cbn; lia|].
  match goal with
  | |- context [run_projects fs nets order ui 0 valid_projects ?s0] =>
      destruct (run_projects_report fs nets order ui valid_projects 0 s0) as (_ & _ & Hl);
      destruct (run_projects fs nets order ui 0 valid_projects s0) as [st1 l]
  end.
  cbn [fst snd] in *. subst l. apply run_requests_bound.
Qed.







Lemma batch_prompts_length (l : list string) (b : nat) :
  List.length (batch_prompts l b) = Nat.min batch_size (List.length l - b).
Proof.
  rewrite batch_prompts_eq, enumerate_length, length_firstn, length_skipn. reflexivity.
Qed.

(** Property X21. The batches of a project hold its prompts, each once and
    in order, numbered from 1; a batch has at least one prompt and at
    most three. *)
Theorem batches_partition_the_prompts (project_prompts : list string) :
  concat (map (batch_prompts project_prompts)
              (batch_starts (List.length project_prompts)))
  = enumerate project_prompts 1
  /\ Forall (fun batch_start =>
               1 <= List.length (batch_prompts project_prompts batch_start) <= 3)
            (batch_starts (List.length project_prompts)).
Proof.
  split; [apply batches_cover|].
  apply List.Forall_forall. intros b Hb. rewrite batch_prompts_length.
  unfold batch_starts in Hb. apply in_map_iff in Hb as (k & <- & Hk).
  apply in_seq in Hk. unfold batch_size in *.
  pose proof (Nat.div_mod_eq (List.length project_prompts + 3 - 1) 3) as Hd.
  pose proof (Nat.mod_upper_bound (List.length project_prompts + 3 - 1) 3) as Hm.
  lia.
Qed.

End RunReport.

From Stdlib Require Import DecimalNat.

Section Names.
Local Open Scope list_scope.

Lemma str_nat_inj (a b : nat) : str_nat a = str_nat b -> a = b.
Proof.
  unfold str_nat. intros H. apply Unsigned.to_uint_inj.
  apply (f_equal NilEmpty.uint_of_string) in H. rewrite !NilEmpty.usu in H.
  congruence.
Qed.

Lemma string_of_uint_plain (c : ascii) (d : Decimal.uint) :
  (nat_of_ascii c < 48 \/ 57 < nat_of_ascii c) ->
  occurs c (NilEmpty.string_of_uint d) = false.
Proof.
  intros Hc. induction d; cbn [NilEmpty.string_of_uint occurs]; [reflexivity|..];
    rewrite IHd, orb_false_r; apply Ascii.eqb_neq; intros <-; vm_compute in Hc; lia.
Qed.

Lemma occurs_append (c : ascii) (a b : string) :
  occurs c (a ++ b)%string = occurs c a || occurs c b.
Proof.
  induction a as [|x a IH]; [reflexivity|].
  change (String x a ++ b)%string with (String x (a ++ b)%string).
  cbn [occurs]. rewrite IH, orb_assoc. reflexivity.
Qed.

Lemma append_cancel_l (p x y : string) : (p ++ x)%string = (p ++ y)%string -> x = y.
Proof.
  induction p as [|c p IH]; [trivial|].
  change (String c (p ++ x)%string = String c (p ++ y)%string -> x = y).
  intros H. injection H as H. apply IH, H.
Qed.

(** Where the first occurrence of a character is. *)
Lemma first_occurrence (c : ascii) (a b x y : string) :
  occurs c a = false -> occurs c b = false ->
  (a ++ String c x)%string = (b ++ String c y)%string -> a = b /\ x = y.
Proof.
  revert b. induction a as [|u a IH]; intros [|v b] Ha Hb H.
  - injection H as H. auto.
  - change (String c x = String v (b ++ String c y)%string) in H.
    injection H as -> _. cbn [occurs] in Hb. rewrite Ascii.eqb_refl in Hb. discriminate.
  - change (String u (a ++ String c x)%string = String c y) in H.
    injection H as -> _. cbn [occurs] in Ha. rewrite Ascii.eqb_refl in Ha. discriminate.
  - change (String u (a ++ String c x)%string = String v (b ++ String c y)%string) in H.
    injection H as -> H. cbn [occurs] in Ha, Hb.
    apply orb_false_iff in Ha as [_ Ha]. apply orb_false_iff in Hb as [_ Hb].
    destruct (IH b Ha Hb H) as [-> ->]. auto.
Qed.

(** Where the last occurrence of a character is. *)
Lemma last_occurrence (c : ascii) (a b x y : string) :
  occurs c x = false -> occurs c y = false ->
  (a ++ String c x)%string = (b ++ String c y)%string -> a = b /\ x = y.
Proof.
  intros Hx Hy. revert b. induction a as [|u a IH]; intros [|v b] H.
  - injection H as H. auto.
  - change (String c x = String v (b ++ String c y)%string) in H.
    injection H as _ H. rewrite H, occurs_append in Hx. cbn [occurs] in Hx.
    rewrite Ascii.eqb_refl, orb_true_r in Hx. discriminate.
  - change (String u (a ++ String c x)%string = String c y) in H.
    injection H as _ H. rewrite <- H, occurs_append in Hy. cbn [occurs] in Hy.
    rewrite Ascii.eqb_refl, orb_true_r in Hy. discriminate.
  - change (String u (a ++ String c x)%string = String v (b ++ String c y)%string) in H.
    injection H as -> H. destruct (IH b H) as [-> ->]. auto.
Qed.

Lemma str_nat_plain (c : ascii) (n : nat) :
  (nat_of_ascii c < 48 \/ 57 < nat_of_ascii c) -> occurs c (str_nat n) = false.
Proof. apply string_of_uint_plain. Qed.

Lemma numbered_png_inj (a b : nat) :
  (str_nat a ++ ".png")%string = (str_nat b ++ ".png")%string -> a = b.
Proof.
  intros H. apply str_nat_inj.
  apply (first_occurrence "."%char (str_nat a) (str_nat b) "png" "png");
    [apply str_nat_plain; vm_compute; lia | apply str_nat_plain; vm_compute; lia | exact H].
Qed.

(** Two names with a number after the last underscore are the same only
    when the number is. *)
Lemma entry_name_inj (t1 t2 : string) (i j : nat) :
  (t1 ++ "_" ++ str_nat (i + 1) ++ ".png")%string
  = (t2 ++ "_" ++ str_nat (j + 1) ++ ".png")%string ->
  i = j.
Proof.
  intros H.
  assert (Hplain : forall k, occurs "_"%char (str_nat k ++ ".png")%string = false).
  { intros k. rewrite occurs_append, str_nat_plain by (vm_compute; lia). reflexivity. }
  destruct (last_occurrence "_"%char t1 t2 _ _ (Hplain (i + 1)) (Hplain (j + 1)) H)
    as [_ Hn].
  apply numbered_png_inj in Hn. lia.
Qed.

Lemma image_filename_inj (prefix : string) (i j : nat) :
  imagefx_files.image_filename prefix i = imagefx_files.image_filename prefix j -> i = j.
Proof.
  unfold imagefx_files.image_filename. intros H.
  apply append_cancel_l in H.
  change (String "-" (str_nat (i + 1) ++ ".png")%string
          = String "-" (str_nat (j + 1) ++ ".png")%string) in H.
  injection H as H. apply numbered_png_inj in H. lia.
Qed.

End Names.

Section SafeTitle.

Lemma name_char_facts (c : ascii) :
  name_char c = true ->
  kept c = true /\ is_space c = false /\ Ascii.eqb c " " = false.
Proof.
  destruct c as [[] [] [] [] [] [] [] []]; vm_compute; intros H;
    first [discriminate H | auto].
Qed.

Lemma kept_name_char (c : ascii) :
  kept c = true -> name_char (if Ascii.eqb c " " then "_"%char else c) = true.
Proof.
  destruct c as [[] [] [] [] [] [] [] []]; vm_compute; intros H;
    first [discriminate H | reflexivity].
Qed.

Lemma keep_chars_kept (title : string) : all_chars kept (keep_chars title) = true.
Proof.
  induction title as [|c rest IH]; [reflexivity|]. cbn [keep_chars].
  destruct (kept c) eqn:E; [|exact IH]. cbn [all_chars]. rewrite E. exact IH.
Qed.

Lemma rstrip_all_chars (p : ascii -> bool) (s : string) :
  all_chars p s = true -> all_chars p (rstrip s) = true.
Proof.
  induction s as [|c s IH]; [trivial|]. cbn [all_chars rstrip]. intros H.
  apply andb_true_iff in H as [Hc Hs]. specialize (IH Hs).
  destruct (rstrip s) as [|c' t].
  - destruct (is_space c); cbn [all_chars]; [reflexivity | now rewrite Hc].
  - cbn [all_chars] in *. now rewrite Hc.
Qed.

Lemma replace_spaces_name_chars (s : string) :
  all_chars kept s = true -> all_chars name_char (replace_spaces s) = true.
Proof.
  induction s as [|c s IH]; [trivial|]. cbn [all_chars replace_spaces]. intros H.
  apply andb_true_iff in H as [Hc Hs]. rewrite (kept_name_char c Hc). apply IH, Hs.
Qed.

Lemma replace_spaces_length (s : string) :
  String.length (replace_spaces s) = String.length s.
Proof. induction s as [|c s IH]; cbn; [reflexivity | now rewrite IH]. Qed.

Lemma substring_prefix_all_chars (p : ascii -> bool) (n : nat) :
  forall s : string,
    all_chars p s = true -> all_chars p (String.substring 0 n s) = true.
Proof.
  induction n as [|n IH]; intros [|c s] H; try reflexivity.
  cbn [String.substring all_chars] in *.
  apply andb_true_iff in H as [Hc Hs]. rewrite Hc. apply IH, Hs.
Qed.

Lemma substring_prefix_length (n : nat) :
  forall s : string, String.length (String.substring 0 n s) <= n.
Proof.
  induction n as [|n IH]; intros [|c s]; cbn; try lia.
  specialize (IH s). lia.
Qed.

Lemma cli_safe_title_name_chars (title : string) :
  all_chars name_char (cli_safe_title title) = true.
Proof.
  unfold cli_safe_title. apply replace_spaces_name_chars, rstrip_all_chars, keep_chars_kept.
Qed.

Lemma name_chars_kept_as_they_are (s : string) :
  all_chars name_char s = true -> cli_safe_title s = s.
Proof.
  intros H. unfold cli_safe_title.
  assert (Hk : keep_chars s = s).
  { induction s as [|c s IH]; [reflexivity|]. cbn [all_chars keep_chars] in *.
    apply andb_true_iff in H as [Hc Hs].
    destruct (name_char_facts c Hc) as (-> & _ & _). now rewrite IH. }
  assert (Hr : rstrip s = s).
  { clear Hk. induction s as [|c s IH]; [reflexivity|]. cbn [all_chars rstrip] in *.
    apply andb_true_iff in H as [Hc Hs]. rewrite (IH Hs).
    destruct (name_char_facts c Hc) as (_ & -> & _). destruct s; reflexivity. }
  assert (Hs : replace_spaces s = s).
  { clear Hk Hr. induction s as [|c s IH]; [reflexivity|].
    cbn [all_chars replace_spaces] in *.
    apply andb_true_iff in H as [Hc Hs].
    destruct (name_char_facts c Hc) as (_ & _ & ->). now rewrite IH. }
  rewrite Hk, Hr, Hs. reflexivity.
Qed.

Lemma safe_title_facts (title : string) :
  all_chars name_char (safe_title title) = true
  /\ String.length (safe_title title) <= 50.
Proof.
  unfold safe_title. pose proof (cli_safe_title_name_chars title) as H.
  destruct (Nat.ltb_spec 50 (String.length (cli_safe_title title))) as [Hlong|Hshort].
  - split; [apply substring_prefix_all_chars, H | apply substring_prefix_length].
  - auto.
Qed.

(** Property X22. The title part of a file name holds letters, digits, [-]
    and [_] only, is at most 50 characters long, and is left as it is
    when cleaned again; the one of the command line client, which is not
    cut, has the same characters and is left as it is as well. *)
Theorem safe_title_is_a_file_name (title : string) :
  all_chars name_char (safe_title title) = true
  /\ String.length (safe_title title) <= 50
  /\ safe_title (safe_title title) = safe_title title
  /\ all_chars name_char (cli_safe_title title) = true
  /\ cli_safe_title (cli_safe_title title) = cli_safe_title title.
Proof.
  destruct (safe_title_facts title) as [Hc Hl].
  split; [exact Hc|]. split; [exact Hl|]. split.
  - unfold safe_title at 1. rewrite (name_chars_kept_as_they_are _ Hc).
    destruct (Nat.ltb_spec 50 (String.length (safe_title title))); [lia | reflexivity].
  - split; [apply cli_safe_title_name_chars|].
    apply name_chars_kept_as_they_are, cli_safe_title_name_chars.
Qed.

End SafeTitle.

Section Archives.
Import imagefx_streamlit archives.
Local Open Scope list_scope.

Lemma map_fst_enumerate {A : Type} (l : list A) (start : nat) :
  map fst (enumerate l start) = seq start (List.length l).
Proof.
  unfold enumerate. revert start. induction l as [|x l IH]; intros start; [reflexivity|].
  cbn. now rewrite IH.
Qed.

Lemma in_enumerate_nth {A : Type} (l : list A) :
  forall (start i : nat) (x : A),
    In (i, x) (enumerate l start)
    <-> exists k, nth_error l k = Some x /\ i = start + k.
Proof.
  unfold enumerate. induction l as [|y l IH]; intros start i x.
  - split; [intros [] | intros ([|k] & Hk & _); discriminate].
  - cbn [List.length seq combine In]. rewrite IH. split.
    + intros [Heq|(k & Hk & ->)].
      * injection Heq as <- <-. exists 0. split; [reflexivity | lia].
      * exists (S k). split; [exact Hk | lia].
    + intros ([|k] & Hk & ->).
      * injection Hk as ->. left. f_equal. lia.
      * right. exists k. split; [exact Hk | lia].
Qed.

(** Lists made item by item do not repeat themselves when no two items
    can make the same thing. *)
Lemma NoDup_flat_map_numbered {X Y : Type} (f : nat * X -> list Y)
    (numbered : list (nat * X)) :
  (forall ix, List.NoDup (f ix)) ->
  (forall ix jx y, In y (f ix) -> In y (f jx) -> fst ix = fst jx) ->
  List.NoDup (map fst numbered) ->
  List.NoDup (flat_map f numbered).
Proof.
  intros Hone Hinj. induction numbered as [|ix rest IH]; intros Hnd; [constructor|].
  cbn [flat_map map] in *. inversion Hnd as [|? ? Hnotin Hrest]; subst.
  apply List.NoDup_app; [apply Hone | apply IH, Hrest |].
  intros y Hy Hy'. apply in_flat_map in Hy' as (jx & Hjx & Hy').
  apply Hnotin. rewrite (Hinj ix jx y Hy Hy'). apply in_map, Hjx.
Qed.

Lemma add_images_entries (b64decode : string -> option string) (title : string)
    (numbered : list (nat * GeneratedImage.t)) :
  forall zip_file,
    add_images b64decode title numbered zip_file
    = zip_file ++ flat_map (entry_for b64decode (fun _ _ => title)) numbered.
Proof.
  induction numbered as [|[i image] rest IH]; intros zip_file.
  - cbn. now rewrite app_nil_r.
  - cbn [add_images flat_map]. unfold entry_for at 1. cbn [fst snd].
    destruct (truthy (GeneratedImage.encoded_image image)); cbn [negb]; [|apply IH].
    destruct (decode_image b64decode _); rewrite IH, <- ?app_assoc; reflexivity.
Qed.

Lemma add_batch_images_entries (b64decode : string -> option string)
    (project_titles : list string) (numbered : list (nat * GeneratedImage.t)) :
  forall zip_file,
    add_batch_images b64decode project_titles numbered zip_file
    = zip_file ++ flat_map (entry_for b64decode (batch_title project_titles)) numbered.
Proof.
  induction numbered as [|[i image] rest IH]; intros zip_file.
  - cbn. now rewrite app_nil_r.
  - cbn [add_batch_images flat_map]. unfold entry_for at 1. cbn [fst snd].
    destruct (truthy (GeneratedImage.encoded_image image)); cbn [negb]; [|apply IH].
    destruct (decode_image b64decode _); rewrite IH, <- ?app_assoc; reflexivity.
Qed.

Lemma entries_facts (b64decode : string -> option string)
    (title_of : nat -> GeneratedImage.t -> string) (images : list GeneratedImage.t) :
  let z := flat_map (entry_for b64decode title_of) (enumerate images 0) in
  List.NoDup (map fst z)
  /\ List.length z = List.length (List.filter (can_be_added b64decode) images)
  /\ Forall (fun e => exists i image,
                 nth_error images i = Some image
                 /\ fst e = entry_name (title_of i image) i
                 /\ truthy (GeneratedImage.encoded_image image) = true
                 /\ decode_image b64decode (GeneratedImage.encoded_image image)
                    = Some (snd e)) z.
Proof.
  cbn zeta. split; [|split].
  - rewrite flat_map_concat_map, concat_map, map_map, <- flat_map_concat_map.
    apply NoDup_flat_map_numbered.
    + intros [i image]. unfold entry_for. cbn [fst snd].
      destruct (truthy _); [|constructor].
      destruct (decode_image _ _); cbn [map]; repeat constructor. intros [].
    + intros [i image] [j image'] y. unfold entry_for. cbn [fst snd].
      destruct (truthy (GeneratedImage.encoded_image image)); [|intros []].
      destruct (decode_image b64decode (GeneratedImage.encoded_image image));
        [|intros []].
      destruct (truthy (GeneratedImage.encoded_image image')); [|intros _ []].
      destruct (decode_image b64decode (GeneratedImage.encoded_image image'));
        [|intros _ []].
      cbn. intros [<-|[]] [H|[]]. unfold entry_name in H.
      symmetry. exact (entry_name_inj _ _ _ _ H).
    + rewrite map_fst_enumerate. apply seq_NoDup.
  - generalize 0. induction images as [|image rest IH]; intros start; [reflexivity|].
    change (enumerate (image :: rest) start)
      with ((start, image) :: enumerate rest (S start)).
    cbn [flat_map List.filter]. rewrite length_app, IH.
    unfold entry_for, can_be_added. cbn [fst snd].
    destruct (truthy _); cbn [andb]; [|reflexivity].
    destruct (decode_image _ _); reflexivity.
  - apply List.Forall_forall. intros e He. apply in_flat_map in He as ([i image] & Hin & He).
    apply in_enumerate_nth in Hin as (k & Hk & ->). cbn [Nat.add] in He.
    unfold entry_for in He. cbn [fst snd] in He.
    destruct (truthy (GeneratedImage.encoded_image image)) eqn:Et; [|destruct He].
    destruct (decode_image b64decode (GeneratedImage.encoded_image image)) eqn:Ed;
      [|destruct He].
    destruct He as [<-|[]]. exists k, image. auto.
Qed.

(** Property X23. [create_zip_file]: an archive that is returned has no two
    entries of the same name; it has one entry for each image that has
    data that can be decoded, named by the title and the position of the
    image plus 1, and holding the decoded data. [None] is returned only
    when the title is blank or no image can be added. *)
Theorem archive_entries_are_the_images_that_decode
    (b64decode : string -> option string) (images : list GeneratedImage.t)
    (title : string) :
  match create_zip_file b64decode images title with
  | Some zip_file =>
      List.NoDup (map fst zip_file)
      /\ List.length zip_file = List.length (List.filter (can_be_added b64decode) images)
      /\ Forall (fun e => exists i image,
                     nth_error images i = Some image
                     /\ fst e = entry_name title i
                     /\ truthy (GeneratedImage.encoded_image image) = true
                     /\ decode_image b64decode (GeneratedImage.encoded_image image)
                        = Some (snd e)) zip_file
  | None =>
      nonempty (strip title) = false
      \/ List.filter (can_be_added b64decode) images = []
  end.
Proof.
  unfold create_zip_file.
  destruct images as [|image0 rest] eqn:Ei; [right; reflexivity|]. rewrite <- Ei. clear Ei.
  destruct (nonempty title) eqn:Et; cbn [negb orb].
  - destruct (nonempty (strip title)) eqn:Es; cbn [negb]; [|left; reflexivity].
    rewrite add_images_entries. cbn [app].
    destruct (entries_facts b64decode (fun _ _ => title) images) as (Hnd & Hlen & Hall).
    destruct (flat_map _ _) as [|e z]; [|auto].
    right. cbn in Hlen. symmetry in Hlen. apply length_zero_iff_nil in Hlen. exact Hlen.
  - left. unfold nonempty in *. apply negb_false_iff, String.eqb_eq in Et. subst title.
    reflexivity.
Qed.

(** Property X24. [create_batch_zip_file]: the same, with each image filed
    under its project title (the first title when it has none, and
    [project_(i+1)] when the title is blank); the names are distinct
    across the projects as well. [None] is returned only when there is no
    title or no image can be added. *)
Theorem batch_archive_entries_have_distinct_names
    (b64decode : string -> option string) (images : list GeneratedImage.t)
    (project_titles : list string) :
  match create_batch_zip_file b64decode images project_titles with
  | Some zip_file =>
      List.NoDup (map fst zip_file)
      /\ List.length zip_file = List.length (List.filter (can_be_added b64decode) images)
      /\ Forall (fun e => exists i image,
                     nth_error images i = Some image
                     /\ fst e = entry_name (batch_title project_titles i image) i
                     /\ truthy (GeneratedImage.encoded_image image) = true
                     /\ decode_image b64decode (GeneratedImage.encoded_image image)
                        = Some (snd e)) zip_file
  | None =>
      project_titles = []
      \/ List.filter (can_be_added b64decode) images = []
  end.
Proof.
  unfold create_batch_zip_file.
  destruct images as [|image0 rest] eqn:Ei; [right; reflexivity|]. rewrite <- Ei. clear Ei.
  destruct project_titles as [|t0 ts] eqn:Ep; [left; reflexivity|]. rewrite <- Ep. clear Ep.
  rewrite add_batch_images_entries. cbn [app].
  destruct (entries_facts b64decode (batch_title project_titles) images)
    as (Hnd & Hlen & Hall).
  destruct (flat_map _ _) as [|e z]; [|auto].
  right. cbn in Hlen. symmetry in Hlen. apply length_zero_iff_nil in Hlen. exact Hlen.
Qed.

End Archives.

Section SavedFiles.
Import imagefx_streamlit imagefx_files archives.
Local Open Scope list_scope.

Lemma save_from_saved (b64decode : string -> option string)
    (writable : string -> string -> bool) (directory prefix : string)
    (numbered : list (nat * GeneratedImage.t)) :
  forall saved_files,
    save_from b64decode writable directory prefix numbered saved_files
    = saved_files ++ flat_map (saved_as b64decode writable directory prefix) numbered.
Proof.
  induction numbered as [|[i image] rest IH]; intros saved_files.
  - cbn. now rewrite app_nil_r.
  - cbn [save_from flat_map]. unfold saved_as at 1. cbn [fst snd].
    destruct (save_image _ _ _ _ _); rewrite IH, <- ?app_assoc; reflexivity.
Qed.

(** Property X25. [save_images]: the names returned are distinct, not more
    than the images, and are the names [prefix-(i+1).png] of the images
    [i] that [save_image] saved. *)
Theorem saved_files_are_distinct (b64decode : string -> option string)
    (writable : string -> string -> bool) (images : list GeneratedImage.t)
    (directory prefix : string) :
  List.NoDup (save_images b64decode writable images directory prefix)
  /\ List.length (save_images b64decode writable images directory prefix)
     <= List.length images
  /\ forall filename,
       In filename (save_images b64decode writable images directory prefix)
       <-> exists i image,
             nth_error images i = Some image
             /\ filename = image_filename prefix i
             /\ save_image b64decode writable (GeneratedImage.encoded_image image)
                           filename directory = true.
Proof.
  unfold save_images. rewrite save_from_saved. cbn [app]. split; [|split].
  - apply NoDup_flat_map_numbered.
    + intros ix. unfold saved_as. destruct (save_image _ _ _ _ _); repeat constructor.
      intros [].
    + intros ix jx y. unfold saved_as.
      destruct (save_image _ _ _ _ _); [|intros []].
      destruct (save_image _ _ _ _ _); [|intros _ []].
      intros [<-|[]] [H|[]]. symmetry. exact (image_filename_inj _ _ _ H).
    + rewrite map_fst_enumerate. apply seq_NoDup.
  - rewrite <- (Nat.mul_1_l (List.length images)), <- (enumerate_length images 0).
    generalize (enumerate images 0). intros l.
    induction l as [|x l IH]; cbn [flat_map List.length]; [lia|].
    rewrite length_app. unfold saved_as at 1.
    destruct (save_image _ _ _ _ _); cbn [List.length]; lia.
  - intros filename. rewrite in_flat_map. split.
    + intros ([i image] & Hin & Hf). apply in_enumerate_nth in Hin as (k & Hk & ->).
      unfold saved_as in Hf. cbn [fst snd Nat.add] in Hf.
      destruct (save_image _ _ _ _ _) eqn:E; [|destruct Hf].
      destruct Hf as [<-|[]]. exists k, image. auto.
    + intros (i & image & Hn & -> & Hs). exists (i, image). split.
      * apply in_enumerate_nth. exists i. auto.
      * unfold saved_as. cbn [fst snd]. rewrite Hs. left. reflexivity.
Qed.

End SavedFiles.

Section PageState.
Import page_state.

Ltac lookup_key :=
  repeat first [ rewrite lookup_delete_eq
               | rewrite lookup_insert_eq
               | rewrite lookup_delete_ne by discriminate
               | rewrite lookup_insert_ne by discriminate ].

Lemma reset_lookups (ss : gmap string stored) :
  let ss' := reset_all_session_state (<["page_refresh" := Flag true]> ss) in
  ss' !! "page_refresh" = None
  /\ ss' !! "failed_prompts" = Some (Failures [])
  /\ ss' !! "generation_complete" = Some (Flag false)
  /\ ss' !! "all_generated_images" = Some (Images [])
  /\ ss' !! "current_title" = Some (Words EmptyString)
  /\ ss' !! "show_download_button" = Some (Flag false)
  /\ ss' !! "generating" = Some (Flag false)
  /\ ss' !! "project_titles" = None
  /\ ss' !! "project_prompts" = None.
Proof.
  cbn zeta. unfold reset_all_session_state.
  repeat split; lookup_key; reflexivity.
Qed.


Lemma begin_run_fresh (ss : gmap string stored) :
  ss !! "page_refresh" = None ->
  begin_run ss = reset_all_session_state (<["page_refresh" := Flag true]> ss).
Proof.
  intros H. unfold begin_run. rewrite H.
  destruct (reset_lookups ss) as (_ & Hf & Hc & Hi & Ht & Hd & Hg & _).
  cbn zeta in *.
  set (ss' := reset_all_session_state (<["page_refresh" := Flag true]> ss)) in *.
  unfold setdefault, ensure_list.
  repeat (first [rewrite Hf | rewrite Hc | rewrite Hi | rewrite Ht | rewrite Hg
                | rewrite Hd]; cbn [is_list]).
  reflexivity.
Qed.

(** Property X26. When the session holds no [page_refresh] marker, the
    start of [main] sets it and resets the state, which deletes it again:
    afterwards the marker is absent, [generation_complete] and
    [show_download_button] are false, the lists are empty, the project
    titles are gone, and the condition of the result blocks at the top of
    the page is false as long as [generation_complete] is not written. *)
Theorem fresh_page_marker_is_deleted_again (ss : gmap string stored) :
  ss !! "page_refresh" = None ->
  begin_run ss !! "page_refresh" = None
  /\ begin_run ss !! "generation_complete" = Some (Flag false)
  /\ begin_run ss !! "show_download_button" = Some (Flag false)
  /\ begin_run ss !! "all_generated_images" = Some (Images [])
  /\ begin_run ss !! "failed_prompts" = Some (Failures [])
  /\ begin_run ss !! "project_titles" = None
  /\ forall later : gmap string stored,
       later !! "generation_complete" = begin_run ss !! "generation_complete" ->
       shows_results later = Return false.
Proof.
  intros H. rewrite (begin_run_fresh ss H).
  destruct (reset_lookups ss) as (Hp & Hf & Hc & Hi & Ht & Hd & Hg & Hj & _).
  cbn zeta in *. rewrite Hp, Hc, Hd, Hi, Hf, Hj.
  repeat split. intros later Hl. unfold shows_results, attribute. rewrite Hl. reflexivity.
Qed.

End PageState.

Section Settings.
Import sidebar_settings.

Lemma aspect_ratios_cases (model : string) :
  get_model_aspect_ratios model = get_model_aspect_ratios "IMAGEN_3"
  \/ get_model_aspect_ratios model = get_model_aspect_ratios "IMAGEN_2"
  \/ (aspect_ratios (get_model_aspect_ratios model)
      = aspect_ratios (get_model_aspect_ratios "IMAGEN_4")
      /\ model <> "IMAGEN_3").
Proof.
  unfold get_model_aspect_ratios.
  destruct (String.eqb_spec model "IMAGEN_3") as [->|H3]; [left; reflexivity|].
  destruct (String.eqb_spec model "IMAGEN_2") as [->|H2]; [right; left; reflexivity|].
  right. right. split; [reflexivity | exact H3].
Qed.

Lemma aspect_ratio_of_table (model model' : string) :
  aspect_ratios (get_model_aspect_ratios model)
  = aspect_ratios (get_model_aspect_ratios model') ->
  forall label, aspect_ratio model label = aspect_ratio model' label.
Proof.
  intros H label.
  unfold aspect_ratio, aspect_ratio_mapping, aspect_ratio_labels, aspect_ratio_options.
  rewrite H. reflexivity.
Qed.

(** Property X27. Every option of the aspect ratio box can be chosen: the
    label listed beside an option is mapped back to that option. *)
Theorem label_selects_the_option_beside_it (model option label : string) :
  In (option, label) (aspect_ratios (get_model_aspect_ratios model)) ->
  aspect_ratio model label = Return option.
Proof.
  intros Hin.
  destruct (aspect_ratios_cases model) as [H|[H|[H _]]].
  - rewrite (aspect_ratio_of_table model "IMAGEN_3") by now rewrite H.
    rewrite H in Hin. cbn in Hin.
    repeat (destruct Hin as [Hin|Hin]; [injection Hin as <- <-; vm_compute; reflexivity|]).
    destruct Hin.
  - rewrite (aspect_ratio_of_table model "IMAGEN_2") by now rewrite H.
    rewrite H in Hin. cbn in Hin.
    repeat (destruct Hin as [Hin|Hin]; [injection Hin as <- <-; vm_compute; reflexivity|]).
    destruct Hin.
  - rewrite (aspect_ratio_of_table model "IMAGEN_4") by exact H.
    rewrite H in Hin. cbn in Hin.
    repeat (destruct Hin as [Hin|Hin]; [injection Hin as <- <-; vm_compute; reflexivity|]).
    destruct Hin.
Qed.


Ltac settle_iff :=
  split;
  [ intros He; first [discriminate He | split; discriminate]
  | intros [H3 H4];
    first [ reflexivity
          | exfalso; apply H3; reflexivity
          | exfalso; apply H4; reflexivity ] ].

(** Property X28. For every model of the select box and every label of its
    aspect ratios the web client sends one of seven model names (never
    [IMAGEN_4] or [IMAGEN_3]) and an aspect ratio that starts with
    [IMAGE_ASPECT_RATIO_]; the model shown under Current Configuration is
    the one sent exactly when the model is neither [IMAGEN_3] nor
    [IMAGEN_4]. *)
Theorem sidebar_choice_sends_wire_names (model label text : string)
    (count seed : option Z) :
  In model models ->
  In label (aspect_ratio_labels model) ->
  exists option,
    aspect_ratio model label = Return option
    /\ In (request_body.modelNameType
             (imagefx_streamlit.build_request_body
                (Prompt.mk text count seed model option))) wire_models
    /\ String.prefix "IMAGE_ASPECT_RATIO_"
         (request_body.aspectRatio
            (imagefx_streamlit.build_request_body
               (Prompt.mk text count seed model option))) = true
    /\ (request_body.modelNameType
          (imagefx_streamlit.build_request_body
             (Prompt.mk text count seed model option))
        = actual_model (get_model_aspect_ratios model)
        <-> model <> "IMAGEN_3" /\ model <> "IMAGEN_4").
Proof.
  intros Hm Hl. unfold models in Hm. cbn [In] in Hm.
  repeat (destruct Hm as [<-|Hm];
          [ cbn in Hl;
            repeat (destruct Hl as [<-|Hl];
                    [ eexists; split; [vm_compute; reflexivity|];
                      split; [vm_compute; tauto|];
                      split; [vm_compute; reflexivity|];
                      vm_compute; settle_iff
                    | ]);
            destruct Hl
          | ]).
  destruct Hm.
Qed.

End Settings.

Section CommandLine.
Import cookie_parser ImageFX cli_main.
Local Open Scope list_scope.

(** Property X29. Once [main] of the command line client has checked the
    arguments there is a prompt, a model [IMAGEN_3] comes with one of its
    four variants, and the constructor of the client returns, unless a
    cookie file is named and it holds no session token or one that is too
    short. *)
Theorem checked_arguments_make_a_client (fs : filesystem)
    (read : string -> option (list string)) (args : command_line)
    (prompts : list string) :
  checks (path_exists fs) read args = inr prompts ->
  prompts <> []
  /\ (args_model args = "IMAGEN_3" -> In (args_ratio args) valid_imagen3_ratios)
  /\ ((exists c, __init__ fs (credentials args) = Return c)
      \/ (truthy_str (args_cookie_file args) = true
          /\ (__init__ fs (credentials args)
              = Raise (ValueError ("Failed to load cookies from file: "
                                     ++ "No session token found in cookie file"))
              \/ __init__ fs (credentials args)
                 = Raise (ValueError "Invalid cookie was provided.")))).
Proof.
  unfold checks.
  destruct (negb (truthy_str (args_auth args)) && negb (truthy_str (args_cookie args))
            && negb (truthy_str (args_cookie_file args))) eqn:E1; [discriminate|].
  destruct (negb (truthy_str (args_prompt args))
            && negb (truthy_str (args_prompts_file args))); [discriminate|].
  destruct (truthy_str (args_cookie args)
            && (String.length (text_of (args_cookie args)) <? 70)%nat) eqn:E3;
    [discriminate|].
  destruct (truthy_str (args_cookie_file args)
            && negb (path_exists fs (text_of (args_cookie_file args)))) eqn:E4;
    [discriminate|].
  destruct (truthy_str (args_prompts_file args) && _); [discriminate|].
  match goal with
  | |- match ?ps with _ => _ end = _ -> _ => destruct ps as [|p0 ps'] eqn:Eps
  end; [discriminate|].
  destruct ((args_model args =? "IMAGEN_3")
            && negb (existsb (String.eqb (args_ratio args)) valid_imagen3_ratios)) eqn:E5;
    [discriminate|].
  intros H. injection H as <-. split; [discriminate|]. split.
  - intros Hm. rewrite Hm, String.eqb_refl in E5. cbn [andb] in E5.
    apply negb_false_iff, existsb_exists in E5 as (x & Hx & Heq).
    apply String.eqb_eq in Heq. subst x. exact Hx.
  - remember (__init__ fs (credentials args)) as r eqn:Er.
    rewrite init_load in Er.
    unfold accepted_cookie, credentials, path_of, cookie_text in Er.
    cbn [cookie authorization_key cookie_file set_cookie] in Er.
    unfold truthy_str in *. rewrite E1 in Er.
    unfold text_of in E3, E4.
    destruct (truthy (of_optional (args_cookie_file args))) eqn:Ef.
    + cbn [andb] in *. apply negb_false_iff in E4.
      assert (Hp : path_exists fs match args_cookie_file args with
                                  | Some p => p | None => EmptyString end = true).
      { destruct (args_cookie_file args); exact E4. }
      rewrite Hp in Er. cbn [negb] in Er.
      destruct (truthy (of_optional (session_token (get_auth_credentials fs _))))
        eqn:Et; cbn [negb andb] in Er; [|subst r; right; auto].
      rewrite andb_false_r in Er.
      subst r.
      match goal with
      | |- context [if ?b then Raise (ValueError "Invalid cookie was provided.") else _] =>
          destruct b
      end; [right; auto | left; eauto].
    + cbn [andb negb] in *. rewrite andb_true_r in E1.
      destruct (truthy (of_optional (args_cookie args))) eqn:Ec; cbn [andb negb] in *.
      * rewrite andb_false_r in Er.
        assert (Hlen : (String.length match args_cookie args with
                                       | Some s => s | None => EmptyString end <? 70)%nat
                       = false).
        { destruct (args_cookie args); exact E3. }
        rewrite Hlen in Er. subst r. left. eauto.
      * rewrite andb_true_r in E1. rewrite E1 in Er. subst r. left. eauto.
Qed.


Lemma lib_call_log (net : network) (s : Credentials * Prompt.t) :
  List.length (snd (imagefx.generate_image net s)) <= 2
  /\ Forall (fun req => forall b, body req = Some b ->
                request_body.prompts b = [Prompt.prompt (snd s)])
            (snd (imagefx.generate_image net s)).
Proof.
  destruct (lib_generate_image_shape net s) as (post & -> & Hpost).
  split.
  - rewrite length_app. destruct (_ && _); destruct Hpost as [->|[key ->]]; cbn; lia.
  - apply Forall_app. split.
    + destruct (_ && _); repeat constructor. intros b Hb. discriminate Hb.
    + destruct Hpost as [->|[key ->]]; repeat constructor.
      intros b Hb. injection Hb as <-. cbn. unfold imagefx.alias_model.
      destruct (Prompt.model (snd s) =? "IMAGEN_4"); reflexivity.
Qed.

Lemma process_prompts_facts (nets : nat -> network) (a : imagefx_cli.args)
    (prompts : list string) :
  forall (prompt_index : nat) (acc : list GeneratedImage.t) (c : Credentials),
    (forall imgs,
        fst (fst (imagefx_cli.process_prompts nets a prompt_index prompts acc c))
        = Return imgs ->
        exists added,
          imgs = acc ++ added
          /\ Forall (fun g => exists t, In t prompts
                                       /\ GeneratedImage.prompt g = VStr t) added)
    /\ List.length (snd (imagefx_cli.process_prompts nets a prompt_index prompts acc c))
       <= 2 * List.length prompts
    /\ Forall (fun req => forall b, body req = Some b ->
                  exists t, In t prompts /\ request_body.prompts b = [strip t])
              (snd (imagefx_cli.process_prompts nets a prompt_index prompts acc c)).
Proof.
  induction prompts as [|prompt_text rest IH]; intros prompt_index acc c.
  - cbn. split; [|split; [lia | constructor]].
    intros imgs H. injection H as <-. exists []. rewrite app_nil_r. auto.
  - cbn [imagefx_cli.process_prompts].
    match goal with
    | |- context [imagefx.generate_image ?n ?st] =>
        destruct (lib_call_log n st) as [Hlen Hbodies];
        destruct (imagefx.generate_image n st) as [[[res|e] s'] l]
    end; cbn [fst snd] in *.
    + match goal with
      | |- context [imagefx_cli.process_prompts nets a ?i rest ?ac ?c0] =>
          destruct (IH i ac c0) as (IHi & IHl & IHb);
          destruct (imagefx_cli.process_prompts nets a i rest ac c0) as [[r' c''] l']
      end; cbn [fst snd] in *.
      split; [|split].
      * intros imgs H. destruct (IHi imgs H) as (added & -> & Hall).
        destruct res as [got|m].
        -- exists (imagefx_cli.stamp_prompt prompt_text got ++ added).
           rewrite app_assoc. split; [reflexivity|]. apply Forall_app. split.
           ++ apply List.Forall_forall. intros g Hg. unfold imagefx_cli.stamp_prompt in Hg.
              apply in_map_iff in Hg as (g0 & <- & _). exists prompt_text.
              split; [left; reflexivity | reflexivity].
           ++ eapply List.Forall_impl; [|exact Hall].
              intros g (t & Ht & Hg). exists t. split; [right; exact Ht | exact Hg].
        -- exists added. split; [reflexivity|].
           eapply List.Forall_impl; [|exact Hall].
           intros g (t & Ht & Hg). exists t. split; [right; exact Ht | exact Hg].
      * rewrite length_app. cbn [List.length]. lia.
      * apply Forall_app. split.
        -- eapply List.Forall_impl; [|exact Hbodies]. intros req Hreq b Hb.
           exists prompt_text. split; [left; reflexivity | exact (Hreq b Hb)].
        -- eapply List.Forall_impl; [|exact IHb]. intros req Hreq b Hb.
           destruct (Hreq b Hb) as (t & Ht & Hp). exists t. split; [right; exact Ht | exact Hp].
    + split; [intros imgs H; discriminate H|]. split; [cbn [List.length]; lia|].
      eapply List.Forall_impl; [|exact Hbodies]. intros req Hreq b Hb.
      exists prompt_text. split; [left; reflexivity | exact (Hreq b Hb)].
Qed.

(** Property X30. The loop of the command line client: every image it
    returns is labelled with one of the prompts as given; it sends at
    most two requests for each prompt; a generation request carries the
    stripped text of one of the prompts. *)
Theorem cli_images_carry_the_prompt_given (nets : nat -> network)
    (a : imagefx_cli.args) (prompts : list string) (c : Credentials) :
  (forall imgs,
      fst (fst (imagefx_cli.process_prompts nets a 0 prompts [] c)) = Return imgs ->
      Forall (fun g => exists t, In t prompts /\ GeneratedImage.prompt g = VStr t) imgs)
  /\ List.length (snd (imagefx_cli.process_prompts nets a 0 prompts [] c))
     <= 2 * List.length prompts
  /\ Forall (fun req => forall b, body req = Some b ->
                exists t, In t prompts /\ request_body.prompts b = [strip t])
            (snd (imagefx_cli.process_prompts nets a 0 prompts [] c)).
Proof.
  destruct (process_prompts_facts nets a prompts 0 [] c) as (Hi & Hl & Hb).
  split; [|split; [exact Hl | exact Hb]].
  intros imgs H. destruct (Hi imgs H) as (added & -> & Hall). exact Hall.
Qed.

End CommandLine.

Section Witnesses.
Local Open Scope list_scope.


Lemma failed_prompts_can_be_pasted_back_witness :
  prompt_input.parse_prompts (String.concat (String newline EmptyString) ["dog"])
  = ["dog"].
Proof.
  apply (failed_prompts_can_be_pasted_back two_prompts_text ["dog"]).
  intros q [<-|[]]. vm_compute. right. left. reflexivity.
Defined.

Lemma accepted_batch_projects_are_well_formed_witness :
  List.length [ {| imagefx_streamlit.title := "A";
                   imagefx_streamlit.prompts := ["purple cat"; "dog"];
                   imagefx_streamlit.project_index := 1 |} ]
  = Nat.min (List.length ["A"]) (List.length [two_prompts_text])
  /\ [ {| imagefx_streamlit.title := "A";
          imagefx_streamlit.prompts := ["purple cat"; "dog"];
          imagefx_streamlit.project_index := 1 |} ] <> []
  /\ forall k p,
       nth_error [ {| imagefx_streamlit.title := "A";
                      imagefx_streamlit.prompts := ["purple cat"; "dog"];
                      imagefx_streamlit.project_index := 1 |} ] k = Some p ->
       nth_error ["A"] k = Some (imagefx_streamlit.title p)
       /\ imagefx_streamlit.project_index p = k + 1
       /\ prompt_input.well_formed_project p
       /\ forall t, In t (imagefx_streamlit.prompts p) ->
            Prompt.prompt (imagefx_streamlit.prompt_obj token_sidebar t) = t.
Proof.
  apply (accepted_batch_projects_are_well_formed ["A"] [two_prompts_text]).
  vm_compute. reflexivity.
Defined.

Lemma written_cookie_is_read_back_witness :
  cookie_file.parse_lines (["# Netscape HTTP Cookie File"] ++ [session_cookie_line])
  = if "labs.google" =? "labs.google"
    then <["__Secure-next-auth.session-token" := sample_token]>
           (cookie_file.parse_lines ["# Netscape HTTP Cookie File"])
    else cookie_file.parse_lines ["# Netscape HTTP Cookie File"].
Proof.
  apply (written_cookie_is_read_back ["# Netscape HTTP Cookie File"]
           "labs.google" "FALSE" "/" "TRUE" "1790000000"
           "__Secure-next-auth.session-token" sample_token);
    vm_compute; reflexivity.
Defined.

Lemma cookie_with_empty_value_is_skipped_witness :
  cookie_file.parse_lines
    ([session_cookie_line]
       ++ [cookie_file.cookie_line "labs.google" "FALSE" "/" "TRUE" "1790000000"
             "session-token" EmptyString])
  = cookie_file.parse_lines [session_cookie_line].
Proof.
  apply (cookie_with_empty_value_is_skipped [session_cookie_line]
           "labs.google" "FALSE" "/" "TRUE" "1790000000" "session-token");
    vm_compute; reflexivity.
Defined.

Lemma unusable_cookie_file_is_fatal_witness :
  exists msg,
    ImageFX.__init__ no_files token_and_missing_file
    = Raise (ValueError ("Failed to load cookies from file: " ++ msg)).
Proof.
  apply (unusable_cookie_file_is_fatal no_files token_and_missing_file).
  - vm_compute. reflexivity.
  - left. vm_compute. reflexivity.
Defined.

Lemma init_reads_token_from_file_witness :
  ImageFX.__init__ (cookie_file.filesystem_of text_files) file_credentials
  = Return {| cookie := Some (if String.prefix ImageFX.session_prefix sample_token
                              then sample_token
                              else (ImageFX.session_prefix ++ sample_token)%string);
              authorization_key := authorization_key file_credentials;
              cookie_file := cookie_file file_credentials |}.
Proof.
  apply (init_reads_token_from_file text_files file_credentials "cookies.txt"
           ["# Netscape HTTP Cookie File"]
           [cookie_file.cookie_line ".google.com" "TRUE" "/" "TRUE" "1790000000"
              "NID" "511=abc"]
           "FALSE" "/" "TRUE" "1790000000" sample_token);
    try (vm_compute; reflexivity).
  vm_compute. lia.
Defined.

Lemma web_client_never_sends_an_empty_bearer_witness :
  exists key,
    truthy key = true
    /\ generate_request (VStr "ya29.token")
         (imagefx_streamlit.build_request_body imagen4_prompt)
       = generate_request key
           (imagefx_streamlit.build_request_body
              (snd (cookie_credentials, imagen4_prompt))).
Proof.
  apply (web_client_never_sends_an_empty_bearer net_up
           (cookie_credentials, imagen4_prompt)).
  - vm_compute. right. left. reflexivity.
  - reflexivity.
Defined.

Lemma falsy_token_stops_the_web_client_only_witness :
  imagefx_streamlit.generate_image null_token_net (cookie_credentials, imagen4_prompt)
  = (Return (Err (Text "Failed to obtain authorization token from cookie")),
     (set_authorization_key (fst (cookie_credentials, imagen4_prompt)) VNone,
      snd (cookie_credentials, imagen4_prompt)),
     [session_request (fst (cookie_credentials, imagen4_prompt))])
  /\ snd (imagefx.generate_image null_token_net (cookie_credentials, imagen4_prompt))
     = [session_request (fst (cookie_credentials, imagen4_prompt));
        generate_request VNone
          (imagefx.build_request_body
             (imagefx.alias_model (snd (cookie_credentials, imagen4_prompt))))].
Proof.
  apply (falsy_token_stops_the_web_client_only null_token_net
           (cookie_credentials, imagen4_prompt) null_token_response
           [("access_token", VNone)] VNone);
    vm_compute; reflexivity.
Defined.

Lemma clients_agree_on_complete_entries_witness :
  imagefx.decode complete_response
  = Return (Ok (usable imagen4_prompt [complete_entry]))
  /\ List.length (usable imagen4_prompt [complete_entry]) = List.length [complete_entry]
  /\ imagefx_streamlit.decode imagen4_prompt complete_response
     = Ok (usable imagen4_prompt [complete_entry]).
Proof.
  apply (clients_agree_on_complete_entries imagen4_prompt complete_response
           (body_of [complete_entry]) (panel_of [complete_entry]) [] [complete_entry]);
    reflexivity.
Defined.


Lemma run_labels_its_records_witness :
  Forall (image_of [three_prompts])
         (imagefx_streamlit.all_generated_images
            (snd (fst (imagefx_streamlit.run no_files second_fails in_order token_sidebar
                         [three_prompts] fresh_session))))
  /\ Forall (failure_of [three_prompts])
            (imagefx_streamlit.failed_prompts
               (snd (fst (imagefx_streamlit.run no_files second_fails in_order
                            token_sidebar [three_prompts] fresh_session)))).
Proof.
  apply (run_labels_its_records no_files second_fails in_order token_sidebar
           [three_prompts] fresh_session).
  - vm_compute. reflexivity.
  - repeat constructor.
Defined.


Lemma fresh_page_marker_is_deleted_again_witness :
  page_state.begin_run finished_session !! "page_refresh" = None
  /\ page_state.begin_run finished_session !! "generation_complete"
     = Some (page_state.Flag false)
  /\ page_state.begin_run finished_session !! "show_download_button"
     = Some (page_state.Flag false)
  /\ page_state.begin_run finished_session !! "all_generated_images"
     = Some (page_state.Images [])
  /\ page_state.begin_run finished_session !! "failed_prompts"
     = Some (page_state.Failures [])
  /\ page_state.begin_run finished_session !! "project_titles" = None
  /\ forall later : gmap string page_state.stored,
       later !! "generation_complete"
       = page_state.begin_run finished_session !! "generation_complete" ->
       page_state.shows_results later = Return false.
Proof.
  apply (fresh_page_marker_is_deleted_again finished_session).
  vm_compute. reflexivity.
Defined.

Lemma label_selects_the_option_beside_it_witness :
  sidebar_settings.aspect_ratio "IMAGEN_3" "Portrait (9:16) - IMAGEN_3_PORTRAIT"
  = Return "IMAGEN_3_PORTRAIT".
Proof.
  apply (label_selects_the_option_beside_it "IMAGEN_3" "IMAGEN_3_PORTRAIT"
           "Portrait (9:16) - IMAGEN_3_PORTRAIT").
  vm_compute. right. left. reflexivity.
Defined.

Lemma sidebar_choice_sends_wire_names_witness :
  exists option,
    sidebar_settings.aspect_ratio "IMAGEN_4" "Landscape (16:9)" = Return option
    /\ In (request_body.modelNameType
             (imagefx_streamlit.build_request_body
                (Prompt.mk "purple cat" (Some 4%Z) None "IMAGEN_4" option)))
          sidebar_settings.wire_models
    /\ String.prefix "IMAGE_ASPECT_RATIO_"
         (request_body.aspectRatio
            (imagefx_streamlit.build_request_body
               (Prompt.mk "purple cat" (Some 4%Z) None "IMAGEN_4" option))) = true
    /\ (request_body.modelNameType
          (imagefx_streamlit.build_request_body
             (Prompt.mk "purple cat" (Some 4%Z) None "IMAGEN_4" option))
        = actual_model (sidebar_settings.get_model_aspect_ratios "IMAGEN_4")
        <-> "IMAGEN_4" <> "IMAGEN_3" /\ "IMAGEN_4" <> "IMAGEN_4").
Proof.
  apply (sidebar_choice_sends_wire_names "IMAGEN_4" "Landscape (16:9)" "purple cat"
           (Some 4%Z) None).
  - vm_compute. left. reflexivity.
  - vm_compute. left. reflexivity.
Defined.

Lemma checked_arguments_make_a_client_witness :
  ["purple cat"] <> []
  /\ (cli_main.args_model token_command_line = "IMAGEN_3" ->
      In (cli_main.args_ratio token_command_line) cli_main.valid_imagen3_ratios)
  /\ ((exists c, ImageFX.__init__ no_files (cli_main.credentials token_command_line)
                 = Return c)
      \/ (truthy_str (cli_main.args_cookie_file token_command_line) = true
          /\ (ImageFX.__init__ no_files (cli_main.credentials token_command_line)
              = Raise (ValueError ("Failed to load cookies from file: "
                                     ++ "No session token found in cookie file"))
              \/ ImageFX.__init__ no_files (cli_main.credentials token_command_line)
                 = Raise (ValueError "Invalid cookie was provided.")))).
Proof.
  apply (checked_arguments_make_a_client no_files (fun _ => None) token_command_line
           ["purple cat"]).
  vm_compute. reflexivity.
Defined.

End Witnesses.
